(** * Meeting Video Processor: a shallow embedding of [meeting_processor.py]

    The development follows the source file top-down: the [Config] class
    with its parameter validation, then the [MeetingProcessor] methods
    (date resolution, workspace creation, the three external tools, prompt
    and note preparation, the retry wrapper, the upload/generation step and
    the two cleanup policies), and finally [run].

    Python objects are modelled by what the code reads from them:
    - JSON numbers are rationals ([Q]); every float that occurs is compared,
      never added or multiplied, so the order on [Q] is the order the code
      sees (the one division, a byte count by [1024 * 1024], is exact);
    - an exception is a record of the attributes that
      [_retry_with_exponential_backoff] probes, plus its class name;
    - a method of [MeetingProcessor] is a function from the processor's
      world (configuration, derived paths, file system, trace of effects)
      to an outcome and a new world: what happened before a [raise] stays. *)

From Stdlib Require Import ZArith QArith String Ascii List Bool Lia Lqa.
From stdpp Require Import base strings gmap list.
Import ListNotations.
Close Scope Q_scope.
Open Scope string_scope.
Open Scope list_scope.
Open Scope Z_scope.

(* ===================================================================== *)
(** * Python values the code inspects *)
(* ===================================================================== *)

(** Python's [a < b] on JSON numbers. *)
Definition py_lt (a b : Q) : bool := negb (Qle_bool b a).

(** The builtins [min(a, b)] and [max(a, b)]: the first argument is kept
    unless the second is strictly smaller (resp. larger). *)
Definition py_min (a b : Q) : Q := if py_lt b a then b else a.
Definition py_max (a b : Q) : Q := if py_lt a b then b else a.

(** [int(x)] truncates towards zero. *)
Definition py_int (x : Q) : Z := Z.quot (Qnum x) (Zpos (Qden x)).

(** The same builtins on machine-independent integers. *)
Definition py_minZ (a b : Z) : Z := if b <? a then b else a.
Definition py_maxZ (a b : Z) : Z := if a <? b then b else a.

(** ** Substring search: Python's [sub in s] *)

Fixpoint starts_with (sub s : string) : bool :=
  match sub, s with
  | EmptyString, _ => true
  | String a sub', String b s' => Ascii.eqb a b && starts_with sub' s'
  | String _ _, EmptyString => false
  end.

Fixpoint contains (sub s : string) : bool :=
  starts_with sub s ||
  match s with
  | EmptyString => false
  | String _ s' => contains sub s'
  end.

(** [str.lower()] on the ASCII range. *)
Definition lower_ascii (c : ascii) : ascii :=
  let n := nat_of_ascii c in
  if (Nat.leb 65 n && Nat.leb n 90)%bool then ascii_of_nat (n + 32) else c.

Fixpoint lower (s : string) : string :=
  match s with
  | EmptyString => EmptyString
  | String c s' => String (lower_ascii c) (lower s')
  end.

(** [str.endswith]. *)
Definition ends_with (suffix s : string) : bool :=
  let ls := String.length s in
  let lx := String.length suffix in
  Nat.leb lx ls && String.eqb (substring (ls - lx) lx s) suffix.

(* ===================================================================== *)
(** * [Config]: model limits and generation parameters *)
(* ===================================================================== *)

(** The ["parameter_defaults"] dictionary of a model: every key may be
    missing. *)
Record ParamDict := {
  pd_temperature : option Q;
  pd_top_p : option Q;
  pd_top_k : option Q;
  pd_candidate_count : option Q
}.

(** One entry of the model-limits table; a missing key is [None]. *)
Record ModelLimits := {
  max_input_tokens : option Z;
  max_output_tokens : option Z;
  max_images_per_prompt : option Z;
  max_image_size_mb : option Q;
  max_audio_length_hours : option Q;
  max_audio_files_per_prompt : option Z;
  parameter_defaults : option ParamDict
}.

(** The empty dictionary [{}]. *)
Definition no_limits : ModelLimits :=
  {| max_input_tokens := None; max_output_tokens := None;
     max_images_per_prompt := None; max_image_size_mb := None;
     max_audio_length_hours := None; max_audio_files_per_prompt := None;
     parameter_defaults := None |}.

(** The literal the code falls back on when ["parameter_defaults"] is
    absent. *)
Definition fallback_parameter_defaults : ParamDict :=
  {| pd_temperature := Some (3 # 10)%Q; pd_top_p := Some (95 # 100)%Q;
     pd_top_k := Some (64 # 1)%Q; pd_candidate_count := Some (1 # 1)%Q |}.

Definition default_limits (out_tokens : Z) : ModelLimits :=
  {| max_input_tokens := Some 1048576; max_output_tokens := Some out_tokens;
     max_images_per_prompt := Some 3000; max_image_size_mb := Some (7 # 1)%Q;
     max_audio_length_hours := Some (84 # 10)%Q;
     max_audio_files_per_prompt := Some 1;
     parameter_defaults := Some fallback_parameter_defaults |}.

(** The table [_load_model_limits] returns when no file is found. *)
Definition default_model_limits : gmap string ModelLimits :=
  <["gemini-2.5-pro" := default_limits 65535]>
  (<["gemini-2.5-flash" := default_limits 65535]>
  (<["gemini-2.0-flash" := default_limits 8192]> ∅)).

(** A path is the list of its components. *)
Abbreviation path := (list string) (only parsing).

Record Config := {
  handbrake_preset_file : string;
  default_prompt : string;
  gemini_model : string;
  gemini_api_key : string;
  preferred_date_source : string;
  target_directory : path;       (* [[]] when unset *)
  dry_run : bool;
  no_cleanup : bool;
  model_limits : gmap string ModelLimits
}.

(** [Config.get_model_limits]. *)
Definition get_model_limits (c : Config) (model_name : string) : ModelLimits :=
  default (default no_limits (model_limits c !! "gemini-2.5-pro"))
          (model_limits c !! model_name).

(** The dictionary [get_parameter_defaults] returns. *)
Record ValidatedDefaults := {
  v_temperature : Q;
  v_top_p : Q;
  v_top_k : Z;
  v_candidate_count : Z
}.

(** The validation block of [get_parameter_defaults], on the dictionary it
    read.  The second component lists the parameters for which a warning
    line is printed. *)
Definition validate_parameter_defaults (defaults : ParamDict)
  : ValidatedDefaults * list string :=
  let temp := default (3 # 10)%Q (pd_temperature defaults) in
  let w1 := if py_lt temp 0 || py_lt 2 temp then ["temperature"] else [] in
  let top_p := default (95 # 100)%Q (pd_top_p defaults) in
  let w2 := if py_lt top_p 0 || py_lt 1 top_p then ["top_p"] else [] in
  let candidate_count := default (1 # 1)%Q (pd_candidate_count defaults) in
  let w3 := if py_lt candidate_count 1 || py_lt 8 candidate_count
            then ["candidate_count"] else [] in
  ({| v_temperature := py_max 0 (py_min 2 temp);
      v_top_p := py_max 0 (py_min 1 top_p);
      v_top_k := 64;
      v_candidate_count := py_maxZ 1 (py_minZ 8 (py_int candidate_count)) |},
   w1 ++ w2 ++ w3).

(** [Config.get_parameter_defaults]. *)
Definition get_parameter_defaults (c : Config) (model_name : string)
  : ValidatedDefaults * list string :=
  let limits := get_model_limits c model_name in
  validate_parameter_defaults
    (default fallback_parameter_defaults (parameter_defaults limits)).

(** What the specification calls clamping to [[lo, hi]]. *)
Definition clampQ (lo hi x : Q) : Q :=
  if py_lt x lo then lo else if py_lt hi x then hi else x.

Definition clampZ (lo hi x : Z) : Z := Z.max lo (Z.min hi x).

(* ===================================================================== *)
(** * Exceptions, the file system and the trace of effects *)
(* ===================================================================== *)

(** A value found in an exception attribute: [status_code] may hold a
    number or anything else (here: a string). *)
Inductive pyval := PyInt (z : Z) | PyStr (s : string).

(** An exception, as far as the program can tell exceptions apart:
    the optional attributes are those probed with [hasattr]; for
    [message] and [details] the field holds [str] of the attribute. *)
Record exn := {
  exn_class : string;
  exn_status_code : option pyval;
  exn_message : option string;
  exn_details : option string;
  exn_str : string
}.

Definition plain_exn (cls msg : string) : exn :=
  {| exn_class := cls; exn_status_code := None; exn_message := None;
     exn_details := None; exn_str := msg |}.

Definition RuntimeError := plain_exn "RuntimeError".
Definition ValueError := plain_exn "ValueError".
Definition FileNotFoundError := plain_exn "FileNotFoundError".
Definition FileExistsError := plain_exn "FileExistsError".
Definition ImportError := plain_exn "ImportError".
Definition AttributeError := plain_exn "AttributeError".
Definition IsADirectoryError := plain_exn "IsADirectoryError".
Definition UnicodeDecodeError := plain_exn "UnicodeDecodeError".

Inductive outcome (A : Type) : Type :=
| Return (a : A)
| Raise (e : exn).
Arguments Return {A} a.
Arguments Raise {A} e.

(** ** Files *)

(** Text files carry their text; media files only their size in bytes. *)
Inductive filedata := Text (s : string) | Blob (size : Z).

Inductive node := Dir | File (d : filedata).

(** The file system lists its entries in directory order: [glob] returns
    them in that order. *)
Abbreviation FS := (list (list string * node)) (only parsing).

Definition path_eqb (p q : path) : bool := bool_decide (p = q).

Fixpoint is_prefix (d p : path) : bool :=
  match d, p with
  | [], _ => true
  | x :: d', y :: p' => String.eqb x y && is_prefix d' p'
  | _ :: _, [] => false
  end.

Fixpoint fs_lookup (p : path) (fs : FS) : option node :=
  match fs with
  | [] => None
  | (q, n) :: fs' => if path_eqb q p then Some n else fs_lookup p fs'
  end.

(** [Path.exists()]. *)
Definition fs_exists (p : path) (fs : FS) : bool :=
  match fs_lookup p fs with Some _ => true | None => false end.

Definition data_size (d : filedata) : Z :=
  match d with
  | Text s => Z.of_nat (String.length s)
  | Blob n => n
  end.

(** [Path.stat().st_size] of an existing entry (directories count 0). *)
Definition st_size (p : path) (fs : FS) : Z :=
  match fs_lookup p fs with
  | Some (File d) => data_size d
  | _ => 0
  end.

Fixpoint fs_replace (p : path) (n : node) (fs : FS) : FS :=
  match fs with
  | [] => []
  | (q, m) :: fs' =>
      if path_eqb q p then (q, n) :: fs' else (q, m) :: fs_replace p n fs'
  end.

(** Create or overwrite the entry at [p]. *)
Definition fs_put (p : path) (n : node) (fs : FS) : FS :=
  if fs_exists p fs then fs_replace p n fs else fs ++ [(p, n)].

(** [shutil.rmtree(d)]: the entry and everything below it. *)
Definition fs_rmtree (d : path) (fs : FS) : FS :=
  filter (fun e => negb (is_prefix d (fst e))) fs.

(** [shutil.rmtree(d)] that raises on the way: the entries below [d] it
    had removed by then ([gone]) are missing, [d] itself is still there. *)
Definition fs_rmtree_partial (gone : path -> bool) (d : path) (fs : FS) : FS :=
  filter (fun e => negb (is_prefix d (fst e)
                         && negb (path_eqb (fst e) d)
                         && gone (fst e))) fs.

(** The proper, non-empty prefixes of a path, shortest first, then the
    path itself: what [mkdir(parents=True)] may have to create. *)
Fixpoint ancestors_and_self (p : path) : list path :=
  match p with
  | [] => []
  | x :: p' => [x] :: map (cons x) (ancestors_and_self p')
  end.

Definition fs_mkdirs (p : path) (fs : FS) : FS :=
  fold_left (fun acc d => if fs_exists d acc then acc else acc ++ [(d, Dir)])
            (ancestors_and_self p) fs.

Definition parent (p : path) : path := removelast p.

Definition parent_exists (p : path) (fs : FS) : bool :=
  match parent p with
  | [] => true
  | d => match fs_lookup d fs with Some Dir => true | _ => false end
  end.

(** [dir.glob("*.jpg")]: the children of [dir] whose name ends in [.jpg],
    in directory order. *)
Definition glob_jpg (dir : path) (fs : FS) : list path :=
  map fst
    (filter (fun e =>
       path_eqb (parent (fst e)) dir
       && negb (path_eqb (fst e) [])
       && ends_with ".jpg" (List.last (fst e) "")) fs).

(** ** Effects *)

Inductive level := INFO | WARNING | ERROR.

Inductive date_source := Metadata | FileMtime | Manual.

Inductive tool := HandBrakeCLI | FfmpegAudio | FfmpegFrames | FfprobeDuration.

(** The identity of an uploaded file on the service ([uploaded.name]). *)
Abbreviation handle := string (only parsing).

(** One element of [content_parts]. *)
Inductive part := PText (s : string) | PFile (h : handle).

Inductive event :=
| Log (l : level) (msg : string)      (* a logger line *)
| Consult (s : date_source)           (* a date source is asked *)
| RunTool (t : tool)                  (* [subprocess.run] *)
| CountTokens
| Upload (p : path)                   (* [client.files.upload] *)
| Generate (parts : list part) (params : ValidatedDefaults)
           (max_output_tokens : Z)    (* [client.models.generate_content] *)
| Delete (h : handle)                 (* [client.files.delete] *)
| Sleep (seconds : Z)                 (* [time.sleep] of the retry wrapper *)
| Pause.                              (* [time.sleep(0.1)] of the upload loop *)

(** The processor object and the machine it runs on. *)
Record World := {
  config : Config;
  video_path : path;
  target_dir : option path;     (* [None] while the attribute is still [""] *)
  fs : FS;
  gen_calls : nat;              (* generation requests sent so far *)
  trace : list event
}.

Definition set_config (c : Config) (w : World) : World :=
  {| config := c; video_path := video_path w; target_dir := target_dir w;
     fs := fs w; gen_calls := gen_calls w; trace := trace w |}.
Definition set_video_path (p : path) (w : World) : World :=
  {| config := config w; video_path := p; target_dir := target_dir w;
     fs := fs w; gen_calls := gen_calls w; trace := trace w |}.
Definition set_target_dir (d : path) (w : World) : World :=
  {| config := config w; video_path := video_path w; target_dir := Some d;
     fs := fs w; gen_calls := gen_calls w; trace := trace w |}.
Definition set_fs (f : FS) (w : World) : World :=
  {| config := config w; video_path := video_path w; target_dir := target_dir w;
     fs := f; gen_calls := gen_calls w; trace := trace w |}.
Definition bump_gen_calls (w : World) : World :=
  {| config := config w; video_path := video_path w; target_dir := target_dir w;
     fs := fs w; gen_calls := S (gen_calls w); trace := trace w |}.
Definition add_event (e : event) (w : World) : World :=
  {| config := config w; video_path := video_path w; target_dir := target_dir w;
     fs := fs w; gen_calls := gen_calls w; trace := trace w ++ [e] |}.

Definition set_preferred_date_source (s : string) (c : Config) : Config :=
  {| handbrake_preset_file := handbrake_preset_file c;
     default_prompt := default_prompt c; gemini_model := gemini_model c;
     gemini_api_key := gemini_api_key c; preferred_date_source := s;
     target_directory := target_directory c; dry_run := dry_run c;
     no_cleanup := no_cleanup c; model_limits := model_limits c |}.

(** ** The monad of methods: state plus exceptions *)

Definition M (A : Type) : Type := World -> outcome A * World.

Definition ret {A} (a : A) : M A := fun w => (Return a, w).
Definition raise {A} (e : exn) : M A := fun w => (Raise e, w).
Definition bind {A B} (m : M A) (k : A -> M B) : M B :=
  fun w => match m w with
           | (Return a, w') => k a w'
           | (Raise e, w') => (Raise e, w')
           end.

(** [try: body except Exception as e: handler e]. *)
Definition try_except {A} (body : M A) (handler : exn -> M A) : M A :=
  fun w => match body w with
           | (Return a, w') => (Return a, w')
           | (Raise e, w') => handler e w'
           end.

Definition get : M World := fun w => (Return w, w).
Definition modify (f : World -> World) : M unit := fun w => (Return tt, f w).
Definition emit (e : event) : M unit := modify (add_event e).
Definition log (l : level) (msg : string) : M unit := emit (Log l msg).

Declare Scope M_scope.
Delimit Scope M_scope with M.
Notation "'let*' x ':=' c 'in' k" := (bind c (fun x => k))
  (at level 10, x name, c at level 100, k at level 200) : M_scope.
Notation "c1 ';;' c2" := (bind c1 (fun _ => c2))
  (at level 100, c2 at level 200, right associativity) : M_scope.
Notation "'when' b 'then' c" := (if b then c else ret tt)
  (at level 10, b at level 100, c at level 200) : M_scope.
Open Scope M_scope.

(** [open(p, 'w').write(d)], [touch], [copy2]: the parent must exist. *)
Definition write_file (p : path) (d : filedata) : M unit :=
  let* w := get in
  if parent_exists p (fs w)
  then modify (set_fs (fs_put p (File d) (fs w)))
  else raise (FileNotFoundError "No such file or directory").

(** [open(p, 'r').read()]. *)
Definition read_text (p : path) : M string :=
  let* w := get in
  match fs_lookup p (fs w) with
  | Some (File (Text s)) => ret s
  | Some (File (Blob _)) => raise (UnicodeDecodeError "invalid start byte")
  | Some Dir => raise (IsADirectoryError "Is a directory")
  | None => raise (FileNotFoundError "No such file or directory")
  end.

(** [Path.mkdir(parents=..., exist_ok=True)]. *)
Definition mkdir (parents : bool) (p : path) : M unit :=
  let* w := get in
  match fs_lookup p (fs w) with
  | Some Dir => ret tt
  | Some (File _) => raise (FileExistsError "File exists")
  | None =>
      if parents then modify (set_fs (fs_mkdirs p (fs w)))
      else if parent_exists p (fs w)
           then modify (set_fs (fs_put p Dir (fs w)))
           else raise (FileNotFoundError "No such file or directory")
  end.

(** Reading a derived path before [_create_target_directory] ran fails:
    the attribute is still the empty string. *)
Definition with_target_dir {A} (k : path -> M A) : M A :=
  let* w := get in
  match target_dir w with
  | Some d => k d
  | None => raise (AttributeError "'str' object has no such attribute")
  end.

(* ===================================================================== *)
(** * The collaborators *)
(* ===================================================================== *)

(** A point in time, as a timestamp. *)
Abbreviation datetime := Z (only parsing).

(** What the outside world answers during one run: the tools, the user,
    the clock and the generative service.  The program only sees these
    answers, so a run is a function of them and of the initial world. *)
Record Env := {
  script_dir : path;                       (* [Path(__file__).parent] *)
  cwd : path;                              (* [Path.cwd()] *)
  now : datetime;                          (* [datetime.now()] *)
  strftime : datetime -> string;           (* the ["%Y-%m-%d_%H.%M"] rendering *)
  ffprobe_creation_time : option datetime; (* [None]: ffprobe failed, no tag,
                                              or the tag does not parse *)
  mtime : path -> datetime;
  manual_answer : outcome datetime;        (* the two answers, parsed *)
  handbrake : Z * option filedata;         (* exit status, file left at [-o] *)
  ffmpeg_audio : Z * option filedata;
  ffmpeg_frames : Z * list (string * filedata);
  select_answer : option string;           (* [questionary.select(...).ask()] *)
  note_method : option string;
  note_terminal : option string;
  note_editor : string;
  sdk_installed : bool;
  count_tokens : outcome Z;
  audio_duration : option Q;               (* seconds; [None]: probe failed *)
  upload_answer : path -> outcome handle;
  generate_answer : nat -> outcome string; (* [response.text] of the n-th call *)
  delete_answer : handle -> option exn;
  rmtree_error : path -> option exn;       (* [None]: [rmtree] works *)
  rmtree_removed : path -> path -> bool    (* [rmtree_removed d q]: [q] was gone
                                              when [rmtree(d)] raised *)
}.

(** [subprocess.run(cmd)]: the tool leaves its files and an exit status. *)
Definition subprocess_run (t : tool) (returncode : Z)
    (writes : list (path * filedata)) : M Z :=
  emit (RunTool t) ;;
  modify (fun w =>
    set_fs (fold_left (fun f e => fs_put (fst e) (File (snd e)) f) writes (fs w)) w) ;;
  ret returncode.

(** [shutil.rmtree]: when it raises, part of the tree may be gone. *)
Definition rmtree (env : Env) (d : path) : M unit :=
  match rmtree_error env d with
  | Some e =>
      modify (fun w => set_fs (fs_rmtree_partial (rmtree_removed env d) d (fs w)) w) ;;
      raise e
  | None => modify (fun w => set_fs (fs_rmtree d (fs w)) w)
  end.

(* ===================================================================== *)
(** * [MeetingProcessor]: date and time *)
(* ===================================================================== *)

Definition valid_sources : list string := ["metadata"; "file_mtime"; "manual"].

Definition source_is (s : string) : M bool :=
  let* w := get in ret (String.eqb (preferred_date_source (config w)) s).

(** [self.config.preferred_date_source = s]: the shared setting is
    overwritten as the chain proceeds. *)
Definition set_source (s : string) : M unit :=
  modify (fun w => set_config (set_preferred_date_source s (config w)) w).

(** [_extract_datetime_from_metadata]: every failure is caught and logged;
    the method returns [None]. *)
Definition extract_datetime_from_metadata (env : Env) : M (option datetime) :=
  emit (Consult Metadata) ;;
  match ffprobe_creation_time env with
  | Some dt => ret (Some dt)
  | None => log WARNING "Could not extract datetime from metadata" ;; ret None
  end.

(** [_extract_datetime_from_file_mtime]. *)
Definition extract_datetime_from_file_mtime (env : Env) : M (option datetime) :=
  emit (Consult FileMtime) ;;
  let* w := get in
  if fs_exists (video_path w) (fs w)
  then ret (Some (mtime env (video_path w)))
  else log WARNING "Video file does not exist" ;; ret None.

(** [_get_manual_datetime]: the clock in a dry run, the user otherwise; a
    malformed answer raises. *)
Definition get_manual_datetime (env : Env) : M datetime :=
  emit (Consult Manual) ;;
  let* w := get in
  if dry_run (config w) then ret (now env)
  else match manual_answer env with
       | Return dt => ret dt
       | Raise e => raise e
       end.

(** [_extract_datetime]. *)
Definition extract_datetime (env : Env) : M datetime :=
  let* w := get in
  (when negb (existsb (String.eqb (preferred_date_source (config w))) valid_sources)
   then (log WARNING "Invalid PREFERRED_DATE_SOURCE. Using 'metadata' as fallback." ;;
         set_source "metadata")) ;;
  let* is_metadata := source_is "metadata" in
  let* r1 :=
    (if is_metadata then
       let* dt := extract_datetime_from_metadata env in
       match dt with
       | Some d => ret (Some d)
       | None =>
           log WARNING "Metadata extraction failed, falling back to file_mtime" ;;
           set_source "file_mtime" ;; ret None
       end
     else ret None) in
  match r1 with
  | Some d => ret d
  | None =>
  let* is_file_mtime := source_is "file_mtime" in
  let* r2 :=
    (if is_file_mtime then
       let* dt := extract_datetime_from_file_mtime env in
       match dt with
       | Some d => ret (Some d)
       | None =>
           log WARNING "File modification time extraction failed, falling back to manual input" ;;
           set_source "manual" ;; ret None
       end
     else ret None) in
  match r2 with
  | Some d => ret d
  | None =>
  let* is_manual := source_is "manual" in
  if is_manual then get_manual_datetime env
  else
    log ERROR "All date extraction methods failed" ;;
    let* w := get in
    if dry_run (config w) then ret (now env)
    else raise (RuntimeError "Could not extract datetime from any source")
  end end.

(** The sources a trace shows to have been consulted, in order. *)
Definition consulted (t : list event) : list date_source :=
  omap (fun e => match e with Consult s => Some s | _ => None end) t.

(** ** The order the specification describes

    "Attempts the preferred source first; on failure falls through the fixed
    order metadata, file_mtime, manual, skipping the already-tried preferred
    source." *)

Definition date_source_eqb (a b : date_source) : bool :=
  match a, b with
  | Metadata, Metadata | FileMtime, FileMtime | Manual, Manual => true
  | _, _ => false
  end.

Definition fixed_order : list date_source := [Metadata; FileMtime; Manual].

Definition spec_attempt_order (preferred : date_source) : list date_source :=
  preferred :: filter (fun s => negb (date_source_eqb s preferred)) fixed_order.

(** The order the code follows: the fixed order from the preferred source
    onwards. *)
Definition chain_from (preferred : date_source) : list date_source :=
  match preferred with
  | Metadata => [Metadata; FileMtime; Manual]
  | FileMtime => [FileMtime; Manual]
  | Manual => [Manual]
  end.

Definition source_name (s : date_source) : string :=
  match s with
  | Metadata => "metadata"
  | FileMtime => "file_mtime"
  | Manual => "manual"
  end.

(** Whether a source yields a timestamp in a given world. *)
Definition source_succeeds (env : Env) (w : World) (s : date_source) : bool :=
  match s with
  | Metadata => match ffprobe_creation_time env with Some _ => true | None => false end
  | FileMtime => fs_exists (video_path w) (fs w)
  | Manual => dry_run (config w)
              || match manual_answer env with Return _ => true | Raise _ => false end
  end.

(** The attempts made along an order: up to and including the first source
    that succeeds. *)
Fixpoint attempts_along (ok : date_source -> bool) (order : list date_source)
  : list date_source :=
  match order with
  | [] => []
  | s :: rest => if ok s then [s] else s :: attempts_along ok rest
  end.

(* ===================================================================== *)
(** * [MeetingProcessor]: workspace and external tools *)
(* ===================================================================== *)

(** [_create_target_directory]. *)
Definition create_target_directory (env : Env) (recording_datetime : datetime)
  : M unit :=
  let* w := get in
  let c := config w in
  (match target_directory c with
   | _ :: _ =>
       modify (set_target_dir (target_directory c)) ;;
       (when negb (dry_run c) then mkdir true (target_directory c))
   | [] =>
       let d := cwd env ++ [strftime env recording_datetime] in
       modify (set_target_dir d) ;;
       (when negb (dry_run c) then mkdir false d)
   end).

(** [_convert_video]. *)
Definition convert_video (env : Env) : M unit :=
  log INFO "Converting video with HandBrakeCLI using JSON preset..." ;;
  with_target_dir (fun d =>
    let output_path := d ++ ["small.mp4"] in
    let* w := get in
    let preset_file_path := script_dir env ++ [handbrake_preset_file (config w)] in
    if negb (fs_exists preset_file_path (fs w))
    then raise (FileNotFoundError "HandBrake preset file not found")
    else if negb (dry_run (config w)) then
      let* returncode :=
        subprocess_run HandBrakeCLI (fst (handbrake env))
          (match snd (handbrake env) with
           | Some data => [(output_path, data)]
           | None => []
           end) in
      if negb (returncode =? 0)
      then raise (RuntimeError "HandBrakeCLI failed")
      else
        let* w := get in
        if negb (fs_exists output_path (fs w))
        then raise (RuntimeError "HandBrakeCLI reported success but output file was not created")
        else if st_size output_path (fs w) =? 0
        then raise (RuntimeError "HandBrakeCLI created empty output file")
        else log INFO "Video conversion completed"
    else log INFO "DRY RUN: Would run HandBrakeCLI").

(** [_extract_audio]. *)
Definition extract_audio (env : Env) : M unit :=
  log INFO "Extracting audio..." ;;
  with_target_dir (fun d =>
    let* w := get in
    if negb (dry_run (config w)) then
      let* returncode :=
        subprocess_run FfmpegAudio (fst (ffmpeg_audio env))
          (match snd (ffmpeg_audio env) with
           | Some data => [(d ++ ["audio.m4a"], data)]
           | None => []
           end) in
      if negb (returncode =? 0)
      then raise (RuntimeError "Audio extraction failed")
      else log INFO "Audio extraction completed"
    else log INFO "DRY RUN: Would run ffmpeg").

(** [_extract_frames]. *)
Definition extract_frames (env : Env) : M unit :=
  log INFO "Extracting frames..." ;;
  with_target_dir (fun d =>
    let frames_dir := d ++ ["frames"] in
    let* w := get in
    (when negb (dry_run (config w)) then mkdir false frames_dir) ;;
    if negb (dry_run (config w)) then
      let* returncode :=
        subprocess_run FfmpegFrames (fst (ffmpeg_frames env))
          (map (fun f => (frames_dir ++ [fst f], snd f)) (snd (ffmpeg_frames env))) in
      if negb (returncode =? 0)
      then raise (RuntimeError "Frame extraction failed")
      else log INFO "Frame extraction completed"
    else log INFO "DRY RUN: Would run ffmpeg").

(** [_create_meeting_md]: [touch] leaves an existing file as it is. *)
Definition create_meeting_md : M unit :=
  log INFO "Creating meeting.md..." ;;
  let* w := get in
  if negb (dry_run (config w)) then
    with_target_dir (fun d =>
      let p := d ++ ["meeting.md"] in
      (if fs_exists p (fs w) then ret tt else write_file p (Text "")) ;;
      log INFO "Created meeting.md")
  else log INFO "DRY RUN: Would create meeting.md".

(* ===================================================================== *)
(** * [MeetingProcessor]: prompt and notes *)
(* ===================================================================== *)

Definition shortcut_mapping : gmap string string :=
  <["only transcript" := "prompt_only_transcript.txt"]>
  (<["without transcript" := "prompt_wo_transcript.txt"]> ∅).

(** [_resolve_prompt_shortcut]. *)
Definition resolve_prompt_shortcut (prompt_input : string) : string :=
  default prompt_input (shortcut_mapping !! lower prompt_input).

(** [s.split(sep)[0]]: the text before the first occurrence of [sep]. *)
Fixpoint before_sep (sep s : string) : string :=
  if starts_with sep s then EmptyString
  else match s with
       | EmptyString => EmptyString
       | String c s' => String c (before_sep sep s')
       end.

(** [_select_and_copy_prompt]. *)
Definition select_and_copy_prompt (env : Env) (prompt_type : option string)
  : M unit :=
  log INFO "Selecting prompt template..." ;;
  let* w := get in
  let c := config w in
  let* prompt_file :=
    (match prompt_type with
     | Some (String a s) => ret (resolve_prompt_shortcut (String a s))
     | _ =>
         if negb (String.eqb (default_prompt c) "")
         then ret (resolve_prompt_shortcut (default_prompt c))
         else if negb (dry_run c) then
           match select_answer env with
           | Some choice => ret (resolve_prompt_shortcut (before_sep " - " choice))
           | None => raise (AttributeError "'NoneType' object has no attribute 'split'")
           end
         else ret "prompt.txt"
     end) in
  let source_prompt := script_dir env ++ [prompt_file] in
  match fs_lookup source_prompt (fs w) with
  | Some n =>
      if negb (dry_run c) then
        match n with
        | File data =>
            with_target_dir (fun d => write_file (d ++ ["prompt.txt"]) data) ;;
            log INFO "Copied prompt template"
        | Dir => raise (IsADirectoryError "Is a directory")
        end
      else log INFO "DRY RUN: Would copy prompt template"
  | None => raise (FileNotFoundError "Prompt template not found")
  end.

(** [_create_note_txt].  The editor branch is its result: [note_editor] is
    what is read back from the temporary file once the editor has run; the
    temporary file, created and removed again on the way, and an editor
    that cannot be started are not part of the model. *)
Definition create_note_txt (env : Env) (notes : option string) : M unit :=
  log INFO "Creating note.txt..." ;;
  let* w := get in
  let c := config w in
  let note_content :=
    match notes with
    | Some (String a s) => String a s
    | _ =>
        if negb (dry_run c) then
          if bool_decide (note_method env = Some "Enter directly in terminal")
          then default "" (note_terminal env)
          else note_editor env
        else "# DRY RUN - Notes would be entered here
"
    end in
  if negb (dry_run c) then
    with_target_dir (fun d => write_file (d ++ ["note.txt"]) (Text note_content)) ;;
    log INFO "Created note.txt"
  else log INFO "DRY RUN: Would create note.txt with user input".

(* ===================================================================== *)
(** * [MeetingProcessor]: retry with exponential backoff *)
(* ===================================================================== *)

(** [e.status_code == 503]. *)
Definition status_is_503 (v : pyval) : bool :=
  match v with
  | PyInt z => z =? 503
  | PyStr _ => false
  end.

(** The [if / elif] cascade that sets [is_503_error]. *)
Definition is_503_error (e : exn) : bool :=
  if match exn_status_code e with Some v => status_is_503 v | None => false end
  then true
  else if match exn_message e with Some m => contains "503" m | None => false end
  then true
  else if match exn_details e with Some d => contains "503" d | None => false end
  then true
  else if contains "503" (exn_str e) && contains "UNAVAILABLE" (exn_str e)
  then true
  else false.

(** [range(n)]. *)
Definition py_range (n : Z) : list Z := map Z.of_nat (seq 0 (Z.to_nat n)).

(** The body of the [for attempt in range(max_retries + 1)] loop, over
    the attempts still to be made. *)
Fixpoint retry_loop {A} (func : M A) (max_retries base_delay : Z)
    (attempts : list Z) : M A :=
  match attempts with
  | [] => raise (RuntimeError "Unexpected error in retry logic")
  | attempt :: rest =>
      try_except func (fun e =>
        if is_503_error e then
          if attempt <? max_retries then
            let delay := base_delay * 2 ^ attempt in
            log WARNING "503 UNAVAILABLE error. Retrying..." ;;
            emit (Sleep delay) ;;
            retry_loop func max_retries base_delay rest
          else
            log ERROR "All attempts failed with 503 UNAVAILABLE error" ;;
            raise e
        else
          log ERROR "Non-retryable error" ;;
          raise e)
  end.

(** [_retry_with_exponential_backoff]. *)
Definition retry_with_exponential_backoff {A} (func : M A)
    (max_retries base_delay : Z) : M A :=
  retry_loop func max_retries base_delay (py_range (max_retries + 1)).

(** The [time.sleep] calls of the retry wrapper a trace shows, in order. *)
Definition sleeps (t : list event) : list Z :=
  omap (fun e => match e with Sleep d => Some d | _ => None end) t.

(** A callable whose [n]-th call (counting from the world's
    [gen_calls]) answers [answers n]. *)
Definition scripted {A} (answers : nat -> outcome A) : M A :=
  fun w => (answers (gen_calls w), bump_gen_calls w).

(** [sub] occurs in [s]. *)
Definition Substring (sub s : string) : Prop :=
  exists pre post, s = pre +:+ sub +:+ post.

(** The disjunction the specification gives for a retryable error. *)
Definition Retryable (e : exn) : Prop :=
  exn_status_code e = Some (PyInt 503)
  \/ (exists m, exn_message e = Some m /\ Substring "503" m)
  \/ (exists d, exn_details e = Some d /\ Substring "503" d)
  \/ (Substring "503" (exn_str e) /\ Substring "UNAVAILABLE" (exn_str e)).

(** The world after [k] retryable failures in a row, the first of them on
    attempt [a]: each costs one call, one warning and one sleep. *)
Fixpoint after_failures (base_delay : Z) (a k : nat) (w : World) : World :=
  match k with
  | O => w
  | S k' =>
      after_failures base_delay (S a) k'
        (add_event (Sleep (base_delay * 2 ^ Z.of_nat a))
           (add_event (Log WARNING "503 UNAVAILABLE error. Retrying...")
              (bump_gen_calls w)))
  end.

(* ===================================================================== *)
(** * [MeetingProcessor]: upload and generation *)
(* ===================================================================== *)

Inductive kind := Audio | Frame | Note.

(** [frame_files[:n]], negative [n] included. *)
Definition py_slice_to {A} (l : list A) (n : Z) : list A :=
  if 0 <=? n then firstn (Z.to_nat n) l
  else firstn (length l - Z.to_nat (- n)) l.

(** The token check: the service counts, the code compares and warns. *)
Definition check_prompt_tokens (env : Env) (limits : ModelLimits) : M unit :=
  emit CountTokens ;;
  match count_tokens env with
  | Raise e => raise e
  | Return prompt_tokens =>
      when default 1048576 (max_input_tokens limits) <? prompt_tokens
      then log WARNING "Prompt tokens exceed limit"
  end.

(** The audio entry, with its duration check. *)
Definition collect_audio (env : Env) (limits : ModelLimits) (d : path)
    (files_to_upload : list (kind * path)) : M (list (kind * path)) :=
  let audio_path := d ++ ["audio.m4a"] in
  let* w := get in
  if fs_exists audio_path (fs w) then
    emit (RunTool FfprobeDuration) ;;
    (match audio_duration env with
     | Some seconds =>
         when py_lt (default (84 # 10)%Q (max_audio_length_hours limits))
                    (seconds / (3600 # 1))%Q
         then log WARNING "Audio duration exceeds limit"
     | None => log WARNING "Could not check audio duration"
     end) ;;
    ret (files_to_upload ++ [(Audio, audio_path)])
  else ret files_to_upload.

(** The [for frame_file in frame_files] loop.  [stat] answers for every
    path [glob] has just listed: the file system of the model has no
    dangling link, and nothing else changes it meanwhile. *)
Fixpoint add_frames (limits : ModelLimits) (frame_files : list path)
    (files_to_upload : list (kind * path)) : M (list (kind * path)) :=
  match frame_files with
  | [] => ret files_to_upload
  | frame_file :: rest =>
      let* w := get in
      let image_size_mb := ((st_size frame_file (fs w) # 1) / (1048576 # 1))%Q in
      (when py_lt (default (7 # 1)%Q (max_image_size_mb limits)) image_size_mb
       then log WARNING "Image file size exceeds limit") ;;
      add_frames limits rest (files_to_upload ++ [(Frame, frame_file)])
  end.

(** The frame entries, truncated to the image ceiling. *)
Definition collect_frames (limits : ModelLimits) (d : path)
    (files_to_upload : list (kind * path)) : M (list (kind * path)) :=
  let frames_dir := d ++ ["frames"] in
  let* w := get in
  if fs_exists frames_dir (fs w) then
    let frame_files := glob_jpg frames_dir (fs w) in
    let max_images := default 3000 (max_images_per_prompt limits) in
    let* frame_files :=
      (if max_images <? Z.of_nat (length frame_files) then
         log WARNING "Number of frames exceeds limit, limiting to first" ;;
         ret (py_slice_to frame_files max_images)
       else ret frame_files) in
    add_frames limits frame_files files_to_upload
  else ret files_to_upload.

(** The note entry. *)
Definition collect_note (d : path) (files_to_upload : list (kind * path))
  : M (list (kind * path)) :=
  let note_path := d ++ ["note.txt"] in
  let* w := get in
  if fs_exists note_path (fs w) && (0 <? st_size note_path (fs w))
  then ret (files_to_upload ++ [(Note, note_path)])
  else ret files_to_upload.

(** "Collect all files to upload". *)
Definition collect_files_to_upload (env : Env) (limits : ModelLimits) (d : path)
  : M (list (kind * path)) :=
  let* files := collect_audio env limits d [] in
  let* files := collect_frames limits d files in
  collect_note d files.

(** The dictionary [uploaded_files]: each key may be absent. *)
Record Uploaded := {
  up_audio : option handle;
  up_frames : option (list handle);
  up_note : option handle
}.

Definition no_uploads : Uploaded :=
  {| up_audio := None; up_frames := None; up_note := None |}.

(** [if uploaded_files:] *)
Definition has_keys (u : Uploaded) : bool :=
  match up_audio u, up_frames u, up_note u with
  | None, None, None => false
  | _, _, _ => true
  end.

Definition kind_eqb (a b : kind) : bool :=
  match a, b with
  | Audio, Audio | Frame, Frame | Note, Note => true
  | _, _ => false
  end.

(** [uploaded_files['frames'] = []] unless the key exists. *)
Definition ensure_frames (u : Uploaded) : Uploaded :=
  match up_frames u with
  | Some _ => u
  | None => {| up_audio := up_audio u; up_frames := Some []; up_note := up_note u |}
  end.

Definition store (k : kind) (h : handle) (u : Uploaded) : Uploaded :=
  match k with
  | Audio => {| up_audio := Some h; up_frames := up_frames u; up_note := up_note u |}
  | Frame => {| up_audio := up_audio u;
                up_frames := Some (default [] (up_frames u) ++ [h]);
                up_note := up_note u |}
  | Note => {| up_audio := up_audio u; up_frames := up_frames u; up_note := Some h |}
  end.

(** The upload loop, with the pause that follows each upload that
    succeeded.  The progress line, printed to the console, is left out. *)
Fixpoint upload_files (env : Env) (files : list (kind * path)) (u : Uploaded)
  : M Uploaded :=
  match files with
  | [] => ret u
  | (file_type, file_path) :: rest =>
      let u0 := if kind_eqb file_type Frame then ensure_frames u else u in
      emit (Upload file_path) ;;
      match upload_answer env file_path with
      | Return uploaded_file =>
          emit Pause ;;
          upload_files env rest (store file_type uploaded_file u0)
      | Raise e =>
          log ERROR "Failed to upload" ;;
          if kind_eqb file_type Audio then raise e
          else upload_files env rest u0
      end
  end.

(** "Prepare content for Gemini". *)
Definition content_parts (prompt_text : string) (u : Uploaded) : list part :=
  [PText prompt_text]
  ++ match up_audio u with Some h => [PFile h] | None => [] end
  ++ match up_frames u with Some hs => map PFile hs | None => [] end
  ++ match up_note u with Some h => [PFile h] | None => [] end.

(** The closure [generate_content]: one request to the service. *)
Definition generate_content (env : Env) (parts : list part)
    (parameter_defaults : ValidatedDefaults) (max_output_tokens : Z) : M string :=
  emit (Generate parts parameter_defaults max_output_tokens) ;;
  scripted (generate_answer env).

Definition delete_file (env : Env) (h : handle) : M unit :=
  emit (Delete h) ;;
  match delete_answer env h with
  | Some e => raise e
  | None => ret tt
  end.

Fixpoint delete_frames (env : Env) (hs : list handle) : M unit :=
  match hs with
  | [] => ret tt
  | h :: rest => delete_file env h ;; delete_frames env rest
  end.

(** "Cleanup uploaded files": one [try] around all deletions. *)
Definition release_uploaded (env : Env) (u : Uploaded) : M unit :=
  when has_keys u then
    (log INFO "Cleaning up uploaded files..." ;;
     try_except
       ((match up_audio u with Some h => delete_file env h | None => ret tt end) ;;
        (match up_frames u with Some hs => delete_frames env hs | None => ret tt end) ;;
        (match up_note u with Some h => delete_file env h | None => ret tt end) ;;
        log INFO "Cleaned up uploaded files")
       (fun e => log WARNING "Failed to cleanup some uploaded files")).

(** From the retry-wrapped request to the release of the uploads. *)
Definition generate_and_release (env : Env) (d : path) (parts : list part)
    (u : Uploaded) : M unit :=
  log INFO "Generating content..." ;;
  let* w := get in
  let c := config w in
  let max_output_tokens :=
    default 65535 (max_output_tokens (get_model_limits c (gemini_model c))) in
  let parameter_defaults := fst (get_parameter_defaults c (gemini_model c)) in
  let* text :=
    retry_with_exponential_backoff
      (generate_content env parts parameter_defaults max_output_tokens) 5 60 in
  (if negb (String.eqb text "")
   then write_file (d ++ ["meeting.md"]) (Text text) ;;
        log INFO "Gemini analysis completed and saved to meeting.md"
   else raise (RuntimeError "Empty response from Gemini API")) ;;
  release_uploaded env u.

(** [_upload_to_gemini]. *)
Definition upload_to_gemini (env : Env) : M unit :=
  log INFO "Uploading to Google Gemini..." ;;
  let* w := get in
  let c := config w in
  if String.eqb (gemini_api_key c) ""
  then raise (ValueError "Gemini API key not configured")
  else if negb (sdk_installed env)
  then log ERROR "Google GenAI SDK not installed" ;;
       raise (ImportError "No module named 'google'")
  else
    with_target_dir (fun d =>
      let* prompt_text :=
        (if dry_run c then ret "# DRY RUN - Prompt content would be read here"
         else read_text (d ++ ["prompt.txt"])) in
      let limits := get_model_limits c (gemini_model c) in
      (when negb (dry_run c) then check_prompt_tokens env limits) ;;
      let* files_to_upload := collect_files_to_upload env limits d in
      if negb (dry_run c) then
        let* uploaded_files := upload_files env files_to_upload no_uploads in
        generate_and_release env d (content_parts prompt_text uploaded_files)
                             uploaded_files
      else log INFO "DRY RUN: Would upload files to Gemini and save results").

(** The [client.files.delete] calls a trace shows, in order. *)
Definition deleted (t : list event) : list handle :=
  omap (fun e => match e with Delete h => Some h | _ => None end) t.

(** Every handle held in [uploaded_files], in the order the release block
    visits them. *)
Definition handles (u : Uploaded) : list handle :=
  match up_audio u with Some h => [h] | None => [] end
  ++ default [] (up_frames u)
  ++ match up_note u with Some h => [h] | None => [] end.

(* ===================================================================== *)
(** * [MeetingProcessor]: cleanup and [run] *)
(* ===================================================================== *)

(** [_cleanup]. *)
Definition cleanup (env : Env) : M unit :=
  log INFO "Cleaning up temporary files..." ;;
  let* w := get in
  if negb (dry_run (config w)) then
    with_target_dir (fun d =>
      when fs_exists (d ++ ["frames"]) (fs w) then
        (rmtree env (d ++ ["frames"]) ;;
         log INFO "Removed frames directory"))
  else log INFO "DRY RUN: Would clean up temporary files".

(** [_cleanup_on_failure]. *)
Definition cleanup_on_failure (env : Env) : M unit :=
  log INFO "Cleaning up created files due to failure..." ;;
  try_except
    (with_target_dir (fun d =>
       let* w := get in
       when fs_exists d (fs w) then
         (rmtree env d ;;
          log INFO "Removed target directory")))
    (fun e => log WARNING "Failed to cleanup target directory").

(** The test of step 5: [prompt_type != "prompt_only_transcript.txt"]. *)
Definition wants_frames (prompt_type : option string) : bool :=
  negb (bool_decide (prompt_type = Some "prompt_only_transcript.txt")).

(** The body of the [try] block of [run]. *)
Definition run_body (env : Env) (video : path) (prompt_type notes : option string)
  : M unit :=
  modify (set_video_path video) ;;
  log INFO "Starting processing of video" ;;
  let* recording_datetime := extract_datetime env in
  create_target_directory env recording_datetime ;;
  convert_video env ;;
  extract_audio env ;;
  (when wants_frames prompt_type then extract_frames env) ;;
  create_meeting_md ;;
  select_and_copy_prompt env prompt_type ;;
  create_note_txt env notes ;;
  upload_to_gemini env ;;
  (let* w := get in when negb (no_cleanup (config w)) then cleanup env) ;;
  log INFO "Processing completed successfully!".

(** [run]. *)
Definition run (env : Env) (video : path) (prompt_type notes : option string)
  : M unit :=
  try_except (run_body env video prompt_type notes)
    (fun e =>
       log ERROR "Error during processing" ;;
       cleanup_on_failure env ;;
       raise e).

(** Steps 1 to 4 of [run]. *)
Definition run_prefix (env : Env) (video : path) : M unit :=
  modify (set_video_path video) ;;
  log INFO "Starting processing of video" ;;
  let* recording_datetime := extract_datetime env in
  create_target_directory env recording_datetime ;;
  convert_video env ;;
  extract_audio env.

(** Steps 6 to 10 of [run]. *)
Definition run_suffix (env : Env) (prompt_type notes : option string) : M unit :=
  create_meeting_md ;;
  select_and_copy_prompt env prompt_type ;;
  create_note_txt env notes ;;
  upload_to_gemini env ;;
  (let* w := get in when negb (no_cleanup (config w)) then cleanup env) ;;
  log INFO "Processing completed successfully!".

(* ===================================================================== *)
(** * Vocabulary of the statements *)
(* ===================================================================== *)

(** [w] with more events in its trace. *)
Definition add_events (evs : list event) (w : World) : World :=
  {| config := config w; video_path := video_path w; target_dir := target_dir w;
     fs := fs w; gen_calls := gen_calls w; trace := trace w ++ evs |}.

(** [w'] differs from [w] by events added to the trace only. *)
Definition grows (w w' : World) : Prop :=
  config w' = config w /\ video_path w' = video_path w
  /\ target_dir w' = target_dir w /\ fs w' = fs w
  /\ gen_calls w' = gen_calls w
  /\ exists evs, trace w' = trace w ++ evs.

(** [w'] has the files, the settings and the release calls of [w]. *)
Definition quiet (w w' : World) : Prop :=
  config w' = config w /\ target_dir w' = target_dir w /\ fs w' = fs w
  /\ deleted (trace w') = deleted (trace w).

(** A method that only appends events satisfying [P] to the trace. *)
Definition emits_only (P : event -> Prop) {A} (m : M A) : Prop :=
  forall w, exists evs, trace (snd (m w)) = trace w ++ evs /\ Forall P evs.

(** The first line [_extract_frames] logs: the mark that step 5 ran. *)
Definition frames_entry : event := Log INFO "Extracting frames...".

(** Every event but that mark. *)
Definition other_stage (e : event) : Prop := e <> frames_entry.

(** The date sources are consulted in the order the specification gives. *)
Definition follows_spec_order (env : Env) (w : World) (preferred : date_source)
  : Prop :=
  consulted (trace (snd (extract_datetime env w))) =
  consulted (trace w)
  ++ attempts_along (source_succeeds env w) (spec_attempt_order preferred).

(** The frame paths of a manifest, in order. *)
Definition frames_of (files : list (kind * path)) : list path :=
  omap (fun f => match fst f with Frame => Some (snd f) | _ => None end) files.

(** The frames kept for upload under the ceiling [max_images]. *)
Definition kept_frames (max_images : Z) (d : path) (f : FS) : list path :=
  if fs_exists (d ++ ["frames"]) f then
    let frame_files := glob_jpg (d ++ ["frames"]) f in
    if max_images <? Z.of_nat (length frame_files)
    then py_slice_to frame_files max_images
    else frame_files
  else [].

(** A manifest of the form the collection step builds: the audio entry if
    any, the frames, the note entry if any. *)
Definition manifest_shape (audio : option path) (frames : list path)
    (note : option path) : list (kind * path) :=
  match audio with Some p => [(Audio, p)] | None => [] end
  ++ map (pair Frame) frames
  ++ match note with Some p => [(Note, p)] | None => [] end.

(** The manifest as a function of the image ceiling and of the files
    alone. *)
Definition manifest_of (max_images : Z) (d : path) (f : FS) : list (kind * path) :=
  manifest_shape
    (if fs_exists (d ++ ["audio.m4a"]) f then Some (d ++ ["audio.m4a"]) else None)
    (kept_frames max_images d f)
    (if fs_exists (d ++ ["note.txt"]) f && (0 <? st_size (d ++ ["note.txt"]) f)
     then Some (d ++ ["note.txt"]) else None).

Definition frame_limit_warning : event :=
  Log WARNING "Number of frames exceeds limit, limiting to first".

Definition token_limit_warning : event :=
  Log WARNING "Prompt tokens exceed limit".

Definition upload_failed : event := Log ERROR "Failed to upload".

(** What uploading the entries of a manifest adds to the trace when no
    audio upload fails. *)
Definition upload_events (env : Env) (files : list (kind * path)) : list event :=
  flat_map (fun f =>
    Upload (snd f) ::
    match upload_answer env (snd f) with
    | Return _ => [Pause]
    | Raise _ => [upload_failed]
    end) files.

(** The handles of the paths whose upload succeeds, in order. *)
Definition uploaded_handles (env : Env) (paths : list path) : list handle :=
  omap (fun p => match upload_answer env p with
                 | Return h => Some h
                 | Raise _ => None
                 end) paths.

(** [uploaded_files] after the frame entries have been tried. *)
Definition add_frame_handles (env : Env) (frames : list path) (u : Uploaded)
  : Uploaded :=
  match frames with
  | [] => u
  | _ :: _ =>
      {| up_audio := up_audio u;
         up_frames := Some (default [] (up_frames u) ++ uploaded_handles env frames);
         up_note := up_note u |}
  end.

(** The error that stops the run: the audio upload's, if it fails. *)
Definition audio_failure (env : Env) (audio : option path) : option exn :=
  match audio with
  | Some a => match upload_answer env a with Raise e => Some e | Return _ => None end
  | None => None
  end.

(** The release calls made for a list of handles: the pass ends with the
    first call that fails. *)
Fixpoint release_attempts (env : Env) (hs : list handle) : list handle :=
  match hs with
  | [] => []
  | h :: rest =>
      h :: match delete_answer env h with
           | Some _ => []
           | None => release_attempts env rest
           end
  end.

Fixpoint first_release_error (env : Env) (hs : list handle) : option exn :=
  match hs with
  | [] => None
  | h :: rest =>
      match delete_answer env h with
      | Some e => Some e
      | None => first_release_error env rest
      end
  end.

(** The retry-wrapped request of [generate_and_release], from the world in
    which the method is entered. *)
Definition wrapped_generation (env : Env) (parts : list part) (w : World)
  : outcome string * World :=
  let c := config w in
  retry_with_exponential_backoff
    (generate_content env parts
       (fst (get_parameter_defaults c (gemini_model c)))
       (default 65535 (max_output_tokens (get_model_limits c (gemini_model c)))))
    5 60 (add_event (Log INFO "Generating content...") w).

(* ===================================================================== *)
(** * Scenarios *)
(* ===================================================================== *)

Definition demo_config (source : string) (target : path) (dry : bool) : Config :=
  {| handbrake_preset_file := "Meeting.json"; default_prompt := "prompt.txt";
     gemini_model := "gemini-2.5-pro"; gemini_api_key := "secret";
     preferred_date_source := source; target_directory := target;
     dry_run := dry; no_cleanup := false; model_limits := default_model_limits |}.

(** A machine on which everything not listed as an argument works. *)
Definition demo_env (creation : option datetime) (hb : Z * option filedata)
    (up : path -> outcome handle) (gen : nat -> outcome string)
    (del : handle -> option exn) : Env :=
  {| script_dir := ["app"]; cwd := ["work"]; now := 1700000000;
     strftime := fun _ => "2023-11-14_22.13";
     ffprobe_creation_time := creation; mtime := fun _ => 1690000000;
     manual_answer := Return 1680000000;
     handbrake := hb; ffmpeg_audio := (0, Some (Blob 4096));
     ffmpeg_frames := (0, [("frame_0001.jpg", Blob 100);
                           ("frame_0002.jpg", Blob 200);
                           ("frame_0003.jpg", Blob 300)]);
     select_answer := None; note_method := None; note_terminal := None;
     note_editor := "";
     sdk_installed := true; count_tokens := Return 12;
     audio_duration := Some (1800 # 1)%Q;
     upload_answer := up; generate_answer := gen; delete_answer := del;
     rmtree_error := fun _ => None; rmtree_removed := fun _ _ => false |}.

Definition upload_ok (p : path) : outcome handle :=
  Return ("files/" +:+ List.last p "").

Definition service_unavailable : exn :=
  {| exn_class := "ServerError"; exn_status_code := Some (PyInt 503);
     exn_message := Some "The model is overloaded."; exn_details := None;
     exn_str := "503 UNAVAILABLE. The model is overloaded." |}.

Definition permission_denied : exn :=
  {| exn_class := "ClientError"; exn_status_code := Some (PyInt 403);
     exn_message := Some "Permission denied."; exn_details := None;
     exn_str := "403 PERMISSION_DENIED. Permission denied." |}.

(** The service is down for the first [n] requests, then answers. *)
Definition down_then_up (n : nat) (text : string) (call : nat) : outcome string :=
  if Nat.ltb call n then Raise service_unavailable else Return text.

Definition demo_fs : FS :=
  [ (["app"], Dir);
    (["app"; "Meeting.json"], File (Text "{}"));
    (["app"; "prompt.txt"], File (Text "Summarise the meeting."));
    (["work"], Dir);
    (["meetings"], Dir);
    (["meetings"; "q3"], Dir);
    (["meetings"; "q3"; "review.mp4"], File (Blob 5000)) ].

(** A workspace that already holds audio, three frames and a note. *)
Definition workspace_fs (note : string) : FS :=
  demo_fs ++
  [ (["work"; "out"], Dir);
    (["work"; "out"; "audio.m4a"], File (Blob 4096));
    (["work"; "out"; "frames"], Dir);
    (["work"; "out"; "frames"; "frame_0001.jpg"], File (Blob 100));
    (["work"; "out"; "frames"; "frame_0002.jpg"], File (Blob 200));
    (["work"; "out"; "frames"; "frame_0003.jpg"], File (Blob 300));
    (["work"; "out"; "note.txt"], File (Text note)) ].

Definition demo_world (c : Config) (video : path) (target : option path) (f : FS)
  : World :=
  {| config := c; video_path := video; target_dir := target; fs := f;
     gen_calls := 0; trace := [] |}.

(** Limits with an image ceiling of two. *)
Definition two_images : ModelLimits :=
  {| max_input_tokens := Some 8; max_output_tokens := Some 65535;
     max_images_per_prompt := Some 2; max_image_size_mb := Some (0 # 1)%Q;
     max_audio_length_hours := Some (1 # 10)%Q;
     max_audio_files_per_prompt := Some 1;
     parameter_defaults := None |}.

Definition quiet_env : Env :=
  demo_env (Some 1650000000) (0, Some (Blob 900)) upload_ok
           (fun _ => Return "# Minutes") (fun _ => None).

Definition some_uploads : Uploaded :=
  {| up_audio := Some "files/audio.m4a";
     up_frames := Some ["files/frame_0001.jpg"; "files/frame_0002.jpg"];
     up_note := None |}.

(** The machine [env], but the token count of the prompt answers [c]. *)
Definition with_count_tokens (c : outcome Z) (env : Env) : Env :=
  {| script_dir := script_dir env; cwd := cwd env; now := now env;
     strftime := strftime env;
     ffprobe_creation_time := ffprobe_creation_time env; mtime := mtime env;
     manual_answer := manual_answer env;
     handbrake := handbrake env; ffmpeg_audio := ffmpeg_audio env;
     ffmpeg_frames := ffmpeg_frames env;
     select_answer := select_answer env; note_method := note_method env;
     note_terminal := note_terminal env; note_editor := note_editor env;
     sdk_installed := sdk_installed env; count_tokens := c;
     audio_duration := audio_duration env;
     upload_answer := upload_answer env; generate_answer := generate_answer env;
     delete_answer := delete_answer env;
     rmtree_error := rmtree_error env; rmtree_removed := rmtree_removed env |}.

(** Everything works, but the service cannot count the tokens of the
    prompt. *)
Definition uncounted_env : Env :=
  with_count_tokens (Raise service_unavailable) quiet_env.

(** The service refuses the request: not a retryable error. *)
Definition refusing_env : Env :=
  demo_env (Some 1650000000) (0, Some (Blob 900)) upload_ok
           (fun _ => Raise permission_denied) (fun _ => None).

(** The service answers with an empty text. *)
Definition mute_env : Env :=
  demo_env (Some 1650000000) (0, Some (Blob 900)) upload_ok
           (fun _ => Return "") (fun _ => None).

(** The service answers, but refuses to delete the audio upload. *)
Definition sticky_env : Env :=
  demo_env (Some 1650000000) (0, Some (Blob 900)) upload_ok
           (fun _ => Return "# Minutes")
           (fun h => if String.eqb h "files/audio.m4a"
                     then Some permission_denied else None).

(** HandBrakeCLI exits with status 1 and leaves no file. *)
Definition broken_handbrake_env : Env :=
  demo_env (Some 1650000000) (1, None) upload_ok
           (fun _ => Return "# Minutes") (fun _ => None).

(** HandBrakeCLI exits with status 0 and leaves an empty file. *)
Definition hollow_handbrake_env : Env :=
  demo_env (Some 1650000000) (0, Some (Blob 0)) upload_ok
           (fun _ => Return "# Minutes") (fun _ => None).

(** A processor whose workspace is [work/out], already populated. *)
Definition workspace_world : World :=
  demo_world (demo_config "metadata" [] false) ["meetings"; "q3"; "review.mp4"]
             (Some ["work"; "out"]) (workspace_fs "agenda").

(** A fresh processor told to work in the directory of the video. *)
Definition in_place_world : World :=
  demo_world (demo_config "metadata" ["meetings"; "q3"] false) [] None demo_fs.

(** A fresh processor that derives its workspace from the timestamp. *)
Definition fresh_world : World :=
  demo_world (demo_config "metadata" [] false) [] None demo_fs.

(* ===================================================================== *)
(** * Vocabulary of the further properties

    The logger writes to the console and, once the workspace exists, to
    its process log: both are the [Log] events of the trace, and [fs]
    holds the files other than that log. *)
(* ===================================================================== *)

(** The line [_extract_datetime] logs for a setting that is none of the
    three sources. *)
Definition invalid_source_warning : event :=
  Log WARNING "Invalid PREFERRED_DATE_SOURCE. Using 'metadata' as fallback.".

(** The line of the last [else] of [_extract_datetime]. *)
Definition all_sources_failed : event :=
  Log ERROR "All date extraction methods failed".

(** The sum of a list of delays. *)
Definition total (l : list Z) : Z := fold_right Z.add 0 l.

(** The line [_cleanup_on_failure] logs when the removal itself fails. *)
Definition rollback_warning : event :=
  Log WARNING "Failed to cleanup target directory".

(** One step of [mkdir(parents=True)]: the directory is created unless
    something is there. *)
Definition mkdir_step (acc : FS) (d : path) : FS :=
  if fs_exists d acc then acc else acc ++ [(d, Dir)].

(** A logger line. *)
Definition is_log (e : event) : bool :=
  match e with Log _ _ => true | _ => false end.

(** What the user enters when [_create_note_txt] asks: in the terminal
    ([None] counts as the empty text) or in the editor. *)
Definition note_answer (env : Env) : string :=
  if bool_decide (note_method env = Some "Enter directly in terminal")
  then default "" (note_terminal env)
  else note_editor env.

(** A method that, started where [I] holds, ends where [I] holds, in a
    world related to the first by [R]; whether it returns or raises. *)
Definition keeps (I : World -> Prop) (R : World -> World -> Prop) {A} (m : M A)
  : Prop :=
  forall w, I w -> I (snd (m w)) /\ R w (snd (m w)).

(** The events of a run that ask for nothing but a look: log lines, the
    date sources, and ffprobe on the audio file. *)
Definition offline (e : event) : bool :=
  match e with
  | Log _ _ | Consult _ | RunTool FfprobeDuration => true
  | _ => false
  end.

(** The simulation flag is set. *)
Definition dry (w : World) : Prop := dry_run (config w) = true.

(** Same files, and only [offline] events added. *)
Definition looked_only (w w' : World) : Prop :=
  fs w' = fs w
  /\ exists evs, trace w' = trace w ++ evs /\ forallb offline evs = true.

(** Steps 1 and 2 of [run]: the timestamp and the workspace. *)
Definition run_setup (env : Env) (video : path) : M unit :=
  modify (set_video_path video) ;;
  log INFO "Starting processing of video" ;;
  let* recording_datetime := extract_datetime env in
  create_target_directory env recording_datetime.

(** Steps 3 to 10 of [run]. *)
Definition run_stages (env : Env) (prompt_type notes : option string) : M unit :=
  convert_video env ;;
  extract_audio env ;;
  (when wants_frames prompt_type then extract_frames env) ;;
  run_suffix env prompt_type notes.







(** No condition on the world. *)
Definition anywhere (w : World) : Prop := True.

(** The template [_select_and_copy_prompt] picks when nobody is asked: the
    explicit choice, else the configured default, else [prompt.txt] (the
    choice of a dry run). *)
Definition unattended_prompt (prompt_type : option string) (c : Config) : string :=
  match prompt_type with
  | Some (String a s) => resolve_prompt_shortcut (String a s)
  | _ => if negb (String.eqb (default_prompt c) "")
         then resolve_prompt_shortcut (default_prompt c)
         else "prompt.txt"
  end.

(** [w'] is [w] after the date chain: the preferred source may have been
    overwritten, nothing else. *)
Definition source_rewritten (w w' : World) : Prop :=
  fs w' = fs w /\ target_dir w' = target_dir w
  /\ exists s, config w' = set_preferred_date_source s (config w).



(** The delays of the first [k] retries of the generation request. *)
Definition backoff_schedule (k : nat) : list Z :=
  map (fun j => 60 * 2 ^ Z.of_nat j) (seq 0 k).

(** The pauses of the upload loop, of a tenth of a second each, and the
    upload requests a trace shows. *)
Fixpoint pauses (t : list event) : nat :=
  match t with
  | [] => 0
  | Pause :: t => S (pauses t)
  | _ :: t => pauses t
  end.

Fixpoint uploads (t : list event) : nat :=
  match t with
  | [] => 0
  | Upload _ :: t => S (uploads t)
  | _ :: t => uploads t
  end.

(** From [w] to [w'] pauses were added, and no more of them than upload
    requests. *)
Definition pause_per_upload (w w' : World) : Prop :=
  (pauses (trace w) <= pauses (trace w'))%nat
  /\ (pauses (trace w') + uploads (trace w)
      <= pauses (trace w) + uploads (trace w'))%nat.

(** [w'] is [w] after steps outside the retry wrapper: none of its sleeps,
    no generation request, and no more pauses than uploads. *)
Definition no_backoff (w w' : World) : Prop :=
  sleeps (trace w') = sleeps (trace w) /\ gen_calls w' = gen_calls w
  /\ pause_per_upload w w'.

(** [w'] is [w] after at most one pass through the retry wrapper: at most
    five sleeps, along the schedule, and at most six requests; outside the
    wrapper, no more pauses than uploads. *)
Definition one_backoff (w w' : World) : Prop :=
  exists k : nat,
    (k <= 5)%nat
    /\ sleeps (trace w') = sleeps (trace w) ++ backoff_schedule k
    /\ (gen_calls w <= gen_calls w' <= gen_calls w + k + 1)%nat
    /\ pause_per_upload w w'.

(* ===================================================================== *)
(** * Further scenarios *)
(* ===================================================================== *)

(** ffprobe finds no creation time in the video. *)
Definition untagged_env : Env :=
  demo_env None (0, Some (Blob 900)) upload_ok
           (fun _ => Return "# Minutes") (fun _ => None).

(** A processor whose preferred date source is not one of the three. *)
Definition exif_world : World :=
  demo_world (demo_config "exif" [] false) ["meetings"; "q3"; "review.mp4"]
             None demo_fs.

(** A fresh processor told to work in a directory that is not there yet,
    nor its parent. *)
Definition archive_world : World :=
  demo_world (demo_config "metadata" ["archive"; "q3"] false) [] None demo_fs.

(** A dry run told to work in the directory of the video. *)
Definition dry_world : World :=
  demo_world (demo_config "metadata" ["meetings"; "q3"] true) [] None demo_fs.

(** The same dry run on a machine on which the preset and the prompt
    templates were never installed. *)
Definition stranded_dry_world : World :=
  demo_world (demo_config "metadata" ["meetings"; "q3"] true) [] None
    [ (["meetings"], Dir);
      (["meetings"; "q3"], Dir);
      (["meetings"; "q3"; "review.mp4"], File (Blob 5000)) ].

(** Limits with an image ceiling below zero. *)
Definition negative_ceiling : ModelLimits :=
  {| max_input_tokens := Some 8; max_output_tokens := Some 65535;
     max_images_per_prompt := Some (-1); max_image_size_mb := Some (7 # 1)%Q;
     max_audio_length_hours := Some (84 # 10)%Q;
     max_audio_files_per_prompt := Some 1;
     parameter_defaults := None |}.

(* ===================================================================== *)
(** * Generation parameters are clamped *)
(* ===================================================================== *)

Lemma py_lt_spec (a b : Q) : reflect (a < b)%Q (py_lt a b).
Proof.
  unfold py_lt. destruct (Qle_bool b a) eqn:E; constructor.
  - apply Qle_bool_iff in E. lra.
  - assert (~ (b <= a)%Q) by (intros H'; apply Qle_bool_iff in H'; congruence).
    lra.
Qed.

Lemma py_max_min_clamp (lo hi x : Q) :
  (lo <= hi)%Q -> (py_max lo (py_min hi x) == clampQ lo hi x)%Q.
Proof.
  intros Hle. unfold py_max, py_min, clampQ.
  destruct (py_lt_spec x hi), (py_lt_spec x lo), (py_lt_spec hi x);
    repeat match goal with
           | |- context [py_lt ?a ?b] => destruct (py_lt_spec a b)
           end; lra.
Qed.

Lemma clampQ_bounds (lo hi x : Q) :
  (lo <= hi)%Q -> (lo <= clampQ lo hi x <= hi)%Q.
Proof.
  intros Hle. unfold clampQ.
  destruct (py_lt_spec x lo), (py_lt_spec hi x); lra.
Qed.

Lemma py_maxZ_minZ_clamp (lo hi x : Z) :
  py_maxZ lo (py_minZ hi x) = clampZ lo hi x.
Proof.
  unfold py_maxZ, py_minZ, clampZ.
  destruct (x <? hi) eqn:E1; destruct (lo <? _) eqn:E2; lia.
Qed.

Lemma py_int_inject_Z (n : Z) : py_int (inject_Z n) = n.
Proof. unfold py_int, inject_Z; simpl. apply Z.quot_1_r. Qed.

(** C4. Whatever the parameter-defaults dictionary of the model holds,
    the validated temperature is the input clamped to [0, 2], the validated
    top_p the input clamped to [0, 1], the validated candidate count the
    integer input clamped to [1, 8] ([int] being the identity on integers),
    and top_k is 64. *)
Theorem validated_parameters_are_clamped (c : Config) (model_name : string) :
  let defaults := default fallback_parameter_defaults
                    (parameter_defaults (get_model_limits c model_name)) in
  let temperature := default (3 # 10)%Q (pd_temperature defaults) in
  let top_p := default (95 # 100)%Q (pd_top_p defaults) in
  let candidate_count := default (1 # 1)%Q (pd_candidate_count defaults) in
  let v := fst (get_parameter_defaults c model_name) in
  (v_temperature v == clampQ 0 2 temperature)%Q
  /\ (0 <= v_temperature v <= 2)%Q
  /\ (v_top_p v == clampQ 0 1 top_p)%Q
  /\ (0 <= v_top_p v <= 1)%Q
  /\ v_candidate_count v = clampZ 1 8 (py_int candidate_count)
  /\ (forall n : Z, py_int (inject_Z n) = n)
  /\ 1 <= v_candidate_count v <= 8
  /\ v_top_k v = 64.
Proof.
  intros defaults temperature top_p candidate_count v.
  subst v. unfold get_parameter_defaults, validate_parameter_defaults.
  fold defaults. cbn [fst v_temperature v_top_p v_top_k v_candidate_count].
  fold temperature top_p candidate_count.
  assert (H02 : (0 <= 2)%Q) by lra. assert (H01 : (0 <= 1)%Q) by lra.
  pose proof (py_max_min_clamp 0 2 temperature H02) as Ht.
  pose proof (py_max_min_clamp 0 1 top_p H01) as Hp.
  pose proof (clampQ_bounds 0 2 temperature H02) as Bt.
  pose proof (clampQ_bounds 0 1 top_p H01) as Bp.
  rewrite py_maxZ_minZ_clamp.
  repeat split; try tauto; try (rewrite ?Ht, ?Hp; tauto);
    try apply py_int_inject_Z; unfold clampZ; lia.
Qed.

(* ===================================================================== *)
(** * The date sources are consulted along a forward chain *)
(* ===================================================================== *)

Lemma chain_head (ok : date_source -> bool) (s : date_source) :
  hd_error (attempts_along ok (chain_from s)) = Some s.
Proof.
  destruct s; simpl; destruct (ok Metadata), (ok FileMtime), (ok Manual);
    reflexivity.
Qed.

Lemma chain_NoDup (ok : date_source -> bool) (s : date_source) :
  NoDup (attempts_along ok (chain_from s)).
Proof.
  destruct s; simpl; destruct (ok Metadata), (ok FileMtime), (ok Manual);
    repeat constructor; rewrite ?list_elem_of_In; simpl; intuition congruence.
Qed.

Lemma chain_never_goes_back (ok : date_source -> bool) (s : date_source) :
  s <> Metadata -> ~ In Metadata (attempts_along ok (chain_from s)).
Proof.
  intros Hs. destruct s; [congruence | |]; simpl;
    destruct (ok FileMtime), (ok Manual); simpl; intuition congruence.
Qed.

Ltac run_monad :=
  unfold bind, ret, raise, get, modify, emit, log, source_is, set_source; cbn.

(** C1, as the code has it. For every preferred source among metadata,
    file_mtime and manual, the resolver consults the preferred source first
    and, when a source fails, goes on to the sources that come after it in
    the fixed order metadata, file_mtime, manual, stopping at the first
    that succeeds; no source is consulted twice; a source that comes before
    the preferred one is never consulted (with file_mtime preferred, the
    metadata source is not tried); a timestamp is returned exactly when one
    of the sources of that chain succeeds. *)
Theorem extract_datetime_follows_chain (env : Env) (w : World) (s : date_source) :
  preferred_date_source (config w) = source_name s ->
  let r := extract_datetime env w in
  let attempts := attempts_along (source_succeeds env w) (chain_from s) in
  consulted (trace (snd r)) = consulted (trace w) ++ attempts
  /\ hd_error attempts = Some s
  /\ NoDup attempts
  /\ (s <> Metadata -> ~ In Metadata attempts)
  /\ ((exists dt, fst r = Return dt)
      <-> existsb (source_succeeds env w) (chain_from s) = true).
Proof.
  intros Hpref r attempts.
  split; [| split; [apply chain_head | split; [apply chain_NoDup |
            split; [apply chain_never_goes_back |]]]];
  subst r attempts; destruct w as [c vp td f n t]; cbn in Hpref;
  unfold extract_datetime, extract_datetime_from_metadata,
    extract_datetime_from_file_mtime, get_manual_datetime;
  destruct s; cbn in Hpref; run_monad; repeat (progress (rewrite ?Hpref; cbn));
  destruct (ffprobe_creation_time env) as [dt|]; cbn;
  destruct (fs_exists vp f); cbn;
  destruct (dry_run c); cbn;
  destruct (manual_answer env) as [dt'|e]; cbn;
  rewrite ?omap_app, <- ?app_assoc; cbn; try reflexivity;
  first [ split; [reflexivity | eauto]
        | split; [intros [? ?]; discriminate | discriminate] ].
Qed.

(** The metadata probe would answer, the video file is missing, file_mtime
    is preferred. *)
Lemma extract_datetime_follows_chain_witness :
  preferred_date_source
    (config (demo_world (demo_config "file_mtime" [] false)
                        ["meetings"; "q3"; "lost.mp4"] None demo_fs))
    = source_name FileMtime
  /\ consulted
       (trace (snd (extract_datetime quiet_env
          (demo_world (demo_config "file_mtime" [] false)
                      ["meetings"; "q3"; "lost.mp4"] None demo_fs))))
     = [FileMtime; Manual].
Proof.
  split; [reflexivity |].
  exact (proj1 (extract_datetime_follows_chain quiet_env
                  (demo_world (demo_config "file_mtime" [] false)
                              ["meetings"; "q3"; "lost.mp4"] None demo_fs)
                  FileMtime eq_refl)).
Defined.

(** C1 as stated fails: with file_mtime preferred and failing, the
    specification's order would try metadata next (and stop there, since
    the probe answers), but the code asks for manual input and never
    consults the metadata source. *)
Lemma file_mtime_failure_skips_metadata :
  let w := demo_world (demo_config "file_mtime" [] false)
                      ["meetings"; "q3"; "lost.mp4"] None demo_fs in
  let tried := consulted (trace (snd (extract_datetime quiet_env w))) in
  preferred_date_source (config w) = source_name FileMtime
  /\ source_succeeds quiet_env w FileMtime = false
  /\ source_succeeds quiet_env w Metadata = true
  /\ attempts_along (source_succeeds quiet_env w) (spec_attempt_order FileMtime)
     = [FileMtime; Metadata]
  /\ tried = [FileMtime; Manual]
  /\ ~ In Metadata tried
  /\ ~ follows_spec_order quiet_env w FileMtime.
Proof.
  cbv zeta. unfold follows_spec_order.
  repeat split; try reflexivity.
  - vm_compute. intuition discriminate.
  - vm_compute. discriminate.
Qed.

(* ===================================================================== *)
(** * The retry wrapper *)
(* ===================================================================== *)

Lemma starts_with_spec (sub s : string) :
  starts_with sub s = true <-> exists post, s = sub +:+ post.
Proof.
  revert s. induction sub as [|a sub IH]; intros s; simpl.
  - split; eauto.
  - destruct s as [|b s].
    + split; [discriminate | intros [post H]; discriminate].
    + rewrite andb_true_iff, Ascii.eqb_eq, IH. split.
      * intros [-> [post ->]]. eauto.
      * intros [post H]. injection H as -> ->. eauto.
Qed.

Lemma contains_spec (sub s : string) :
  contains sub s = true <-> Substring sub s.
Proof.
  unfold Substring. induction s as [|c s IH].
  - simpl. rewrite orb_false_r, starts_with_spec. split.
    + intros [post H]. exists "", post. exact H.
    + intros [pre [post H]]. destruct pre; simpl in H; [eauto | discriminate].
  - cbn [contains]. rewrite orb_true_iff, starts_with_spec, IH. split.
    + intros [[post H] | [pre [post H]]].
      * exists "", post. exact H.
      * exists (String c pre), post. simpl. now rewrite H.
    + intros [pre [post H]]. destruct pre as [|c' pre]; simpl in H.
      * left. eauto.
      * right. injection H as -> ->. eauto.
Qed.

Lemma is_503_error_spec (e : exn) : is_503_error e = true <-> Retryable e.
Proof.
  destruct e as [cls sc msg det str]. unfold is_503_error, Retryable. cbn.
  assert (Hsc : match sc with Some v => status_is_503 v | None => false end = true
                <-> sc = Some (PyInt 503)).
  { destruct sc as [[z|s]|]; cbn; [| split; discriminate ..].
    rewrite Z.eqb_eq. split; [intros ->; reflexivity | congruence]. }
  assert (Hopt : forall o : option string,
            match o with Some m => contains "503" m | None => false end = true
            <-> exists m, o = Some m /\ Substring "503" m).
  { intros [m|].
    - rewrite contains_spec. split; [eauto | intros [m' [[= <-] H]]; exact H].
    - split; [discriminate | intros [m' [[=] _]]]. }
  specialize (Hopt msg) as Hmsg. specialize (Hopt det) as Hdet.
  rewrite <- Hsc, <- Hmsg, <- Hdet, <- !contains_spec, <- andb_true_iff.
  destruct (match sc with Some v => status_is_503 v | None => false end);
    [tauto |].
  destruct (match msg with Some m => contains "503" m | None => false end);
    [tauto |].
  destruct (match det with Some m => contains "503" m | None => false end);
    [tauto |].
  destruct (contains "503" str && contains "UNAVAILABLE" str);
    intuition discriminate.
Qed.

Lemma sleeps_app (t u : list event) : sleeps (t ++ u) = sleeps t ++ sleeps u.
Proof. apply omap_app. Qed.

Lemma after_failures_gen_calls (b : Z) (k a : nat) (w : World) :
  gen_calls (after_failures b a k w) = (gen_calls w + k)%nat.
Proof.
  revert a w. induction k as [|k IH]; intros a w; simpl; [lia |].
  rewrite IH. simpl. lia.
Qed.

Lemma after_failures_sleeps (b : Z) (k a : nat) (w : World) :
  sleeps (trace (after_failures b a k w)) =
  sleeps (trace w) ++ map (fun j => b * 2 ^ Z.of_nat j) (seq a k).
Proof.
  revert a w. induction k as [|k IH]; intros a w; simpl.
  - now rewrite app_nil_r.
  - rewrite IH. simpl. rewrite !sleeps_app. simpl. now rewrite <- !app_assoc.
Qed.

(** [k] retryable failures in a row, all on attempts below [max_retries],
    take the loop [k] attempts further. *)
Lemma retry_loop_failures {A} (answers : nat -> outcome A) (m b : Z) :
  forall (k a n : nat) (w : World),
    Z.of_nat (a + k) <= m ->
    (forall j, (j < k)%nat ->
       exists e, answers (gen_calls w + j)%nat = Raise e /\ is_503_error e = true) ->
    retry_loop (scripted answers) m b (map Z.of_nat (seq a (k + n))) w =
    retry_loop (scripted answers) m b (map Z.of_nat (seq (a + k) n))
               (after_failures b a k w).
Proof.
  induction k as [|k IH]; intros a n w Hm Hfail.
  - simpl. now rewrite Nat.add_0_r.
  - destruct (Hfail 0%nat ltac:(lia)) as [e [He Hr]].
    rewrite Nat.add_0_r in He.
    cbn [Nat.add seq map retry_loop]. unfold try_except at 1, scripted at 1.
    rewrite He, Hr.
    destruct (Z.ltb_spec (Z.of_nat a) m) as [_|Hge]; [| lia].
    unfold bind, log, emit, modify. cbn.
    rewrite IH.
    + replace (a + S k)%nat with (S a + k)%nat by lia. reflexivity.
    + lia.
    + intros j Hj. destruct (Hfail (S j) ltac:(lia)) as [e' He'].
      exists e'. cbn.
      replace (S (gen_calls w + j))%nat with (gen_calls w + S j)%nat by lia.
      exact He'.
Qed.

(** C3. With [max_retries = 5] and [base_delay = 60]: an error is
    classified retryable exactly when its status is the number 503, or its
    message or details contain "503", or its string form contains both
    "503" and "UNAVAILABLE"; the delays are 60, 120, 240, 480, 960; and if
    the first [k <= 5] calls fail with retryable errors, then the wrapper
    has slept [60 * 2^j] after each failed attempt [j < k], in order, and
    on call [k] (the [k+1]-th, made once): a value is returned as it is; a
    non-retryable error propagates as it is, with no further sleep (none at
    all when [k = 0]); a retryable error on the sixth call ([k = 5])
    propagates as it is, with no further sleep. *)
Theorem retry_with_exponential_backoff_schedule :
  (forall e, is_503_error e = true <-> Retryable e)
  /\ map (fun j => 60 * 2 ^ Z.of_nat j) (seq 0 5) = [60; 120; 240; 480; 960]
  /\ forall (A : Type) (answers : nat -> outcome A) (w : World) (k : nat),
      (k <= 5)%nat ->
      (forall j, (j < k)%nat ->
         exists e, answers (gen_calls w + j)%nat = Raise e
                   /\ is_503_error e = true) ->
      let r := retry_with_exponential_backoff (scripted answers) 5 60 w in
      let done :=
        sleeps (trace (snd r)) =
          sleeps (trace w) ++ map (fun j => 60 * 2 ^ Z.of_nat j) (seq 0 k)
        /\ gen_calls (snd r) = (gen_calls w + k + 1)%nat in
      match answers (gen_calls w + k)%nat with
      | Return v => fst r = Return v /\ done
      | Raise e =>
          if is_503_error e
          then k = 5%nat -> fst r = Raise e /\ done
          else fst r = Raise e /\ done
      end.
Proof.
  split; [exact is_503_error_spec |]. split; [reflexivity |].
  intros A answers w k Hk Hfail r done.
  assert (Hr : r = retry_loop (scripted answers) 5 60
                     (map Z.of_nat (seq (0 + k) (S (5 - k))))
                     (after_failures 60 0 k w)).
  { subst r. unfold retry_with_exponential_backoff, py_range.
    change (Z.to_nat (5 + 1)) with 6%nat.
    replace 6%nat with (k + S (5 - k))%nat by lia.
    apply retry_loop_failures; [lia | exact Hfail]. }
  cbn [seq map retry_loop] in Hr.
  unfold try_except, scripted in Hr.
  rewrite after_failures_gen_calls in Hr.
  subst done.
  destruct (answers (gen_calls w + k)%nat) as [v|e] eqn:Ek.
  - rewrite Hr. cbn -[sleeps after_failures].
    rewrite after_failures_sleeps, after_failures_gen_calls.
    repeat split; lia.
  - destruct (is_503_error e) eqn:Ee.
    + intros ->. rewrite Hr. cbn -[sleeps after_failures].
      change (Z.of_nat 5 <? 5) with false. cbn -[sleeps after_failures].
      rewrite sleeps_app, after_failures_sleeps, after_failures_gen_calls.
      cbn -[after_failures]. rewrite app_nil_r. repeat split; lia.
    + rewrite Hr. cbn -[sleeps after_failures].
      rewrite sleeps_app, after_failures_sleeps, after_failures_gen_calls.
      cbn -[after_failures]. rewrite app_nil_r. repeat split; lia.
Qed.

(** Three 503 answers, then the text: three sleeps, the fourth call's
    value. *)
Lemma retry_with_exponential_backoff_schedule_witness :
  (3 <= 5)%nat
  /\ (forall j, (j < 3)%nat ->
        exists e, down_then_up 3 "# Minutes" (0 + j)%nat = Raise e
                  /\ is_503_error e = true)
  /\ fst (retry_with_exponential_backoff (scripted (down_then_up 3 "# Minutes"))
            5 60 (demo_world (demo_config "metadata" [] false) [] None demo_fs))
     = Return "# Minutes"
  /\ sleeps (trace (snd
       (retry_with_exponential_backoff (scripted (down_then_up 3 "# Minutes"))
          5 60 (demo_world (demo_config "metadata" [] false) [] None demo_fs))))
     = [60; 120; 240].
Proof.
  assert (Hk : (3 <= 5)%nat) by lia.
  assert (Hfail : forall j, (j < 3)%nat ->
            exists e, down_then_up 3 "# Minutes" (0 + j)%nat = Raise e
                      /\ is_503_error e = true).
  { intros j Hj. exists service_unavailable.
    destruct j as [|[|[|j]]]; [split; reflexivity .. | lia]. }
  split; [exact Hk |]. split; [exact Hfail |].
  pose proof (proj2 (proj2 retry_with_exponential_backoff_schedule)
                string (down_then_up 3 "# Minutes")
                (demo_world (demo_config "metadata" [] false) [] None demo_fs)
                3%nat Hk Hfail) as H.
  cbn -[retry_with_exponential_backoff sleeps] in H.
  destruct H as (Hv & Hs & _). split; [exact Hv | exact Hs].
Defined.

(* ===================================================================== *)
(** * Worlds that differ by their trace *)
(* ===================================================================== *)

Lemma add_events_nil (w : World) : add_events [] w = w.
Proof. destruct w. unfold add_events. cbn. now rewrite app_nil_r. Qed.

Lemma add_events_app (a b : list event) (w : World) :
  add_events b (add_events a w) = add_events (a ++ b) w.
Proof. unfold add_events. cbn. now rewrite app_assoc. Qed.

Lemma add_event_events (e : event) (w : World) : add_event e w = add_events [e] w.
Proof. reflexivity. Qed.

Lemma grows_refl (w : World) : grows w w.
Proof. unfold grows. repeat split. exists []. now rewrite app_nil_r. Qed.

Lemma grows_trans (w1 w2 w3 : World) : grows w1 w2 -> grows w2 w3 -> grows w1 w3.
Proof.
  intros (Hc & Hv & Ht & Hf & Hg & evs & He) (Hc' & Hv' & Ht' & Hf' & Hg' & evs' & He').
  unfold grows. repeat split; try congruence.
  exists (evs ++ evs'). rewrite He', He. now rewrite app_assoc.
Qed.

Lemma grows_add_event (e : event) (w : World) : grows w (add_event e w).
Proof. unfold grows. repeat split. now exists [e]. Qed.

Lemma grows_step (e : event) (w w' : World) :
  grows w w' -> grows w (add_event e w').
Proof. intros H. eapply grows_trans; [exact H | apply grows_add_event]. Qed.

Lemma grows_In (w w' : World) (e : event) :
  grows w w' -> In e (trace w) -> In e (trace w').
Proof.
  intros (_ & _ & _ & _ & _ & evs & ->) H. apply in_or_app. now left.
Qed.

(* ===================================================================== *)
(** * The upload manifest *)
(* ===================================================================== *)

Lemma add_frames_result (limits : ModelLimits) (frame_files : list path) :
  forall (files : list (kind * path)) (w : World),
    exists w',
      add_frames limits frame_files files w
        = (Return (files ++ map (pair Frame) frame_files), w')
      /\ grows w w'.
Proof.
  induction frame_files as [|p rest IH]; intros files w.
  - exists w. cbn. rewrite app_nil_r. split; [reflexivity | apply grows_refl].
  - cbn [add_frames]. unfold bind at 1, get at 1.
    unfold bind at 1.
    destruct (py_lt _ _); cbn.
    + destruct (IH (files ++ [(Frame, p)])
                   (add_event (Log WARNING "Image file size exceeds limit") w))
        as [w' [Heq Hg]].
      exists w'. rewrite Heq, <- app_assoc. split; [reflexivity |].
      eapply grows_trans; [apply grows_add_event | exact Hg].
    + destruct (IH (files ++ [(Frame, p)]) w) as [w' [Heq Hg]].
      exists w'. rewrite Heq, <- app_assoc. split; [reflexivity | exact Hg].
Qed.

Lemma collect_audio_result (env : Env) (limits : ModelLimits) (d : path)
    (files : list (kind * path)) (w : World) :
  exists w',
    collect_audio env limits d files w
      = (Return (files ++ if fs_exists (d ++ ["audio.m4a"]) (fs w)
                          then [(Audio, d ++ ["audio.m4a"])] else []), w')
    /\ grows w w'.
Proof.
  unfold collect_audio, bind, get.
  destruct (fs_exists (d ++ ["audio.m4a"]) (fs w)).
  - cbn. destruct (audio_duration env) as [secs|]; [destruct (py_lt _ _) |]; cbn;
      eexists; (split; [reflexivity |]);
      repeat apply grows_step; apply grows_refl.
  - cbn. rewrite app_nil_r. exists w. split; [reflexivity | apply grows_refl].
Qed.

Lemma collect_frames_result (limits : ModelLimits) (d : path)
    (files : list (kind * path)) (w : World) :
  let max_images := default 3000 (max_images_per_prompt limits) in
  exists w',
    collect_frames limits d files w
      = (Return (files ++ map (pair Frame) (kept_frames max_images d (fs w))), w')
    /\ grows w w'
    /\ (fs_exists (d ++ ["frames"]) (fs w) = true ->
        max_images < Z.of_nat (length (glob_jpg (d ++ ["frames"]) (fs w))) ->
        In frame_limit_warning (trace w')).
Proof.
  intros max_images. unfold collect_frames, kept_frames, bind, get. fold max_images.
  destruct (fs_exists (d ++ ["frames"]) (fs w)).
  - destruct (Z.ltb_spec max_images
                (Z.of_nat (length (glob_jpg (d ++ ["frames"]) (fs w))))) as [Hlt|Hge].
    + cbn.
      destruct (add_frames_result limits
                  (py_slice_to (glob_jpg (d ++ ["frames"]) (fs w)) max_images) files
                  (add_event frame_limit_warning w)) as [w' [Heq Hg]].
      exists w'. unfold frame_limit_warning in *. rewrite Heq.
      split; [reflexivity |]. split.
      * eapply grows_trans; [apply grows_add_event | exact Hg].
      * intros _ _. eapply grows_In; [exact Hg |].
        cbn. apply in_or_app. right. now left.
    + cbn.
      destruct (add_frames_result limits (glob_jpg (d ++ ["frames"]) (fs w)) files w)
        as [w' [Heq Hg]].
      exists w'. rewrite Heq. split; [reflexivity |]. split; [exact Hg | lia].
  - cbn. rewrite app_nil_r. exists w.
    split; [reflexivity |]. split; [apply grows_refl | discriminate].
Qed.

Lemma collect_note_result (d : path) (files : list (kind * path)) (w : World) :
  collect_note d files w
    = (Return (files ++ if fs_exists (d ++ ["note.txt"]) (fs w)
                           && (0 <? st_size (d ++ ["note.txt"]) (fs w))
                        then [(Note, d ++ ["note.txt"])] else []), w).
Proof.
  unfold collect_note, bind, get.
  destruct (fs_exists _ _ && _); cbn; [reflexivity | now rewrite app_nil_r].
Qed.

(** The collection step always returns, and what it returns depends on the
    image ceiling and on the files only. *)
Lemma collect_files_to_upload_result (env : Env) (limits : ModelLimits)
    (d : path) (w : World) :
  let max_images := default 3000 (max_images_per_prompt limits) in
  exists w',
    collect_files_to_upload env limits d w
      = (Return (manifest_of max_images d (fs w)), w')
    /\ grows w w'
    /\ (fs_exists (d ++ ["frames"]) (fs w) = true ->
        max_images < Z.of_nat (length (glob_jpg (d ++ ["frames"]) (fs w))) ->
        In frame_limit_warning (trace w')).
Proof.
  intros max_images. unfold collect_files_to_upload.
  destruct (collect_audio_result env limits d [] w) as [w1 [H1 G1]].
  cbn [app] in H1.
  destruct (collect_frames_result limits d
              (if fs_exists (d ++ ["audio.m4a"]) (fs w)
               then [(Audio, d ++ ["audio.m4a"])] else []) w1)
    as [w2 [H2 [G2 W2]]].
  unfold bind. rewrite H1. cbv beta iota. rewrite H2. cbv beta iota.
  rewrite collect_note_result.
  pose proof G1 as (_ & _ & _ & Hf1 & _). pose proof G2 as (_ & _ & _ & Hf2 & _).
  rewrite Hf2, Hf1 in *. exists w2. fold max_images.
  split; [| split; [eapply grows_trans; eassumption | exact W2]].
  f_equal. f_equal. unfold manifest_of, manifest_shape.
  destruct (fs_exists (d ++ ["audio.m4a"]) (fs w));
    destruct (fs_exists (d ++ ["note.txt"]) (fs w)
              && (0 <? st_size (d ++ ["note.txt"]) (fs w)));
    now rewrite <- app_assoc.
Qed.

Lemma frames_of_app (a b : list (kind * path)) :
  frames_of (a ++ b) = frames_of a ++ frames_of b.
Proof. apply omap_app. Qed.

Lemma frames_of_frames (l : list path) : frames_of (map (pair Frame) l) = l.
Proof. induction l as [|p l IH]; [reflexivity |]. cbn. f_equal. exact IH. Qed.

Lemma frames_of_shape (audio : option path) (frames : list path)
    (note : option path) :
  frames_of (manifest_shape audio frames note) = frames.
Proof.
  unfold manifest_shape. rewrite !frames_of_app, frames_of_frames.
  destruct audio, note; cbn; now rewrite ?app_nil_r.
Qed.

Lemma py_slice_to_firstn {A} (l : list A) (n : Z) :
  0 <= n -> py_slice_to l n = firstn (Z.to_nat n) l.
Proof.
  intros Hn. unfold py_slice_to. destruct (Z.leb_spec 0 n); [reflexivity | lia].
Qed.

Lemma check_prompt_tokens_result (env : Env) (limits : ModelLimits) (w : World)
    (n : Z) :
  count_tokens env = Return n ->
  exists w', check_prompt_tokens env limits w = (Return tt, w') /\ fs w' = fs w
             /\ (default 1048576 (max_input_tokens limits) < n ->
                 In token_limit_warning (trace w'))
             /\ (n <= default 1048576 (max_input_tokens limits) ->
                 trace w' = trace w ++ [CountTokens]).
Proof.
  intros Hn. unfold check_prompt_tokens, bind, emit, modify, log. cbn. rewrite Hn.
  destruct (Z.ltb_spec (default 1048576 (max_input_tokens limits)) n); cbn.
  - eexists. split; [reflexivity |]. split; [reflexivity |]. split; [| lia].
    intros _. cbn. apply in_or_app. right. left. reflexivity.
  - eexists. split; [reflexivity |]. split; [reflexivity |]. split; [lia |].
    intros _. reflexivity.
Qed.

Lemma check_prompt_tokens_raises (env : Env) (limits : ModelLimits) (w : World)
    (e : exn) :
  count_tokens env = Raise e ->
  check_prompt_tokens env limits w = (Raise e, add_event CountTokens w).
Proof.
  intros He. unfold check_prompt_tokens, bind, emit, modify, raise. cbn.
  rewrite He. reflexivity.
Qed.

Lemma upload_to_gemini_uncounted (env : Env) (w : World) (d : path)
    (text : string) (e : exn) :
  count_tokens env = Raise e ->
  dry_run (config w) = false ->
  gemini_api_key (config w) <> "" ->
  sdk_installed env = true ->
  target_dir w = Some d ->
  fs_lookup (d ++ ["prompt.txt"]) (fs w) = Some (File (Text text)) ->
  upload_to_gemini env w =
  (Raise e, add_event CountTokens
              (add_event (Log INFO "Uploading to Google Gemini...") w)).
Proof.
  intros He Hdry Hkey Hsdk Ht Hp.
  unfold upload_to_gemini, with_target_dir, read_text.
  unfold bind at 1, log at 1, emit at 1, modify at 1. cbv beta iota.
  unfold bind at 1, get at 1. cbv beta iota.
  cbn [config add_event].
  destruct (String.eqb_spec (gemini_api_key (config w)) "") as [E | _];
    [contradiction |].
  rewrite Hsdk. cbn [negb].
  unfold bind at 1, get at 1. cbv beta iota. cbn [target_dir add_event].
  rewrite Ht, Hdry. cbn [negb].
  unfold bind at 1. unfold bind at 1, get at 1. cbv beta iota.
  cbn [fs add_event]. rewrite Hp. unfold ret at 1. cbv beta iota.
  unfold bind at 1.
  rewrite (check_prompt_tokens_raises env _ _ e He). reflexivity.
Qed.

(** C5. For every image ceiling [N >= 0] and every workspace whose frame
    files can be examined: the collection step returns a manifest whatever
    the audio duration, the image sizes and the limits are, and whether or
    not the duration can be probed; the manifest is a function of the
    ceiling and of the files only; when the [M] discovered frames exceed
    the ceiling, exactly the first [N] in directory order are kept and the
    warning is logged; when they do not, all [M] are kept.  The token check
    returns, with at most a warning, for every count the service reports,
    however far above the limit; but the request that counts the tokens is
    not guarded: when it fails, the check raises its error, and
    [_upload_to_gemini] raises it before any file is uploaded. *)
Theorem frame_overflow_is_the_only_cut (env : Env) (limits : ModelLimits)
    (d : path) (w : World) (N : Z) :
  default 3000 (max_images_per_prompt limits) = N ->
  0 <= N ->
  let frames := if fs_exists (d ++ ["frames"]) (fs w)
                then glob_jpg (d ++ ["frames"]) (fs w) else [] in
  let M := Z.of_nat (length frames) in
  exists manifest w',
    collect_files_to_upload env limits d w = (Return manifest, w')
    /\ fs w' = fs w
    /\ manifest = manifest_of N d (fs w)
    /\ (N < M -> frames_of manifest = firstn (Z.to_nat N) frames
                 /\ length (frames_of manifest) = Z.to_nat N
                 /\ In frame_limit_warning (trace w'))
    /\ (M <= N -> frames_of manifest = frames)
    /\ (forall n, count_tokens env = Return n ->
          exists w'', check_prompt_tokens env limits w = (Return tt, w'')
                      /\ fs w'' = fs w
                      /\ (default 1048576 (max_input_tokens limits) < n ->
                          In token_limit_warning (trace w'')))
    /\ (forall e, count_tokens env = Raise e ->
          fst (check_prompt_tokens env limits w) = Raise e
          /\ (forall text,
                dry_run (config w) = false ->
                gemini_api_key (config w) <> "" ->
                sdk_installed env = true ->
                target_dir w = Some d ->
                fs_lookup (d ++ ["prompt.txt"]) (fs w) = Some (File (Text text)) ->
                upload_to_gemini env w =
                (Raise e,
                 add_event CountTokens
                   (add_event (Log INFO "Uploading to Google Gemini...") w)))).
Proof.
  intros HN Hpos frames M.
  assert (Htok : forall n, count_tokens env = Return n ->
            exists w'', check_prompt_tokens env limits w = (Return tt, w'')
                        /\ fs w'' = fs w
                        /\ (default 1048576 (max_input_tokens limits) < n ->
                            In token_limit_warning (trace w''))).
  { intros n Hn.
    destruct (check_prompt_tokens_result env limits w n Hn)
      as (w'' & Heq & Hfs & Hwarn & _).
    exists w''. auto. }
  assert (Hfail : forall e, count_tokens env = Raise e ->
            fst (check_prompt_tokens env limits w) = Raise e
            /\ (forall text,
                  dry_run (config w) = false ->
                  gemini_api_key (config w) <> "" ->
                  sdk_installed env = true ->
                  target_dir w = Some d ->
                  fs_lookup (d ++ ["prompt.txt"]) (fs w)
                  = Some (File (Text text)) ->
                  upload_to_gemini env w =
                  (Raise e,
                   add_event CountTokens
                     (add_event (Log INFO "Uploading to Google Gemini...") w)))).
  { intros e He. split.
    - rewrite (check_prompt_tokens_raises env limits w e He). reflexivity.
    - intros text Hdry Hkey Hsdk Ht Hp.
      exact (upload_to_gemini_uncounted env w d text e He Hdry Hkey Hsdk Ht Hp). }
  destruct (collect_files_to_upload_result env limits d w) as [w' [Heq [Hg Hw]]].
  rewrite HN in Heq, Hw.
  exists (manifest_of N d (fs w)), w'.
  split; [exact Heq |]. split; [apply Hg |]. split; [reflexivity |].
  unfold manifest_of. rewrite frames_of_shape. unfold kept_frames. subst M frames.
  destruct (fs_exists (d ++ ["frames"]) (fs w)) eqn:Hex.
  - split; [| split; [| split; [exact Htok | exact Hfail]]].
    + intros Hlt.
      destruct (Z.ltb_spec N (Z.of_nat (length (glob_jpg (d ++ ["frames"]) (fs w)))));
        [| lia].
      rewrite py_slice_to_firstn by exact Hpos.
      split; [reflexivity |]. split; [| now apply Hw].
      rewrite length_firstn. lia.
    + intros Hle.
      destruct (Z.ltb_spec N (Z.of_nat (length (glob_jpg (d ++ ["frames"]) (fs w)))));
        [lia | reflexivity].
  - split; [| split; [| split; [exact Htok | exact Hfail]]].
    + cbn. lia.
    + reflexivity.
Qed.

(** Three frames on disk, a ceiling of two, every other limit exceeded:
    the first two frames are kept. *)
Lemma frame_overflow_is_the_only_cut_witness :
  default 3000 (max_images_per_prompt two_images) = 2
  /\ 0 <= 2
  /\ exists manifest w',
       collect_files_to_upload quiet_env two_images ["work"; "out"]
         (demo_world (demo_config "metadata" [] false) [] (Some ["work"; "out"])
                     (workspace_fs "agenda")) = (Return manifest, w')
       /\ frames_of manifest =
            [ ["work"; "out"; "frames"; "frame_0001.jpg"];
              ["work"; "out"; "frames"; "frame_0002.jpg"] ].
Proof.
  assert (H0 : 0 <= 2) by lia.
  split; [reflexivity |]. split; [exact H0 |].
  destruct (frame_overflow_is_the_only_cut quiet_env two_images ["work"; "out"]
              (demo_world (demo_config "metadata" [] false) [] (Some ["work"; "out"])
                          (workspace_fs "agenda")) 2 eq_refl H0)
    as (manifest & w' & Heq & _ & _ & Hcut & _).
  exists manifest, w'. split; [exact Heq |].
  apply Hcut. vm_compute. reflexivity.
Defined.

(** The service cannot count the tokens of the prompt: the token check,
    one of the resource-limit checks, ends the run.  [run] raises the error
    of the request, no file has been uploaded, no generation request has
    been sent, and the rollback has removed the workspace with the audio
    and the frames that had been extracted. *)
Lemma failed_token_count_aborts_the_run :
  count_tokens uncounted_env = Raise service_unavailable
  /\ fst (run uncounted_env ["meetings"; "q3"; "review.mp4"] None (Some "agenda")
              fresh_world) = Raise service_unavailable
  /\ target_dir (snd (run uncounted_env ["meetings"; "q3"; "review.mp4"] None
                          (Some "agenda") fresh_world))
     = Some ["work"; "2023-11-14_22.13"]
  /\ In CountTokens
        (trace (snd (run uncounted_env ["meetings"; "q3"; "review.mp4"] None
                         (Some "agenda") fresh_world)))
  /\ (forall p, ~ In (Upload p)
        (trace (snd (run uncounted_env ["meetings"; "q3"; "review.mp4"] None
                         (Some "agenda") fresh_world))))
  /\ gen_calls (snd (run uncounted_env ["meetings"; "q3"; "review.mp4"] None
                         (Some "agenda") fresh_world)) = 0%nat
  /\ fs (snd (run uncounted_env ["meetings"; "q3"; "review.mp4"] None
                  (Some "agenda") fresh_world)) = demo_fs.
Proof.
  split; [reflexivity |]. split; [vm_compute; reflexivity |].
  split; [vm_compute; reflexivity |].
  split; [vm_compute; tauto |].
  split; [| split; vm_compute; reflexivity].
  intros p. vm_compute. intros H.
  repeat (destruct H as [H | H]; [discriminate H |]). exact H.
Qed.

(* ===================================================================== *)
(** * The upload loop and the generation request *)
(* ===================================================================== *)

Lemma upload_one (env : Env) (k : kind) (p : path) (rest : list (kind * path))
    (u : Uploaded) (w : World) :
  upload_files env ((k, p) :: rest) u w =
  let u0 := if kind_eqb k Frame then ensure_frames u else u in
  match upload_answer env p with
  | Return h => upload_files env rest (store k h u0) (add_events [Upload p; Pause] w)
  | Raise e =>
      if kind_eqb k Audio then (Raise e, add_events [Upload p; upload_failed] w)
      else upload_files env rest u0 (add_events [Upload p; upload_failed] w)
  end.
Proof.
  cbn [upload_files]. unfold bind at 1, emit at 1, modify at 1. cbv beta iota zeta.
  destruct (upload_answer env p) as [h|e].
  { unfold bind at 1, emit at 1, modify at 1. cbv beta iota.
    rewrite !add_event_events, add_events_app. reflexivity. }
  unfold bind at 1, log at 1, emit at 1, modify at 1. cbv beta iota.
  destruct (kind_eqb k Audio); unfold raise;
    rewrite !add_event_events, add_events_app; reflexivity.
Qed.

Lemma upload_events_app (env : Env) (a b : list (kind * path)) :
  upload_events env (a ++ b) = upload_events env a ++ upload_events env b.
Proof. apply flat_map_app. Qed.

Lemma upload_events_cons (env : Env) (f : kind * path) (l : list (kind * path)) :
  upload_events env (f :: l) = upload_events env [f] ++ upload_events env l.
Proof. apply (upload_events_app env [f] l). Qed.

(** The frame entries never stop the loop. *)
Lemma upload_frames_then (env : Env) (rest : list (kind * path)) :
  forall (frames : list path) (u : Uploaded) (w : World),
    upload_files env (map (pair Frame) frames ++ rest) u w =
    upload_files env rest (add_frame_handles env frames u)
      (add_events (upload_events env (map (pair Frame) frames)) w).
Proof.
  induction frames as [|p frames IH]; intros u w.
  - cbn. now rewrite add_events_nil.
  - cbn [map app upload_files kind_eqb].
    unfold bind at 1, emit at 1, modify at 1. cbv beta iota.
    cbn [upload_events flat_map snd].
    destruct (upload_answer env p) as [h|e] eqn:Ep.
    + unfold bind at 1, emit at 1, modify at 1. cbv beta iota. rewrite IH.
      rewrite !add_event_events, !add_events_app. cbn [app].
      f_equal. destruct u as [a [fr|] n], frames as [|q frames]; cbn;
        unfold uploaded_handles; cbn; rewrite ?Ep; cbn;
        rewrite ?app_nil_r, <- ?app_assoc; reflexivity.
    + unfold bind at 1, log at 1, emit at 1, modify at 1. cbv beta iota.
      cbn [kind_eqb]. cbv iota. rewrite IH.
      rewrite !add_event_events, !add_events_app. cbn [app].
      f_equal. destruct u as [a [fr|] n], frames as [|q frames]; cbn;
        unfold uploaded_handles; cbn; rewrite ?Ep; cbn;
        rewrite ?app_nil_r, <- ?app_assoc; reflexivity.
Qed.

Lemma upload_note_last (env : Env) (note : option path) (u : Uploaded) (w : World) :
  upload_files env (match note with Some p => [(Note, p)] | None => [] end) u w =
  (Return {| up_audio := up_audio u; up_frames := up_frames u;
             up_note := match uploaded_handles env (option_list note) with
                        | h :: _ => Some h
                        | [] => up_note u
                        end |},
   add_events
     (upload_events env (match note with Some p => [(Note, p)] | None => [] end)) w).
Proof.
  destruct note as [n|]; cbn [option_list].
  - rewrite upload_one. unfold uploaded_handles, upload_events. cbn.
    destruct (upload_answer env n) as [h|e]; cbn; destruct u; reflexivity.
  - cbn. rewrite add_events_nil. destruct u; reflexivity.
Qed.

(** C6. On a manifest of audio, frames and note: if the audio upload
    fails, its error propagates and nothing else is uploaded; otherwise the
    loop returns, every entry has been tried in order, each failed frame or
    note upload has left an error line and no handle, and the request is
    the prompt text, then the audio handle if any, then the handles of the
    frames that were uploaded, in manifest order, then the note handle if
    any. *)
Theorem upload_audio_fatal_rest_skipped (env : Env) (audio : option path)
    (frames : list path) (note : option path) (prompt_text : string) (w : World) :
  let files := manifest_shape audio frames note in
  let r := upload_files env files no_uploads w in
  match audio_failure env audio with
  | Some e =>
      fst r = Raise e
      /\ snd r = add_events (upload_events env (manifest_shape audio [] None)) w
  | None =>
      exists u,
        fst r = Return u
        /\ snd r = add_events (upload_events env files) w
        /\ content_parts prompt_text u =
             PText prompt_text ::
             map PFile (uploaded_handles env (option_list audio)
                        ++ uploaded_handles env frames
                        ++ uploaded_handles env (option_list note))
  end.
Proof.
  intros files r. subst r files. unfold manifest_shape, audio_failure.
  assert (Hev : forall k p, upload_events env [(k, p)] =
                 Upload p :: match upload_answer env p with
                             | Return _ => [Pause]
                             | Raise _ => [upload_failed]
                             end)
    by (intros; unfold upload_events; cbn; now rewrite app_nil_r).
  destruct audio as [a|]; cbn [app option_list].
  - rewrite upload_one. cbn [kind_eqb]. cbv zeta iota.
    destruct (upload_answer env a) as [h|e] eqn:Ea.
    + rewrite upload_frames_then, upload_note_last, !add_events_app.
      eexists. split; [reflexivity |]. split.
      * rewrite (upload_events_cons env (Audio, a)), upload_events_app, Hev, Ea.
        reflexivity.
      * unfold content_parts. cbn.
        destruct frames as [|f frames], note as [n|]; cbn;
          unfold uploaded_handles; cbn; rewrite Ea;
          repeat match goal with
                 | |- context [upload_answer env ?p] =>
                     destruct (upload_answer env p)
                 end;
          cbn; rewrite ?map_app, ?app_nil_r; reflexivity.
    + rewrite Hev, Ea. split; reflexivity.
  - rewrite upload_frames_then, upload_note_last, !add_events_app.
    eexists. split; [reflexivity |]. split.
    + rewrite upload_events_app. reflexivity.
    + unfold content_parts. cbn.
      destruct frames as [|f frames], note as [n|]; cbn;
        unfold uploaded_handles; cbn;
        repeat match goal with
               | |- context [upload_answer env ?p] => destruct (upload_answer env p)
               end;
        cbn; rewrite ?map_app, ?app_nil_r; reflexivity.
Qed.

(** Without a note entry in the manifest, no note handle reaches the
    request. *)
Lemma upload_without_note (env : Env) (audio : option path) (frames : list path)
    (w : World) (u : Uploaded) :
  fst (upload_files env (manifest_shape audio frames None) no_uploads w) = Return u ->
  up_note u = None.
Proof.
  unfold manifest_shape. rewrite app_nil_r.
  destruct audio as [a|]; cbn [app].
  - rewrite upload_one. cbn [kind_eqb]. cbv zeta iota.
    destruct (upload_answer env a); [| discriminate].
    rewrite <- (app_nil_r (map _ _)), upload_frames_then. cbn [upload_files ret fst].
    intros [= <-]. destruct frames; reflexivity.
  - rewrite <- (app_nil_r (map _ _)), upload_frames_then. cbn [upload_files ret fst].
    intros [= <-]. destruct frames; reflexivity.
Qed.

Lemma In_note_shape (audio : option path) (frames : list path)
    (note : option path) (p : path) :
  In (Note, p) (manifest_shape audio frames note) <-> note = Some p.
Proof.
  unfold manifest_shape. rewrite !in_app_iff, in_map_iff.
  destruct audio, note; cbn; split; intros Hyp;
    repeat match goal with
           | H : _ \/ _ |- _ => destruct H
           | H : _ /\ _ |- _ => destruct H
           | H : exists _, _ |- _ => destruct H
           | H : False |- _ => destruct H
           end;
    try discriminate; try congruence; auto.
  - injection Hyp as ->. auto.
  - injection Hyp as ->. auto.
Qed.

(** C10. The manifest holds the note entry exactly when the note file
    exists with a size above zero, and no other note entry; for an existing
    empty note the note step changes neither the manifest nor the world (no
    log line), and the uploads made from that manifest carry no note
    handle. *)
Theorem note_uploaded_iff_nonempty (env : Env) (limits : ModelLimits)
    (d : path) (w : World) :
  let note := d ++ ["note.txt"] in
  exists manifest w',
    collect_files_to_upload env limits d w = (Return manifest, w')
    /\ (In (Note, note) manifest
        <-> fs_exists note (fs w) = true /\ 0 < st_size note (fs w))
    /\ (forall p, In (Note, p) manifest -> p = note)
    /\ (fs_exists note (fs w) = true -> st_size note (fs w) = 0 ->
        (forall files, collect_note d files w = (Return files, w))
        /\ ~ In (Note, note) manifest
        /\ forall w2 u, fst (upload_files env manifest no_uploads w2) = Return u ->
                        up_note u = None).
Proof.
  intros note.
  destruct (collect_files_to_upload_result env limits d w) as [w' [Heq _]].
  exists (manifest_of (default 3000 (max_images_per_prompt limits)) d (fs w)), w'.
  split; [exact Heq |].
  assert (Hin : forall p,
            In (Note, p) (manifest_of (default 3000 (max_images_per_prompt limits))
                                      d (fs w))
            <-> p = note /\ fs_exists note (fs w) = true
                /\ 0 < st_size note (fs w)).
  { intros p. unfold manifest_of. rewrite In_note_shape. fold note.
    destruct (fs_exists note (fs w)); cbn;
      destruct (Z.ltb_spec 0 (st_size note (fs w))); cbn;
      split; intros Hyp; try discriminate; try lia;
      try (injection Hyp as <-); intuition (try discriminate; try congruence). }
  split; [| split].
  - rewrite Hin. tauto.
  - intros p Hp. now apply Hin in Hp.
  - intros Hex Hsz. split; [| split].
    + intros files. rewrite collect_note_result. fold note. rewrite Hex, Hsz.
      cbn. now rewrite app_nil_r.
    + rewrite Hin. lia.
    + intros w2 u. unfold manifest_of. fold note. rewrite Hex, Hsz. cbn.
      apply upload_without_note.
Qed.

(* ===================================================================== *)
(** * Generation and the release of the uploads *)
(* ===================================================================== *)

Lemma deleted_app (t u : list event) : deleted (t ++ u) = deleted t ++ deleted u.
Proof. apply omap_app. Qed.

Lemma deleted_Delete (hs : list handle) : deleted (map Delete hs) = hs.
Proof. induction hs as [|h hs IH]; [reflexivity |]. cbn. f_equal. exact IH. Qed.

Lemma delete_frames_result (env : Env) :
  forall (hs : list handle) (w : World),
    delete_frames env hs w =
    (match first_release_error env hs with None => Return tt | Some e => Raise e end,
     add_events (map Delete (release_attempts env hs)) w).
Proof.
  induction hs as [|h hs IH]; intros w.
  - cbn. now rewrite add_events_nil.
  - cbn [delete_frames first_release_error release_attempts map].
    unfold bind at 1, delete_file, bind at 1, emit, modify. cbv beta iota.
    destruct (delete_answer env h) as [e|].
    + reflexivity.
    + unfold ret at 1. cbv beta iota. rewrite IH, add_event_events, add_events_app.
      reflexivity.
Qed.

Lemma release_attempts_app (env : Env) (a b : list handle) :
  release_attempts env (a ++ b) =
  release_attempts env a ++
  match first_release_error env a with
  | None => release_attempts env b
  | Some _ => []
  end.
Proof.
  induction a as [|h a IH]; [reflexivity |]. cbn.
  destruct (delete_answer env h); [reflexivity |]. now rewrite IH.
Qed.

Lemma first_release_error_app (env : Env) (a b : list handle) :
  first_release_error env (a ++ b) =
  match first_release_error env a with
  | None => first_release_error env b
  | Some e => Some e
  end.
Proof.
  induction a as [|h a IH]; [reflexivity |]. cbn.
  destruct (delete_answer env h); [reflexivity | exact IH].
Qed.

Lemma release_attempts_all (env : Env) (hs : list handle) :
  (forall h, In h hs -> delete_answer env h = None) ->
  release_attempts env hs = hs.
Proof.
  induction hs as [|h hs IH]; intros Hok; [reflexivity |]. cbn.
  rewrite (Hok h) by now left. f_equal. apply IH. intros h' Hin. apply Hok. now right.
Qed.

Lemma delete_file_as_frames (env : Env) (h : handle) (w : World) :
  delete_file env h w = delete_frames env [h] w.
Proof.
  cbn. unfold bind, delete_file, bind, emit, modify, ret.
  destruct (delete_answer env h); reflexivity.
Qed.

Lemma delete_frames_app (env : Env) (a b : list handle) (w : World) :
  (delete_frames env a ;; delete_frames env b) w = delete_frames env (a ++ b) w.
Proof.
  unfold bind.
  rewrite (delete_frames_result env a w), (delete_frames_result env (a ++ b) w).
  rewrite release_attempts_app, first_release_error_app.
  destruct (first_release_error env a).
  - now rewrite app_nil_r.
  - rewrite delete_frames_result, add_events_app, map_app. reflexivity.
Qed.

(** The three deletion steps of the release block are one pass over
    [handles u]. *)
Lemma release_pass (env : Env) (u : Uploaded) (w : World) :
  ((match up_audio u with Some h => delete_file env h | None => ret tt end) ;;
   (match up_frames u with Some hs => delete_frames env hs | None => ret tt end) ;;
   (match up_note u with Some h => delete_file env h | None => ret tt end)) w
  = delete_frames env (handles u) w.
Proof.
  unfold handles.
  rewrite <- delete_frames_app. unfold bind at 1 3.
  assert (H1 : (match up_audio u with Some h => delete_file env h | None => ret tt end) w
               = delete_frames env (match up_audio u with Some h => [h] | None => [] end) w).
  { destruct (up_audio u); [apply delete_file_as_frames | reflexivity]. }
  rewrite H1. destruct (delete_frames env _ w) as [[[]|e] w1]; [| reflexivity].
  rewrite <- delete_frames_app. unfold bind.
  assert (H2 : (match up_frames u with Some hs => delete_frames env hs | None => ret tt end) w1
               = delete_frames env (default [] (up_frames u)) w1).
  { destruct (up_frames u); reflexivity. }
  rewrite H2. destruct (delete_frames env _ w1) as [[[]|e] w2]; [| reflexivity].
  destruct (up_note u); [apply delete_file_as_frames | reflexivity].
Qed.

(** The release block never raises; it deletes along [handles u] up to the
    first deletion that fails. *)
Lemma release_uploaded_result (env : Env) (u : Uploaded) (w : World) :
  exists w',
    release_uploaded env u w = (Return tt, w')
    /\ fs w' = fs w
    /\ deleted (trace w') = deleted (trace w) ++ release_attempts env (handles u).
Proof.
  unfold release_uploaded.
  destruct (has_keys u) eqn:Hk.
  - unfold bind at 1, log at 1, emit at 1, modify at 1. cbv beta iota.
    unfold try_except.
    set (w0 := add_event (Log INFO "Cleaning up uploaded files...") w).
    assert (Hpass :
      (((match up_audio u with Some h => delete_file env h | None => ret tt end) ;;
        (match up_frames u with Some hs => delete_frames env hs | None => ret tt end) ;;
        (match up_note u with Some h => delete_file env h | None => ret tt end) ;;
        log INFO "Cleaned up uploaded files") w0)
      = (let (o, w1) := delete_frames env (handles u) w0 in
         match o with
         | Return _ => (Return tt, add_event (Log INFO "Cleaned up uploaded files") w1)
         | Raise e => (Raise e, w1)
         end)).
    { rewrite <- release_pass. unfold bind.
      destruct (match up_audio u with Some h => delete_file env h | None => ret tt end w0)
        as [[[]|e] w1]; [| reflexivity].
      destruct (match up_frames u with Some hs => delete_frames env hs | None => ret tt end w1)
        as [[[]|e] w2]; [| reflexivity].
      destruct (match up_note u with Some h => delete_file env h | None => ret tt end w2)
        as [[[]|e] w3]; reflexivity. }
    rewrite Hpass, delete_frames_result.
    subst w0.
    destruct (first_release_error env (handles u)); cbn -[deleted];
      (eexists; split; [reflexivity |]; split; [reflexivity |]);
      cbn -[deleted]; rewrite !deleted_app, deleted_Delete; cbn;
      now rewrite ?app_nil_r.
  - exists w. split; [reflexivity |]. split; [reflexivity |].
    unfold has_keys, handles in *.
    destruct (up_audio u), (up_frames u), (up_note u); try discriminate.
    cbn. now rewrite app_nil_r.
Qed.

Lemma quiet_refl (w : World) : quiet w w.
Proof. unfold quiet. tauto. Qed.

Lemma quiet_trans (w1 w2 w3 : World) : quiet w1 w2 -> quiet w2 w3 -> quiet w1 w3.
Proof. unfold quiet. intuition congruence. Qed.

Lemma quiet_add_event (e : event) (w : World) :
  (forall h, e <> Delete h) -> quiet w (add_event e w).
Proof.
  intros He. unfold quiet. cbn -[deleted]. repeat split.
  rewrite deleted_app. destruct e; cbn; try now rewrite app_nil_r.
  exfalso. eapply He. reflexivity.
Qed.

Lemma retry_loop_quiet {A} (func : M A) (m b : Z) :
  (forall w, quiet w (snd (func w))) ->
  forall (attempts : list Z) (w : World),
    quiet w (snd (retry_loop func m b attempts w)).
Proof.
  intros Hfunc. induction attempts as [|attempt rest IH]; intros w.
  - apply quiet_refl.
  - cbn [retry_loop]. unfold try_except.
    specialize (Hfunc w). destruct (func w) as [[a|e] w1]; cbn [snd] in Hfunc.
    + exact Hfunc.
    + destruct (is_503_error e); [destruct (attempt <? m) |];
        unfold bind, log, emit, modify, raise; cbn [snd].
      * eapply quiet_trans; [exact Hfunc |].
        eapply quiet_trans; [| apply IH].
        eapply quiet_trans; apply quiet_add_event; intros ?; discriminate.
      * eapply quiet_trans; [exact Hfunc |].
        apply quiet_add_event; intros ?; discriminate.
      * eapply quiet_trans; [exact Hfunc |].
        apply quiet_add_event; intros ?; discriminate.
Qed.

Lemma generate_content_quiet (env : Env) (parts : list part)
    (params : ValidatedDefaults) (max_out : Z) (w : World) :
  quiet w (snd (generate_content env parts params max_out w)).
Proof.
  unfold generate_content, bind, emit, modify, scripted, quiet.
  cbn -[deleted]. rewrite deleted_app. cbn. now rewrite app_nil_r.
Qed.

Lemma wrapped_generation_quiet (env : Env) (parts : list part) (w : World) :
  quiet w (snd (wrapped_generation env parts w)).
Proof.
  unfold wrapped_generation.
  apply (quiet_trans _ (add_event (Log INFO "Generating content...") w));
    [apply quiet_add_event; intros ?; discriminate |].
  apply retry_loop_quiet. intros w0. apply generate_content_quiet.
Qed.

Lemma generate_and_release_unfold (env : Env) (d : path) (parts : list part)
    (u : Uploaded) (w : World) :
  generate_and_release env d parts u w =
  match wrapped_generation env parts w with
  | (Return text, w1) =>
      (((if negb (String.eqb text "")
         then write_file (d ++ ["meeting.md"]) (Text text) ;;
              log INFO "Gemini analysis completed and saved to meeting.md"
         else raise (RuntimeError "Empty response from Gemini API")) ;;
        release_uploaded env u) w1)
  | (Raise e, w1) => (Raise e, w1)
  end.
Proof. reflexivity. Qed.

Lemma path_eqb_refl (p : path) : path_eqb p p = true.
Proof. unfold path_eqb. now apply bool_decide_eq_true_2. Qed.

Lemma fs_lookup_replace (p : path) (n : node) (f : FS) :
  fs_exists p f = true -> fs_lookup p (fs_replace p n f) = Some n.
Proof.
  unfold fs_exists. induction f as [|[q m] f IH]; cbn; [discriminate |].
  destruct (path_eqb q p) eqn:E; cbn; rewrite E; [reflexivity | exact IH].
Qed.

Lemma fs_lookup_append (p : path) (n : node) (f : FS) :
  fs_exists p f = false -> fs_lookup p (f ++ [(p, n)]) = Some n.
Proof.
  unfold fs_exists. induction f as [|[q m] f IH]; cbn.
  - now rewrite path_eqb_refl.
  - destruct (path_eqb q p); [discriminate | exact IH].
Qed.

Lemma fs_lookup_put (p : path) (n : node) (f : FS) :
  fs_lookup p (fs_put p n f) = Some n.
Proof.
  unfold fs_put. destruct (fs_exists p f) eqn:E;
    [now apply fs_lookup_replace | now apply fs_lookup_append].
Qed.

(** C2, as the code has it. The uploads are released only after the
    retry-wrapped generation has returned a non-empty text and that text
    has been saved: then the method returns normally whatever the deletions
    answer (a release failure is logged, never escalated), and when no
    deletion fails every uploaded handle has been released, once, in the
    order audio, frames, note. When generation raises, or returns an empty
    text, the error propagates and no release has been attempted. *)
Theorem release_follows_successful_generation (env : Env) (d : path)
    (parts : list part) (u : Uploaded) (w : World) :
  let r := generate_and_release env d parts u w in
  match fst (wrapped_generation env parts w) with
  | Raise e =>
      fst r = Raise e /\ deleted (trace (snd r)) = deleted (trace w)
  | Return text =>
      if String.eqb text "" then
        fst r = Raise (RuntimeError "Empty response from Gemini API")
        /\ deleted (trace (snd r)) = deleted (trace w)
      else
        parent_exists (d ++ ["meeting.md"]) (fs w) = true ->
        fst r = Return tt
        /\ fs_lookup (d ++ ["meeting.md"]) (fs (snd r)) = Some (File (Text text))
        /\ ((forall h, In h (handles u) -> delete_answer env h = None) ->
            deleted (trace (snd r)) = deleted (trace w) ++ handles u)
  end.
Proof.
  intros r. subst r. rewrite generate_and_release_unfold.
  pose proof (wrapped_generation_quiet env parts w) as Hq.
  destruct (wrapped_generation env parts w) as [[text|e] w1]; cbn [fst snd] in *.
  - destruct Hq as (Hc & Ht & Hf & Hd).
    destruct (String.eqb text "") eqn:Etext; cbn [negb].
    + unfold bind, raise. cbn -[deleted]. tauto.
    + intros Hparent.
      assert (Hbody :
        ((write_file (d ++ ["meeting.md"]) (Text text) ;;
          log INFO "Gemini analysis completed and saved to meeting.md") ;;
         release_uploaded env u) w1
        = release_uploaded env u
            (add_event (Log INFO "Gemini analysis completed and saved to meeting.md")
               (set_fs (fs_put (d ++ ["meeting.md"]) (File (Text text)) (fs w)) w1))).
      { unfold bind, write_file, bind, get, modify, log, emit, modify.
        rewrite Hf, Hparent. reflexivity. }
      rewrite Hbody.
      match goal with |- context [release_uploaded env u ?w2] =>
        destruct (release_uploaded_result env u w2) as (w' & Hr & Hfs & Hdel)
      end.
      rewrite Hr. cbn [fst snd]. split; [reflexivity |]. split.
      * rewrite Hfs. cbn. apply fs_lookup_put.
      * intros Hok. rewrite Hdel, (release_attempts_all env _ Hok).
        cbn -[deleted]. rewrite deleted_app, Hd. cbn. now rewrite app_nil_r.
  - unfold quiet in Hq. tauto.
Qed.

(** The service answers at once and deletes what it is asked to. *)
Lemma release_follows_successful_generation_witness :
  parent_exists ["work"; "out"; "meeting.md"] (fs workspace_world) = true
  /\ (forall h, In h (handles some_uploads) -> delete_answer quiet_env h = None)
  /\ fst (generate_and_release quiet_env ["work"; "out"] [PText "Summarise."]
            some_uploads workspace_world) = Return tt
  /\ deleted (trace (snd (generate_and_release quiet_env ["work"; "out"]
                            [PText "Summarise."] some_uploads workspace_world)))
     = ["files/audio.m4a"; "files/frame_0001.jpg"; "files/frame_0002.jpg"].
Proof.
  assert (Hparent : parent_exists ["work"; "out"; "meeting.md"] (fs workspace_world)
                    = true) by reflexivity.
  assert (Hok : forall h, In h (handles some_uploads) ->
                          delete_answer quiet_env h = None) by reflexivity.
  split; [exact Hparent |]. split; [exact Hok |].
  pose proof (release_follows_successful_generation quiet_env ["work"; "out"]
                [PText "Summarise."] some_uploads workspace_world) as H.
  cbv zeta in H.
  change (fst (wrapped_generation quiet_env [PText "Summarise."] workspace_world))
    with (@Return string "# Minutes") in H.
  cbv beta iota in H. change ("# Minutes" =? "")%string with false in H.
  cbv iota in H. destruct (H Hparent) as (Hret & _ & Hdel).
  split; [exact Hret | exact (Hdel Hok)].
Defined.

(** C2 as stated fails. With three handles uploaded: a refused request
    propagates its error and an empty answer raises, and in both cases no
    handle is released; and when the service refuses to delete the audio
    upload, the method still returns normally but the two frame handles
    are never tried. *)
Lemma failed_generation_leaves_uploads :
  let attempt (env : Env) :=
    generate_and_release env ["work"; "out"] [PText "Summarise."]
                         some_uploads workspace_world in
  handles some_uploads
    = ["files/audio.m4a"; "files/frame_0001.jpg"; "files/frame_0002.jpg"]
  /\ fst (attempt refusing_env) = Raise permission_denied
  /\ deleted (trace (snd (attempt refusing_env))) = []
  /\ fst (attempt mute_env) = Raise (RuntimeError "Empty response from Gemini API")
  /\ deleted (trace (snd (attempt mute_env))) = []
  /\ fst (attempt sticky_env) = Return tt
  /\ deleted (trace (snd (attempt sticky_env))) = ["files/audio.m4a"].
Proof. vm_compute. repeat split. Qed.

(* ===================================================================== *)
(** * The transcode step checks what the tool left *)
(* ===================================================================== *)

(** C7. When the tool is run (no dry run, preset file present): a non-zero
    exit status raises; exit status 0 with no output file raises; exit
    status 0 with an output file of size zero raises; and the step returns
    normally exactly when the status is 0 and the output file exists and is
    not empty. *)
Theorem convert_video_validates_output (env : Env) (w : World) (d : path) :
  target_dir w = Some d ->
  dry_run (config w) = false ->
  fs_exists (script_dir env ++ [handbrake_preset_file (config w)]) (fs w) = true ->
  let r := convert_video env w in
  let out := d ++ ["small.mp4"] in
  let f' := fs (snd r) in
  In (RunTool HandBrakeCLI) (trace (snd r))
  /\ (fst (handbrake env) <> 0 -> fst r = Raise (RuntimeError "HandBrakeCLI failed"))
  /\ (fst (handbrake env) = 0 -> fs_exists out f' = false ->
      fst r = Raise (RuntimeError
                "HandBrakeCLI reported success but output file was not created"))
  /\ (fst (handbrake env) = 0 -> fs_exists out f' = true -> st_size out f' = 0 ->
      fst r = Raise (RuntimeError "HandBrakeCLI created empty output file"))
  /\ (fst r = Return tt <->
      fst (handbrake env) = 0 /\ fs_exists out f' = true /\ st_size out f' <> 0).
Proof.
  intros Hd Hdry Hpreset r out f'. subst r f' out.
  unfold convert_video, with_target_dir, subprocess_run.
  unfold bind, log, emit, modify, get, raise, ret. cbn.
  rewrite Hd. cbn. rewrite Hpreset, Hdry. cbn.
  destruct (Z.eqb_spec (fst (handbrake env)) 0) as [Hrc|Hrc]; cbn.
  - set (f1 := fold_left _ _ (fs w)).
    destruct (fs_exists (d ++ ["small.mp4"]) f1) eqn:Hex; cbn.
    + destruct (Z.eqb_spec (st_size (d ++ ["small.mp4"]) f1) 0) as [Hsz|Hsz]; cbn.
      * split; [rewrite !in_app_iff; cbn; tauto |].
        intuition (congruence || discriminate).
      * split; [rewrite !in_app_iff; cbn; tauto |].
        intuition (congruence || discriminate).
    + split; [rewrite !in_app_iff; cbn; tauto |].
      intuition (congruence || discriminate).
  - split; [rewrite !in_app_iff; cbn; tauto |].
    intuition (congruence || discriminate).
Qed.

(** HandBrakeCLI exits with status 0 and leaves an empty file: the step
    raises. *)
Lemma convert_video_validates_output_witness :
  target_dir workspace_world = Some ["work"; "out"]
  /\ dry_run (config workspace_world) = false
  /\ fs_exists (script_dir hollow_handbrake_env
                ++ [handbrake_preset_file (config workspace_world)])
               (fs workspace_world) = true
  /\ fst (convert_video hollow_handbrake_env workspace_world)
     = Raise (RuntimeError "HandBrakeCLI created empty output file").
Proof.
  split; [reflexivity |]. split; [reflexivity |]. split; [reflexivity |].
  destruct (convert_video_validates_output hollow_handbrake_env workspace_world
              ["work"; "out"] eq_refl eq_refl eq_refl) as (_ & _ & _ & Hempty & _).
  apply Hempty; reflexivity.
Defined.

(* ===================================================================== *)
(** * Rollback on failure *)
(* ===================================================================== *)

Lemma fs_lookup_rmtree (d p : path) (f : FS) :
  fs_lookup p (fs_rmtree d f) = if is_prefix d p then None else fs_lookup p f.
Proof.
  unfold fs_rmtree. induction f as [|[q n] f IH].
  - cbn. now destruct (is_prefix d p).
  - rewrite filter_cons. cbn [fst].
    destruct (is_prefix d q) eqn:Hq; cbn [negb].
    + destruct (decide (Is_true false)) as [[]|_].
      rewrite IH. cbn [fs_lookup]. unfold path_eqb.
      destruct (bool_decide (q = p)) eqn:E; [| reflexivity].
      apply bool_decide_eq_true_1 in E. subst q. now rewrite Hq.
    + destruct (decide (Is_true true)) as [_|Hn]; [| now destruct Hn].
      cbn [fs_lookup]. unfold path_eqb.
      destruct (bool_decide (q = p)) eqn:E; [| exact IH].
      apply bool_decide_eq_true_1 in E. subst q. now rewrite Hq.
Qed.

(** What a removal that raised had removed lies below the directory. *)
Lemma fs_lookup_rmtree_partial (gone : path -> bool) (d p : path) (f : FS) :
  fs_lookup p (fs_rmtree_partial gone d f)
  = if is_prefix d p && negb (path_eqb p d) && gone p then None else fs_lookup p f.
Proof.
  unfold fs_rmtree_partial. induction f as [|[q n] f IH].
  - cbn. now destruct (is_prefix d p && negb (path_eqb p d) && gone p).
  - rewrite filter_cons. cbn [fst].
    destruct (is_prefix d q && negb (path_eqb q d) && gone q) eqn:Hq; cbn [negb].
    + destruct (decide (Is_true false)) as [[]|_].
      rewrite IH. cbn [fs_lookup].
      destruct (path_eqb q p) eqn:E; [| reflexivity].
      unfold path_eqb in E. apply bool_decide_eq_true_1 in E. subst q.
      now rewrite Hq.
    + destruct (decide (Is_true true)) as [_|Hn]; [| now destruct Hn].
      cbn [fs_lookup].
      destruct (path_eqb q p) eqn:E; [| exact IH].
      unfold path_eqb in E. apply bool_decide_eq_true_1 in E. subst q.
      now rewrite Hq.
Qed.

(** When the body of [run] raises with the workspace in place and
    [rmtree] works, the error is re-raised after everything at or below
    the workspace has been removed and nothing else has been touched. *)
Lemma run_failure_rolls_back (env : Env) (video : path)
    (prompt_type notes : option string) (w w1 : World) (e : exn) (d : path) :
  run_body env video prompt_type notes w = (Raise e, w1) ->
  target_dir w1 = Some d ->
  fs_exists d (fs w1) = true ->
  rmtree_error env d = None ->
  let r := run env video prompt_type notes w in
  fst r = Raise e
  /\ forall p, fs_lookup p (fs (snd r))
               = if is_prefix d p then None else fs_lookup p (fs w1).
Proof.
  intros Hbody Hd Hex Hrm r. subst r.
  unfold run, try_except. rewrite Hbody.
  unfold cleanup_on_failure, with_target_dir, rmtree, try_except.
  unfold bind, log, emit, modify, get, raise, ret. cbn.
  rewrite Hd. cbn. rewrite Hex, Hrm. cbn.
  split; [reflexivity |]. intros p. apply fs_lookup_rmtree.
Qed.

(** C8 fails on the code. The user asks for the outputs next to the video
    ([-d meetings/q3] for [meetings/q3/review.mp4]) and HandBrakeCLI fails:
    the error is re-raised after the rollback has removed the whole
    directory, the original video included. Only the preset and prompt
    files and the other directories are left. *)
Theorem rollback_deletes_video_in_workspace :
  let video := ["meetings"; "q3"; "review.mp4"] in
  let r := run broken_handbrake_env video None (Some "agenda") in_place_world in
  target_directory (config in_place_world) = ["meetings"; "q3"]
  /\ fs_lookup video (fs in_place_world) = Some (File (Blob 5000))
  /\ fst r = Raise (RuntimeError "HandBrakeCLI failed")
  /\ fs_exists video (fs (snd r)) = false
  /\ fs (snd r) =
       [ (["app"], Dir);
         (["app"; "Meeting.json"], File (Text "{}"));
         (["app"; "prompt.txt"], File (Text "Summarise the meeting."));
         (["work"], Dir);
         (["meetings"], Dir) ].
Proof. vm_compute. repeat split. Qed.

(* ===================================================================== *)
(** * Which stages leave which lines in the trace *)
(* ===================================================================== *)

Section EmitsOnly.
Variable P : event -> Prop.

Lemma emits_ret {A} (a : A) : emits_only P (ret a).
Proof. intros w. exists []. cbn. now rewrite app_nil_r. Qed.

Lemma emits_raise {A} (e : exn) : emits_only P (@raise A e).
Proof. intros w. exists []. cbn. now rewrite app_nil_r. Qed.

Lemma emits_get : emits_only P get.
Proof. intros w. exists []. cbn. now rewrite app_nil_r. Qed.

Lemma emits_modify (f : World -> World) :
  (forall w, trace (f w) = trace w) -> emits_only P (modify f).
Proof. intros Hf w. exists []. cbn. now rewrite Hf, app_nil_r. Qed.

Lemma emits_emit (e : event) : P e -> emits_only P (emit e).
Proof. intros He w. exists [e]. cbn. split; [reflexivity | now constructor]. Qed.

Lemma emits_scripted {A} (answers : nat -> outcome A) :
  emits_only P (scripted answers).
Proof. intros w. exists []. cbn. now rewrite app_nil_r. Qed.

Lemma emits_bind {A B} (m : M A) (k : A -> M B) :
  emits_only P m -> (forall a, emits_only P (k a)) -> emits_only P (bind m k).
Proof.
  intros Hm Hk w. unfold bind. destruct (Hm w) as (evs & Ht & Hp).
  destruct (m w) as [[a|e] w1]; cbn [snd] in *.
  - destruct (Hk a w1) as (evs' & Ht' & Hp').
    exists (evs ++ evs'). rewrite Ht', Ht, app_assoc. split; [reflexivity |].
    apply Forall_app; now split.
  - exists evs. now split.
Qed.

Lemma emits_try {A} (body : M A) (handler : exn -> M A) :
  emits_only P body -> (forall e, emits_only P (handler e)) ->
  emits_only P (try_except body handler).
Proof.
  intros Hm Hk w. unfold try_except. destruct (Hm w) as (evs & Ht & Hp).
  destruct (body w) as [[a|e] w1]; cbn [snd] in *.
  - exists evs. now split.
  - destruct (Hk e w1) as (evs' & Ht' & Hp').
    exists (evs ++ evs'). rewrite Ht', Ht, app_assoc. split; [reflexivity |].
    apply Forall_app; now split.
Qed.
End EmitsOnly.

Ltac emits_step :=
  first
    [ apply emits_ret | apply emits_raise | apply emits_get | apply emits_scripted
    | apply emits_emit; unfold other_stage, frames_entry; discriminate
    | apply emits_modify; intros [? ? ? ? ? ?]; reflexivity
    | apply emits_bind; [| intros ?]
    | apply emits_try; [| intros ?]
    | assumption
    | match goal with
      | |- emits_only _ (if ?b then _ else _) => destruct b
      | |- emits_only _ (match ?x with _ => _ end) => destruct x
      end ].

Ltac emits := cbv zeta; repeat emits_step.

Ltac emits_unfold :=
  unfold with_target_dir, write_file, read_text, mkdir, subprocess_run, rmtree, log.

Lemma extract_datetime_emits (env : Env) :
  emits_only other_stage (extract_datetime env).
Proof.
  unfold extract_datetime, extract_datetime_from_metadata,
    extract_datetime_from_file_mtime, get_manual_datetime, source_is, set_source, log.
  emits.
Qed.

Lemma create_target_directory_emits (env : Env) (dt : datetime) :
  emits_only other_stage (create_target_directory env dt).
Proof. unfold create_target_directory. emits_unfold. emits. Qed.

Lemma convert_video_emits (env : Env) : emits_only other_stage (convert_video env).
Proof. unfold convert_video. emits_unfold. emits. Qed.

Lemma extract_audio_emits (env : Env) : emits_only other_stage (extract_audio env).
Proof. unfold extract_audio. emits_unfold. emits. Qed.

Lemma create_meeting_md_emits : emits_only other_stage create_meeting_md.
Proof. unfold create_meeting_md. emits_unfold. emits. Qed.

Lemma select_and_copy_prompt_emits (env : Env) (pt : option string) :
  emits_only other_stage (select_and_copy_prompt env pt).
Proof. unfold select_and_copy_prompt. emits_unfold. emits. Qed.

Lemma create_note_txt_emits (env : Env) (notes : option string) :
  emits_only other_stage (create_note_txt env notes).
Proof. unfold create_note_txt. emits_unfold. emits. Qed.

Lemma add_frames_emits (limits : ModelLimits) (frame_files : list path) :
  forall files, emits_only other_stage (add_frames limits frame_files files).
Proof.
  induction frame_files as [|p rest IH]; intros files; cbn [add_frames];
    emits_unfold; emits. apply IH.
Qed.

Lemma upload_files_emits (env : Env) (files : list (kind * path)) :
  forall u, emits_only other_stage (upload_files env files u).
Proof.
  induction files as [|[k p] rest IH]; intros u; cbn [upload_files];
    emits_unfold; emits; apply IH.
Qed.

Lemma delete_frames_emits (env : Env) (hs : list handle) :
  emits_only other_stage (delete_frames env hs).
Proof.
  induction hs as [|h rest IH]; cbn [delete_frames]; unfold delete_file;
    emits_unfold; emits.
Qed.

Lemma retry_loop_emits {A} (func : M A) (m b : Z) (attempts : list Z) :
  emits_only other_stage func ->
  emits_only other_stage (retry_loop func m b attempts).
Proof.
  intros Hfunc. induction attempts as [|a rest IH]; cbn [retry_loop];
    emits_unfold; emits.
Qed.

Lemma upload_to_gemini_emits (env : Env) :
  emits_only other_stage (upload_to_gemini env).
Proof.
  unfold upload_to_gemini, check_prompt_tokens, collect_files_to_upload,
    collect_audio, collect_frames, collect_note, generate_and_release,
    retry_with_exponential_backoff, release_uploaded, delete_file.
  emits_unfold.
  repeat first [ emits_step
               | apply add_frames_emits | apply upload_files_emits
               | apply delete_frames_emits
               | apply retry_loop_emits; unfold generate_content ].
Qed.

Lemma cleanup_emits (env : Env) : emits_only other_stage (cleanup env).
Proof. unfold cleanup. emits_unfold. emits. Qed.

Lemma cleanup_on_failure_emits (env : Env) :
  emits_only other_stage (cleanup_on_failure env).
Proof. unfold cleanup_on_failure. emits_unfold. emits. Qed.

(** [run]'s body is steps 1 to 4, then step 5, then steps 6 to 10. *)
Lemma run_body_split (env : Env) (video : path) (pt notes : option string)
    (w : World) :
  run_body env video pt notes w =
  (run_prefix env video ;;
   (when wants_frames pt then extract_frames env) ;;
   run_suffix env pt notes) w.
Proof.
  unfold run_body, run_prefix, run_suffix, bind.
  repeat match goal with
         | |- context [let (_, _) := ?m ?w in _] =>
             destruct (m w) as [[?|?] ?]
         end; reflexivity.
Qed.

Lemma run_prefix_emits (env : Env) (video : path) :
  emits_only other_stage (run_prefix env video).
Proof.
  unfold run_prefix, log.
  repeat first [ apply extract_datetime_emits
               | apply create_target_directory_emits | apply convert_video_emits
               | apply extract_audio_emits | emits_step ].
Qed.

Lemma run_suffix_emits (env : Env) (pt notes : option string) :
  emits_only other_stage (run_suffix env pt notes).
Proof.
  unfold run_suffix, log.
  repeat first [ apply create_meeting_md_emits | apply select_and_copy_prompt_emits
               | apply create_note_txt_emits | apply upload_to_gemini_emits
               | apply cleanup_emits | emits_step ].
Qed.

Lemma extract_frames_trace (env : Env) (w : World) :
  exists evs, trace (snd (extract_frames env w)) = trace w ++ frames_entry :: evs.
Proof.
  unfold extract_frames. unfold bind at 1, log at 1, emit at 1, modify at 1.
  cbv beta iota.
  match goal with
  | |- context [with_target_dir ?k] =>
      assert (H : emits_only other_stage (with_target_dir k))
        by (emits_unfold; emits)
  end.
  destruct (H (add_event (Log INFO "Extracting frames...") w)) as (evs & Ht & _).
  exists evs. rewrite Ht. cbn. now rewrite <- app_assoc.
Qed.

Lemma run_handler_emits (env : Env) (e : exn) :
  emits_only other_stage
    (log ERROR "Error during processing" ;; cleanup_on_failure env ;; @raise unit e).
Proof.
  unfold log. repeat first [ apply cleanup_on_failure_emits | emits_step ].
Qed.

Lemma emits_frames_free {A} (m : M A) (w : World) :
  emits_only other_stage m ->
  (In frames_entry (trace (snd (m w))) <-> In frames_entry (trace w)).
Proof.
  intros Hm. destruct (Hm w) as (evs & -> & Hp).
  rewrite in_app_iff. split; [| tauto].
  intros [H | H]; [exact H |].
  rewrite Forall_forall in Hp. apply list_elem_of_In in H.
  now destruct (Hp _ H).
Qed.

(** C9. In a run whose steps 1 to 4 return normally, [_extract_frames] is
    not entered exactly when the prompt type passed to [run] is the literal
    "prompt_only_transcript.txt"; the shortcut "only transcript" resolves
    to that file name, yet with it the frames are extracted. *)
Theorem frames_skipped_only_for_literal_prompt (env : Env) (video : path)
    (prompt_type notes : option string) (w w1 : World) :
  run_prefix env video w = (Return tt, w1) ->
  ~ In frames_entry (trace w) ->
  (~ In frames_entry (trace (snd (run env video prompt_type notes w)))
   <-> prompt_type = Some "prompt_only_transcript.txt")
  /\ resolve_prompt_shortcut "only transcript" = "prompt_only_transcript.txt"
  /\ (prompt_type = Some "only transcript" ->
      In frames_entry (trace (snd (run env video prompt_type notes w)))).
Proof.
  intros Hprefix Hfresh.
  assert (Hfresh1 : ~ In frames_entry (trace w1)).
  { pose proof (emits_frames_free _ w (run_prefix_emits env video)) as H.
    rewrite Hprefix in H. cbn in H. tauto. }
  assert (Hrun : In frames_entry (trace (snd (run env video prompt_type notes w)))
                 <-> wants_frames prompt_type = true).
  { unfold run, try_except. rewrite run_body_split.
    unfold bind at 1. rewrite Hprefix.
    destruct (wants_frames prompt_type) eqn:Hw.
    - split; [reflexivity | intros _].
      unfold bind at 1.
      destruct (extract_frames_trace env w1) as (evs & Ht).
      destruct (extract_frames env w1) as [[[]|e] w2]; cbn [snd] in Ht.
      + assert (Hin : In frames_entry (trace w2))
          by (rewrite Ht, in_app_iff; right; now left).
        pose proof (emits_frames_free _ w2 (run_suffix_emits env prompt_type notes))
          as Hs.
        destruct (run_suffix env prompt_type notes w2) as [[[]|e] w3]; cbn [snd] in *.
        * tauto.
        * apply (emits_frames_free _ w3 (run_handler_emits env e)). tauto.
      + apply (emits_frames_free _ w2 (run_handler_emits env e)).
        rewrite Ht, in_app_iff. right. now left.
    - split; [| discriminate]. intros Hin. exfalso.
      unfold bind at 1, ret at 1 in Hin. cbv beta iota in Hin.
      pose proof (emits_frames_free _ w1 (run_suffix_emits env prompt_type notes))
        as Hs.
      destruct (run_suffix env prompt_type notes w1) as [[[]|e] w3]; cbn [snd] in *.
      + tauto.
      + apply (emits_frames_free _ w3 (run_handler_emits env e)) in Hin. tauto. }
  assert (Hwants : wants_frames prompt_type = true
                   <-> prompt_type <> Some "prompt_only_transcript.txt").
  { unfold wants_frames. rewrite negb_true_iff, bool_decide_eq_false. reflexivity. }
  split; [| split].
  - rewrite Hrun, Hwants.
    destruct (decide (prompt_type = Some "prompt_only_transcript.txt")); tauto.
  - reflexivity.
  - intros ->. apply Hrun. reflexivity.
Qed.

(** A run with the shortcut, on a machine where every tool works: the
    frames are extracted. *)
Lemma frames_skipped_only_for_literal_prompt_witness :
  run_prefix quiet_env ["meetings"; "q3"; "review.mp4"] fresh_world
    = (Return tt, snd (run_prefix quiet_env ["meetings"; "q3"; "review.mp4"] fresh_world))
  /\ ~ In frames_entry (trace fresh_world)
  /\ In frames_entry
       (trace (snd (run quiet_env ["meetings"; "q3"; "review.mp4"]
                        (Some "only transcript") (Some "agenda") fresh_world))).
Proof.
  assert (Hprefix :
    run_prefix quiet_env ["meetings"; "q3"; "review.mp4"] fresh_world
    = (Return tt, snd (run_prefix quiet_env ["meetings"; "q3"; "review.mp4"]
                                  fresh_world)))
    by (vm_compute; reflexivity).
  assert (Hfresh : ~ In frames_entry (trace fresh_world)) by (intros []).
  split; [exact Hprefix |]. split; [exact Hfresh |].
  exact (proj2 (proj2 (frames_skipped_only_for_literal_prompt quiet_env
                         ["meetings"; "q3"; "review.mp4"] (Some "only transcript")
                         (Some "agenda") fresh_world _ Hprefix Hfresh))
               eq_refl).
Defined.

(* ===================================================================== *)
(** * Parameter validation: when it warns *)
(* ===================================================================== *)

Lemma py_int_in_range (c : Q) : (1 <= c <= 8)%Q -> 1 <= py_int c <= 8.
Proof.
  destruct c as [n d]. unfold Qle, py_int. cbn. intros [H1 H8].
  split.
  - apply Z.quot_le_lower_bound; lia.
  - apply Z.quot_le_upper_bound; lia.
Qed.

(** X1. [get_parameter_defaults] prints a warning for a parameter exactly
    when its value lies outside the documented range; a value inside the
    range is returned as it is (the candidate count as its integer part), and
    no line is printed exactly when all three values are in range. *)
Theorem validation_warns_exactly_out_of_range (defaults : ParamDict) :
  let t := default (3 # 10)%Q (pd_temperature defaults) in
  let p := default (95 # 100)%Q (pd_top_p defaults) in
  let c := default (1 # 1)%Q (pd_candidate_count defaults) in
  let v := fst (validate_parameter_defaults defaults) in
  let printed := snd (validate_parameter_defaults defaults) in
  (In "temperature" printed <-> (t < 0 \/ 2 < t)%Q)
  /\ (In "top_p" printed <-> (p < 0 \/ 1 < p)%Q)
  /\ (In "candidate_count" printed <-> (c < 1 \/ 8 < c)%Q)
  /\ ((0 <= t <= 2)%Q -> (v_temperature v == t)%Q)
  /\ ((0 <= p <= 1)%Q -> (v_top_p v == p)%Q)
  /\ ((1 <= c <= 8)%Q -> v_candidate_count v = py_int c)
  /\ (printed = [] <-> (0 <= t <= 2)%Q /\ (0 <= p <= 1)%Q /\ (1 <= c <= 8)%Q).
Proof.
  intros t p c v printed. subst v printed.
  unfold validate_parameter_defaults. fold t p c. cbn [fst snd v_temperature v_top_p v_candidate_count].
  assert (Ht := py_max_min_clamp 0 2 t ltac:(lra)).
  assert (Hp := py_max_min_clamp 0 1 p ltac:(lra)).
  rewrite py_maxZ_minZ_clamp.
  unfold clampQ in *.
  destruct (py_lt_spec t 0), (py_lt_spec 2 t), (py_lt_spec p 0), (py_lt_spec 1 p),
    (py_lt_spec c 1), (py_lt_spec 8 c); cbn;
  repeat split; intros;
  repeat match goal with
         | H : _ \/ _ |- _ => destruct H
         | H : _ /\ _ |- _ => destruct H
         end;
  try discriminate; try lra; try tauto; auto;
  try (rewrite ?Ht, ?Hp; reflexivity);
  try (pose proof (py_int_in_range c ltac:(lra)); unfold clampZ; lia).
Qed.

Ltac datetime_cases env c vp f :=
  destruct (ffprobe_creation_time env) as [?dt|]; cbn;
  destruct (fs_exists vp f); cbn;
  destruct (dry_run c) eqn:?Hdry; cbn;
  destruct (manual_answer env) as [?dt|?e] eqn:?Hman; cbn.

Ltac datetime_unfold :=
  unfold extract_datetime, extract_datetime_from_metadata,
    extract_datetime_from_file_mtime, get_manual_datetime;
  unfold bind, ret, raise, get, modify, emit, log, source_is, set_source; cbn.

(* ===================================================================== *)
(** * The date chain: outcome and side effects *)
(* ===================================================================== *)

(** X2. A preferred date source that is none of [metadata], [file_mtime],
    [manual] is replaced by [metadata], with a warning: the sources are then
    consulted as for [metadata], and a timestamp is returned exactly when one
    of the three sources yields one. *)
Theorem invalid_date_source_means_metadata (env : Env) (w : World) :
  ~ In (preferred_date_source (config w)) valid_sources ->
  let r := extract_datetime env w in
  consulted (trace (snd r)) =
    consulted (trace w)
    ++ attempts_along (source_succeeds env w) (chain_from Metadata)
  /\ In invalid_source_warning (trace (snd r))
  /\ ((exists dt, fst r = Return dt)
      <-> existsb (source_succeeds env w) (chain_from Metadata) = true).
Proof.
  intros Hinv r. subst r. destruct w as [c vp td f n t]. cbn in Hinv.
  assert (H1 : String.eqb (preferred_date_source c) "metadata" = false)
    by (apply String.eqb_neq; intros E; apply Hinv; rewrite E; cbn; tauto).
  assert (H2 : String.eqb (preferred_date_source c) "file_mtime" = false)
    by (apply String.eqb_neq; intros E; apply Hinv; rewrite E; cbn; tauto).
  assert (H3 : String.eqb (preferred_date_source c) "manual" = false)
    by (apply String.eqb_neq; intros E; apply Hinv; rewrite E; cbn; tauto).
  datetime_unfold. rewrite H1, H2, H3. cbn.
  datetime_cases env c vp f;
    rewrite ?omap_app, <- ?app_assoc; cbn;
    (split; [reflexivity |]); (split; [rewrite !in_app_iff; cbn; tauto |]);
    first [ split; [reflexivity | eauto]
          | split; [intros [? ?]; discriminate | discriminate] ].
Qed.

Lemma invalid_date_source_means_metadata_witness :
  ~ In (preferred_date_source (config exif_world)) valid_sources
  /\ consulted (trace (snd (extract_datetime quiet_env exif_world))) = [Metadata]
  /\ In invalid_source_warning (trace (snd (extract_datetime quiet_env exif_world))).
Proof.
  assert (H : ~ In (preferred_date_source (config exif_world)) valid_sources)
    by (cbn; intuition discriminate).
  split; [exact H |].
  destruct (invalid_date_source_means_metadata quiet_env exif_world H) as (Hc & Hw & _).
  split; [exact Hc | exact Hw].
Defined.

Ltac fails_only_finish :=
  split; [first [ intros ? [= <-]; split; reflexivity | intros ? [=] ] |];
  split; [first [ intros _; eexists; reflexivity | discriminate ] |];
  split; [reflexivity |]; split; [reflexivity |]; split; [cbn; congruence |];
  rewrite ?in_app_iff; cbn; unfold all_sources_failed; intuition discriminate.

Lemma extract_datetime_outcome (env : Env) (w : World) :
  let r := extract_datetime env w in
  (forall e, fst r = Raise e ->
     dry_run (config w) = false /\ manual_answer env = Raise e)
  /\ (dry_run (config w) = true -> exists dt, fst r = Return dt)
  /\ fs (snd r) = fs w
  /\ target_dir (snd r) = target_dir w
  /\ dry_run (config (snd r)) = dry_run (config w)
  /\ (In all_sources_failed (trace (snd r)) -> In all_sources_failed (trace w)).
Proof.
  intros r. subst r. destruct w as [c vp td f n t].
  datetime_unfold.
  destruct (String.eqb_spec (preferred_date_source c) "metadata") as [Hs|Hs1].
  - repeat (progress (rewrite ?Hs; cbn)). datetime_cases env c vp f; fails_only_finish.
  - destruct (String.eqb_spec (preferred_date_source c) "file_mtime") as [Hs|Hs2].
    + repeat (progress (rewrite ?Hs; cbn)). datetime_cases env c vp f; fails_only_finish.
    + destruct (String.eqb_spec (preferred_date_source c) "manual") as [Hs|Hs3].
      * repeat (progress (rewrite ?Hs; cbn)). datetime_cases env c vp f; fails_only_finish.
      * cbn. datetime_cases env c vp f; fails_only_finish.
Qed.

(** X3. [_extract_datetime] raises only outside a dry run, and then with
    the error of the manual input; in a dry run it always returns. It
    changes no file and not the workspace path, leaves the dry-run flag as
    it is, and never reaches its last [else] ("All date extraction methods
    failed"). *)
Theorem extract_datetime_fails_only_on_manual (env : Env) (w : World) :
  let r := extract_datetime env w in
  (forall e, fst r = Raise e ->
     dry_run (config w) = false /\ manual_answer env = Raise e)
  /\ (dry_run (config w) = true -> exists dt, fst r = Return dt)
  /\ fs (snd r) = fs w
  /\ target_dir (snd r) = target_dir w
  /\ dry_run (config (snd r)) = dry_run (config w)
  /\ (In all_sources_failed (trace (snd r)) -> In all_sources_failed (trace w)).
Proof. exact (extract_datetime_outcome env w). Qed.

(** X4. The date chain overwrites the shared setting as it proceeds: after
    [_extract_datetime] the preferred source is the last source that was
    attempted, so a failed metadata or file_mtime source leaves the
    configuration changed for the rest of the run. *)
Theorem extract_datetime_rewrites_setting (env : Env) (w : World) (s : date_source) :
  preferred_date_source (config w) = source_name s ->
  let r := extract_datetime env w in
  let attempts := attempts_along (source_succeeds env w) (chain_from s) in
  preferred_date_source (config (snd r)) = source_name (List.last attempts s)
  /\ (source_succeeds env w s = false -> s <> Manual ->
      preferred_date_source (config (snd r)) <> preferred_date_source (config w)).
Proof.
  intros Hpref r attempts. subst r attempts. destruct w as [c vp td f n t].
  cbn in Hpref. datetime_unfold.
  destruct s; cbn in Hpref; repeat (progress (rewrite ?Hpref; cbn));
    datetime_cases env c vp f; rewrite ?Hpref;
    (split; [reflexivity | intros; try discriminate; try congruence]).
Qed.

Lemma extract_datetime_rewrites_setting_witness :
  preferred_date_source (config workspace_world) = source_name Metadata
  /\ preferred_date_source (config (snd (extract_datetime untagged_env workspace_world)))
     = "file_mtime".
Proof.
  split; [reflexivity |].
  exact (proj1 (extract_datetime_rewrites_setting untagged_env workspace_world
                  Metadata eq_refl)).
Defined.

(* ===================================================================== *)
(** * Prompt shortcuts *)
(* ===================================================================== *)

Lemma shortcut_lookup (k : string) :
  shortcut_mapping !! k =
  if decide (k = "only transcript") then Some "prompt_only_transcript.txt"
  else if decide (k = "without transcript") then Some "prompt_wo_transcript.txt"
  else None.
Proof.
  unfold shortcut_mapping.
  rewrite lookup_insert. destruct (decide ("only transcript" = k)) as [<-|Hne].
  - reflexivity.
  - destruct (decide (k = "only transcript")); [congruence |].
    rewrite lookup_insert. destruct (decide ("without transcript" = k)) as [<-|Hne2].
    + reflexivity.
    + destruct (decide (k = "without transcript")); [congruence |].
      apply lookup_empty.
Qed.

(** X5. [_resolve_prompt_shortcut] resolves the two shortcuts whatever
    their letter case, returns every other input unchanged, and resolving
    twice is resolving once. *)
Theorem resolve_prompt_shortcut_cases (x : string) :
  (lower x = "only transcript" ->
   resolve_prompt_shortcut x = "prompt_only_transcript.txt")
  /\ (lower x = "without transcript" ->
      resolve_prompt_shortcut x = "prompt_wo_transcript.txt")
  /\ (lower x <> "only transcript" -> lower x <> "without transcript" ->
      resolve_prompt_shortcut x = x)
  /\ resolve_prompt_shortcut (resolve_prompt_shortcut x) = resolve_prompt_shortcut x.
Proof.
  unfold resolve_prompt_shortcut. rewrite shortcut_lookup.
  destruct (decide (lower x = "only transcript")) as [E1|N1].
  - cbn. repeat split; try congruence. 
  - destruct (decide (lower x = "without transcript")) as [E2|N2].
    + cbn. repeat split; try congruence. 
    + cbn. repeat split; try congruence.
      rewrite shortcut_lookup.
      destruct (decide (lower x = "only transcript")); [congruence |].
      destruct (decide (lower x = "without transcript")); [congruence |].
      reflexivity.
Qed.

(* ===================================================================== *)
(** * The retry wrapper: calls and sleeping time *)
(* ===================================================================== *)

Lemma total_delays (b : Z) (k a : nat) :
  total (map (fun j => b * 2 ^ Z.of_nat j) (seq a k))
  = b * (2 ^ Z.of_nat (a + k) - 2 ^ Z.of_nat a).
Proof.
  revert a. induction k as [|k IH]; intros a; cbn [seq map total fold_right].
  - rewrite Nat.add_0_r. lia.
  - fold (total (map (fun j => b * 2 ^ Z.of_nat j) (seq (S a) k))).
    rewrite IH.
    replace (Z.of_nat (S a + k)) with (Z.of_nat (a + S k)) by lia.
    replace (Z.of_nat (S a)) with (Z.of_nat a + 1) by lia.
    rewrite Z.pow_add_r by lia. lia.
Qed.

Lemma retry_loop_step {A} (answers : nat -> outcome A) (m b attempt : Z)
    (rest : list Z) (w : World) :
  retry_loop (scripted answers) m b (attempt :: rest) w =
  match answers (gen_calls w) with
  | Return v => (Return v, bump_gen_calls w)
  | Raise e =>
      if is_503_error e then
        if attempt <? m then
          retry_loop (scripted answers) m b rest
            (add_event (Sleep (b * 2 ^ attempt))
               (add_event (Log WARNING "503 UNAVAILABLE error. Retrying...")
                  (bump_gen_calls w)))
        else
          (Raise e,
           add_event (Log ERROR "All attempts failed with 503 UNAVAILABLE error")
             (bump_gen_calls w))
      else (Raise e, add_event (Log ERROR "Non-retryable error") (bump_gen_calls w))
  end.
Proof.
  cbn [retry_loop]. unfold try_except, scripted at 1.
  destruct (answers (gen_calls w)) as [v|e]; [reflexivity |].
  destruct (is_503_error e); [destruct (attempt <? m) |]; reflexivity.
Qed.

Lemma retry_loop_bounded {A} (answers : nat -> outcome A) (m b : Z) :
  forall (n a : nat) (w : World),
    Z.of_nat (a + S n) = m + 1 ->
    let r := retry_loop (scripted answers) m b (map Z.of_nat (seq a (S n))) w in
    exists k : nat,
      (k <= n)%nat
      /\ sleeps (trace (snd r)) =
           sleeps (trace w) ++ map (fun j => b * 2 ^ Z.of_nat j) (seq a k)
      /\ gen_calls (snd r) = (gen_calls w + k + 1)%nat.
Proof.
  induction n as [|n IH]; intros a w Hm r; subst r;
    cbn [seq map]; rewrite retry_loop_step.
  - exists 0%nat. destruct (answers (gen_calls w)) as [v|e].
    + cbn. rewrite app_nil_r. repeat split; lia.
    + destruct (is_503_error e).
      * destruct (Z.ltb_spec (Z.of_nat a) m); [lia |].
        cbn -[sleeps]. rewrite sleeps_app. cbn. rewrite !app_nil_r. repeat split; lia.
      * cbn -[sleeps]. rewrite sleeps_app. cbn. rewrite !app_nil_r. repeat split; lia.
  - destruct (answers (gen_calls w)) as [v|e].
    + exists 0%nat. cbn. rewrite app_nil_r. repeat split; lia.
    + destruct (is_503_error e).
      * destruct (Z.ltb_spec (Z.of_nat a) m); [| lia].
        match goal with
        | |- context [retry_loop _ m b _ ?w1] =>
            destruct (IH (S a) w1 ltac:(lia)) as (k & Hk & Hs & Hg)
        end.
        exists (S k). cbn [seq map] in *. rewrite Hs, Hg.
        cbn -[sleeps Z.mul Z.pow]. rewrite !sleeps_app. cbn -[Z.mul Z.pow].
        rewrite !app_nil_r, <- app_assoc. cbn -[Z.mul Z.pow].
        repeat split; lia.
      * exists 0%nat. cbn -[sleeps]. rewrite sleeps_app. cbn.
        rewrite !app_nil_r. repeat split; lia.
Qed.

(** X6. With a budget of [max_retries >= 0] and a non-negative base delay,
    the retry wrapper makes [k + 1] calls and sleeps [k] times for some
    [k <= max_retries], the delays being [base_delay * 2^j] for [j < k]: in
    all [base_delay * (2^k - 1)] seconds, at most
    [base_delay * (2^max_retries - 1)]. *)
Theorem retry_calls_and_sleep_are_bounded {A} (answers : nat -> outcome A)
    (max_retries base_delay : Z) (w : World) :
  0 <= max_retries ->
  0 <= base_delay ->
  let r := retry_with_exponential_backoff (scripted answers) max_retries base_delay w in
  exists k : nat,
    Z.of_nat k <= max_retries
    /\ gen_calls (snd r) = (gen_calls w + k + 1)%nat
    /\ sleeps (trace (snd r)) =
         sleeps (trace w) ++ map (fun j => base_delay * 2 ^ Z.of_nat j) (seq 0 k)
    /\ total (map (fun j => base_delay * 2 ^ Z.of_nat j) (seq 0 k))
       = base_delay * (2 ^ Z.of_nat k - 1)
    /\ base_delay * (2 ^ Z.of_nat k - 1) <= base_delay * (2 ^ max_retries - 1).
Proof.
  intros Hm Hb r. subst r. unfold retry_with_exponential_backoff, py_range.
  replace (Z.to_nat (max_retries + 1)) with (S (Z.to_nat max_retries)) by lia.
  destruct (retry_loop_bounded answers max_retries base_delay
              (Z.to_nat max_retries) 0%nat w ltac:(lia)) as (k & Hk & Hs & Hg).
  exists k. split; [lia |]. split; [exact Hg |]. split; [exact Hs |]. split.
  - rewrite total_delays. cbn [Nat.add]. change (2 ^ Z.of_nat 0) with 1. reflexivity.
  - apply Z.mul_le_mono_nonneg_l; [exact Hb |].
    assert (2 ^ Z.of_nat k <= 2 ^ max_retries)
      by (apply Z.pow_le_mono_r; lia).
    lia.
Qed.

Lemma retry_calls_and_sleep_are_bounded_witness :
  0 <= 5 /\ 0 <= 60
  /\ exists k : nat,
       Z.of_nat k <= 5
       /\ sleeps (trace (snd (retry_with_exponential_backoff
                                (scripted (down_then_up 2 "# Minutes")) 5 60
                                workspace_world)))
          = sleeps (trace workspace_world)
            ++ map (fun j => 60 * 2 ^ Z.of_nat j) (seq 0 k).
Proof.
  assert (H5 : 0 <= 5) by lia. assert (H60 : 0 <= 60) by lia.
  split; [exact H5 |]. split; [exact H60 |].
  destruct (retry_calls_and_sleep_are_bounded (down_then_up 2 "# Minutes") 5 60
              workspace_world H5 H60) as (k & Hk & _ & Hs & _).
  exists k. split; [exact Hk | exact Hs].
Defined.

(** X7. With a negative budget the loop of the retry wrapper has no
    iteration: the wrapped function is never called and the method raises
    "Unexpected error in retry logic", the line its comment calls
    unreachable. *)
Theorem retry_with_negative_budget_never_calls {A} (func : M A)
    (max_retries base_delay : Z) (w : World) :
  max_retries < 0 ->
  retry_with_exponential_backoff func max_retries base_delay w
  = (Raise (RuntimeError "Unexpected error in retry logic"), w).
Proof.
  intros Hm. unfold retry_with_exponential_backoff, py_range.
  replace (Z.to_nat (max_retries + 1)) with 0%nat by lia. reflexivity.
Qed.

Lemma retry_with_negative_budget_never_calls_witness :
  -1 < 0
  /\ retry_with_exponential_backoff (scripted (down_then_up 0 "# Minutes")) (-1) 60
       workspace_world
     = (Raise (RuntimeError "Unexpected error in retry logic"), workspace_world).
Proof.
  assert (H : -1 < 0) by lia. split; [exact H |].
  exact (retry_with_negative_budget_never_calls
           (scripted (down_then_up 0 "# Minutes")) (-1) 60 workspace_world H).
Defined.

(* ===================================================================== *)
(** * Release of the uploads, negative ceilings, rollback *)
(* ===================================================================== *)

Lemma release_attempts_stop (env : Env) (a b : list handle) (h : handle) (e : exn) :
  (forall x, In x a -> delete_answer env x = None) ->
  delete_answer env h = Some e ->
  release_attempts env (a ++ h :: b) = a ++ [h].
Proof.
  intros Ha Hh. induction a as [|x a IH]; cbn.
  - now rewrite Hh.
  - rewrite (Ha x) by now left. f_equal. apply IH. intros y Hy. apply Ha. now right.
Qed.

(** X8. The release block always returns and changes no file. It is one
    [try] around all deletions: the first deletion the service refuses ends
    the pass, so the handles after it are never tried; when none is refused
    every handle is deleted once, in the order audio, frames, note. *)
Theorem release_pass_ends_at_first_failure (env : Env) (u : Uploaded) (w : World) :
  let r := release_uploaded env u w in
  fst r = Return tt
  /\ fs (snd r) = fs w
  /\ (forall a h b e,
        handles u = a ++ h :: b ->
        (forall x, In x a -> delete_answer env x = None) ->
        delete_answer env h = Some e ->
        deleted (trace (snd r)) = deleted (trace w) ++ a ++ [h])
  /\ ((forall x, In x (handles u) -> delete_answer env x = None) ->
      deleted (trace (snd r)) = deleted (trace w) ++ handles u).
Proof.
  intros r. subst r.
  destruct (release_uploaded_result env u w) as (w' & Hr & Hfs & Hdel).
  rewrite Hr. cbn [fst snd]. split; [reflexivity |]. split; [exact Hfs |]. split.
  - intros a h b e Hu Ha Hh. rewrite Hdel, Hu.
    now rewrite (release_attempts_stop env a b h e Ha Hh).
  - intros Hok. now rewrite Hdel, release_attempts_all.
Qed.

(** X9. A negative image ceiling [N] is below every frame count, so the
    warning is logged and the slice [frame_files[:N]] is taken with Python's
    meaning of a negative bound: the last [-N] frames are dropped, not all
    of them. *)
Theorem negative_image_ceiling_cuts_from_the_end (env : Env) (limits : ModelLimits)
    (d : path) (w : World) (N : Z) :
  default 3000 (max_images_per_prompt limits) = N ->
  N < 0 ->
  fs_exists (d ++ ["frames"]) (fs w) = true ->
  let frames := glob_jpg (d ++ ["frames"]) (fs w) in
  exists manifest w',
    collect_files_to_upload env limits d w = (Return manifest, w')
    /\ frames_of manifest = firstn (length frames - Z.to_nat (- N)) frames
    /\ In frame_limit_warning (trace w').
Proof.
  intros HN Hneg Hex frames.
  destruct (collect_files_to_upload_result env limits d w) as [w' [Heq [_ Hw]]].
  rewrite HN in Heq, Hw.
  exists (manifest_of N d (fs w)), w'. split; [exact Heq |]. split.
  - unfold manifest_of. rewrite frames_of_shape. unfold kept_frames. rewrite Hex.
    fold frames. destruct (Z.ltb_spec N (Z.of_nat (length frames))); [| lia].
    unfold py_slice_to. destruct (Z.leb_spec 0 N); [lia | reflexivity].
  - apply Hw; [exact Hex | lia].
Qed.

Lemma negative_image_ceiling_cuts_from_the_end_witness :
  default 3000 (max_images_per_prompt negative_ceiling) = -1
  /\ -1 < 0
  /\ fs_exists ["work"; "out"; "frames"] (fs workspace_world) = true
  /\ exists manifest w',
       collect_files_to_upload quiet_env negative_ceiling ["work"; "out"]
         workspace_world = (Return manifest, w')
       /\ frames_of manifest = [ ["work"; "out"; "frames"; "frame_0001.jpg"];
                                 ["work"; "out"; "frames"; "frame_0002.jpg"] ].
Proof.
  assert (H : -1 < 0) by lia.
  split; [reflexivity |]. split; [exact H |]. split; [reflexivity |].
  destruct (negative_image_ceiling_cuts_from_the_end quiet_env negative_ceiling
              ["work"; "out"] workspace_world (-1) eq_refl H eq_refl)
    as (manifest & w' & Hc & Hf & _).
  exists manifest, w'. split; [exact Hc | exact Hf].
Defined.

Lemma cleanup_on_failure_result (env : Env) (w : World) :
  exists w', cleanup_on_failure env w = (Return tt, w')
    /\ fs w' = match target_dir w with
               | Some d => if fs_exists d (fs w)
                           then match rmtree_error env d with
                                | None => fs_rmtree d (fs w)
                                | Some _ =>
                                    fs_rmtree_partial (rmtree_removed env d) d (fs w)
                                end
                           else fs w
               | None => fs w
               end
    /\ (In rollback_warning (trace w') <->
        In rollback_warning (trace w)
        \/ match target_dir w with
           | Some d => fs_exists d (fs w) = true /\ rmtree_error env d <> None
           | None => True
           end).
Proof.
  unfold cleanup_on_failure, with_target_dir, rmtree, try_except.
  unfold bind, log, emit, modify, get, raise, ret. cbn.
  destruct (target_dir w) as [d|]; cbn.
  - destruct (fs_exists d (fs w)); cbn.
    + destruct (rmtree_error env d) as [e|]; cbn;
        (eexists; split; [reflexivity |]; split; [reflexivity |]);
        cbn; rewrite ?in_app_iff; cbn; unfold rollback_warning;
        intuition (discriminate || congruence).
    + eexists; split; [reflexivity |]; split; [reflexivity |].
      cbn; rewrite ?in_app_iff; cbn; unfold rollback_warning;
        intuition (discriminate || congruence).
  - eexists; split; [reflexivity |]; split; [reflexivity |].
    cbn; rewrite ?in_app_iff; cbn; unfold rollback_warning; tauto.
Qed.

(** X10. [_cleanup_on_failure] never raises. With no workspace path
    derived yet, or no workspace on disk, it changes no file. When [rmtree]
    works it removes the workspace with everything below it, and nothing
    else. When [rmtree] raises, what it had removed by then lies below the
    workspace: every entry outside the workspace, and the workspace
    directory itself, are as before, and nothing has been added. The warning
    is logged exactly when the removal failed or no workspace path had been
    derived. *)
Theorem cleanup_on_failure_never_raises (env : Env) (w : World) :
  let r := cleanup_on_failure env w in
  fst r = Return tt
  /\ match target_dir w with
     | Some d =>
         if fs_exists d (fs w) then
           match rmtree_error env d with
           | None =>
               forall q, fs_lookup q (fs (snd r))
                         = if is_prefix d q then None else fs_lookup q (fs w)
           | Some _ =>
               (forall q, is_prefix d q = false \/ q = d ->
                          fs_lookup q (fs (snd r)) = fs_lookup q (fs w))
               /\ (forall q n, fs_lookup q (fs (snd r)) = Some n ->
                               fs_lookup q (fs w) = Some n)
           end
         else fs (snd r) = fs w
     | None => fs (snd r) = fs w
     end
  /\ (In rollback_warning (trace (snd r)) <->
      In rollback_warning (trace w)
      \/ match target_dir w with
         | Some d => fs_exists d (fs w) = true /\ rmtree_error env d <> None
         | None => True
         end).
Proof.
  intros r. subst r.
  destruct (cleanup_on_failure_result env w) as (w' & Hr & Hfs & Hwarn).
  rewrite Hr. cbn [fst snd]. split; [reflexivity |]. split; [| exact Hwarn].
  destruct (target_dir w) as [d|]; [| exact Hfs].
  destruct (fs_exists d (fs w)); [| exact Hfs].
  destruct (rmtree_error env d) as [e|]; rewrite Hfs.
  - split.
    + intros q Hq. rewrite fs_lookup_rmtree_partial.
      destruct Hq as [Hq | ->].
      * now rewrite Hq.
      * now rewrite path_eqb_refl, andb_false_r.
    + intros q n. rewrite fs_lookup_rmtree_partial.
      destruct (is_prefix d q && negb (path_eqb q d) && rmtree_removed env d q);
        [discriminate | tauto].
  - intros q. apply fs_lookup_rmtree.
Qed.

(** X11. [run] ends as its body ends: it returns when the body returns,
    in the same world, and re-raises the error of the body otherwise; a
    failure of the rollback never replaces that error. *)
Theorem run_reraises_the_body_error (env : Env) (video : path)
    (prompt_type notes : option string) (w : World) :
  fst (run env video prompt_type notes w)
    = fst (run_body env video prompt_type notes w)
  /\ (fst (run_body env video prompt_type notes w) = Return tt ->
      run env video prompt_type notes w = run_body env video prompt_type notes w).
Proof.
  unfold run, try_except.
  destruct (run_body env video prompt_type notes w) as [[[]|e] w1]; cbn [fst].
  - split; reflexivity.
  - split; [| discriminate]. unfold bind at 1, log at 1, emit at 1, modify at 1.
    cbv beta iota. unfold bind at 1.
    destruct (cleanup_on_failure_result env
                (add_event (Log ERROR "Error during processing") w1))
      as (w2 & Hr & _).
    rewrite Hr. reflexivity.
Qed.

(* ===================================================================== *)
(** * The file system: lookups after a write *)
(* ===================================================================== *)

Lemma path_eqb_eq (p q : path) : path_eqb p q = true <-> p = q.
Proof. unfold path_eqb. apply bool_decide_eq_true. Qed.


Lemma fs_lookup_app (p : path) (f g : FS) :
  fs_lookup p (f ++ g) =
  match fs_lookup p f with Some n => Some n | None => fs_lookup p g end.
Proof.
  induction f as [|[q m] f IH]; cbn; [reflexivity |].
  destruct (path_eqb q p); [reflexivity | exact IH].
Qed.

Lemma fs_lookup_replace_other (p q : path) (n : node) (f : FS) :
  p <> q -> fs_lookup q (fs_replace p n f) = fs_lookup q f.
Proof.
  intros Hne. induction f as [|[r m] f IH]; cbn; [reflexivity |].
  destruct (path_eqb r p) eqn:E; cbn.
  - apply path_eqb_eq in E. subst r.
    destruct (path_eqb p q) eqn:E'; [apply path_eqb_eq in E'; congruence | reflexivity].
  - destruct (path_eqb r q); [reflexivity | exact IH].
Qed.

Lemma fs_lookup_put_other (p q : path) (n : node) (f : FS) :
  p <> q -> fs_lookup q (fs_put p n f) = fs_lookup q f.
Proof.
  intros Hne. unfold fs_put. destruct (fs_exists p f).
  - now apply fs_lookup_replace_other.
  - rewrite fs_lookup_app. cbn.
    destruct (path_eqb p q) eqn:E; [apply path_eqb_eq in E; congruence |].
    now destruct (fs_lookup q f).
Qed.






(* ===================================================================== *)
(** * The workspace directory *)
(* ===================================================================== *)

Lemma fs_mkdirs_fold (p : path) (f : FS) :
  fs_mkdirs p f = fold_left mkdir_step (ancestors_and_self p) f.
Proof. reflexivity. Qed.

Lemma mkdir_step_keeps (acc : FS) (d q : path) (n : node) :
  fs_lookup q acc = Some n -> fs_lookup q (mkdir_step acc d) = Some n.
Proof.
  intros H. unfold mkdir_step. destruct (fs_exists d acc); [exact H |].
  now rewrite fs_lookup_app, H.
Qed.

Lemma mkdir_fold_keeps (l : list path) :
  forall (acc : FS) (q : path) (n : node),
    fs_lookup q acc = Some n -> fs_lookup q (fold_left mkdir_step l acc) = Some n.
Proof.
  induction l as [|d l IH]; intros acc q n H; cbn; [exact H |].
  apply IH. now apply mkdir_step_keeps.
Qed.

Lemma mkdir_step_new (acc : FS) (d q : path) :
  fs_lookup q acc = None ->
  fs_lookup q (mkdir_step acc d) = None \/ fs_lookup q (mkdir_step acc d) = Some Dir.
Proof.
  intros H. unfold mkdir_step. destruct (fs_exists d acc); [now left |].
  rewrite fs_lookup_app, H. cbn. destruct (path_eqb d q); [now right | now left].
Qed.

Lemma mkdir_fold_new (l : list path) :
  forall (acc : FS) (q : path),
    fs_lookup q acc = None \/ fs_lookup q acc = Some Dir ->
    fs_lookup q (fold_left mkdir_step l acc) = None
    \/ fs_lookup q (fold_left mkdir_step l acc) = Some Dir.
Proof.
  induction l as [|d l IH]; intros acc q H; cbn; [exact H |].
  apply IH. destruct H as [H|H].
  - now apply mkdir_step_new.
  - right. now apply mkdir_step_keeps.
Qed.

Lemma mkdir_step_exists (acc : FS) (d : path) : fs_exists d (mkdir_step acc d) = true.
Proof.
  unfold mkdir_step. destruct (fs_exists d acc) eqn:E; [exact E |].
  unfold fs_exists in *. rewrite fs_lookup_app. destruct (fs_lookup d acc); [reflexivity |].
  cbn. now rewrite path_eqb_refl.
Qed.

Lemma mkdir_fold_exists (l : list path) :
  forall (acc : FS) (d : path),
    In d l -> fs_exists d (fold_left mkdir_step l acc) = true.
Proof.
  induction l as [|x l IH]; intros acc d Hin; [destruct Hin |]. cbn.
  destruct Hin as [<-|Hin]; [| now apply IH].
  pose proof (mkdir_step_exists acc x) as He. unfold fs_exists in *.
  destruct (fs_lookup x (mkdir_step acc x)) as [n|] eqn:E; [| discriminate].
  now rewrite (mkdir_fold_keeps l _ _ _ E).
Qed.

Lemma self_in_ancestors (p : path) : p <> [] -> In p (ancestors_and_self p).
Proof.
  induction p as [|x p IH]; [congruence |]. intros _. cbn.
  destruct p as [|y p]; [now left |]. right.
  apply in_map. apply IH. discriminate.
Qed.

Lemma ancestors_are_prefixes (p a : path) :
  In a (ancestors_and_self p) -> is_prefix a p = true /\ a <> [].
Proof.
  revert a. induction p as [|x p IH]; intros a; cbn; [tauto |].
  intros [<-|Hin].
  - cbn. now rewrite String.eqb_refl.
  - apply in_map_iff in Hin. destruct Hin as (a' & <- & Hin').
    destruct (IH a' Hin') as [Hp _]. cbn. rewrite String.eqb_refl, Hp. split; [reflexivity | discriminate].
Qed.

Lemma create_target_directory_unfold (env : Env) (dt : datetime) (w : World) :
  create_target_directory env dt w =
  let explicit := match target_directory (config w) with [] => false | _ => true end in
  let d := if explicit then target_directory (config w)
           else cwd env ++ [strftime env dt] in
  (if dry_run (config w) then ret tt else mkdir explicit d) (set_target_dir d w).
Proof.
  unfold create_target_directory, bind, get, modify.
  destruct (target_directory (config w)); destruct (dry_run (config w)); reflexivity.
Qed.

Lemma mkdir_unfold (parents : bool) (p : path) (w : World) :
  mkdir parents p w =
  match fs_lookup p (fs w) with
  | Some Dir => (Return tt, w)
  | Some (File _) => (Raise (FileExistsError "File exists"), w)
  | None =>
      if parents then (Return tt, set_fs (fs_mkdirs p (fs w)) w)
      else if parent_exists p (fs w)
           then (Return tt, set_fs (fs_put p Dir (fs w)) w)
           else (Raise (FileNotFoundError "No such file or directory"), w)
  end.
Proof.
  unfold mkdir, bind, get. destruct (fs_lookup p (fs w)) as [[|?]|]; try reflexivity.
  destruct parents; [reflexivity |]. destruct (parent_exists p (fs w)); reflexivity.
Qed.

(** X12. With a target directory [d] given, [_create_target_directory]
    makes [d] the workspace. In a dry run it creates nothing. Otherwise an
    existing directory is used as it is, a file at [d] raises
    [FileExistsError], and a missing [d] is created with the missing
    directories above it (no file standing in the way), every entry already
    there being kept. *)
Theorem explicit_target_directory_is_reused_or_created (env : Env)
    (dt : datetime) (w : World) (d : path) :
  target_directory (config w) = d ->
  d <> [] ->
  let r := create_target_directory env dt w in
  target_dir (snd r) = Some d
  /\ (dry_run (config w) = true -> fst r = Return tt /\ fs (snd r) = fs w)
  /\ (dry_run (config w) = false ->
      match fs_lookup d (fs w) with
      | Some Dir => fst r = Return tt /\ fs (snd r) = fs w
      | Some (File _) => fst r = Raise (FileExistsError "File exists")
                         /\ fs (snd r) = fs w
      | None =>
          (forall a data, In a (ancestors_and_self d) ->
                          fs_lookup a (fs w) <> Some (File data)) ->
          fst r = Return tt
          /\ fs_lookup d (fs (snd r)) = Some Dir
          /\ (forall a, In a (ancestors_and_self d) -> fs_exists a (fs (snd r)) = true)
          /\ (forall p n, fs_lookup p (fs w) = Some n ->
                          fs_lookup p (fs (snd r)) = Some n)
      end).
Proof.
  intros Hd Hne r. subst r. rewrite create_target_directory_unfold. cbv zeta.
  rewrite Hd. destruct d as [|x d]; [congruence |].
  destruct (dry_run (config w)) eqn:Hdry.
  - cbn. intuition (discriminate || reflexivity).
  - rewrite mkdir_unfold. cbn [set_target_dir fs].
    destruct (fs_lookup (x :: d) (fs w)) as [[|data]|] eqn:El.
    + cbn. intuition (discriminate || reflexivity).
    + cbn. intuition (discriminate || reflexivity).
    + cbn [fst snd target_dir fs set_fs set_target_dir].
      split; [reflexivity |]. split; [intros H; discriminate H |]. intros _ _.
      split; [reflexivity |].
      rewrite fs_mkdirs_fold.
      assert (Hex : forall a, In a (ancestors_and_self (x :: d)) ->
                fs_exists a (fold_left mkdir_step (ancestors_and_self (x :: d)) (fs w))
                = true)
        by (intros a Ha; now apply mkdir_fold_exists).
      split; [| split; [exact Hex |]].
      * specialize (Hex (x :: d) (self_in_ancestors _ Hne)).
        unfold fs_exists in Hex.
        destruct (mkdir_fold_new (ancestors_and_self (x :: d)) (fs w) (x :: d)
                    (or_introl El)) as [H|H]; [| exact H].
        rewrite H in Hex. discriminate.
      * intros p n Hp. now apply mkdir_fold_keeps.
Qed.

Lemma explicit_target_directory_is_reused_or_created_witness :
  target_directory (config archive_world) = ["archive"; "q3"]
  /\ ["archive"; "q3"] <> @nil string
  /\ target_dir (snd (create_target_directory quiet_env 0 archive_world))
     = Some ["archive"; "q3"]
  /\ fst (create_target_directory quiet_env 0 archive_world) = Return tt
  /\ fs_lookup ["archive"] (fs (snd (create_target_directory quiet_env 0 archive_world)))
     = Some Dir.
Proof.
  assert (Hne : ["archive"; "q3"] <> @nil string) by discriminate.
  assert (Hanc : forall a data, In a (ancestors_and_self ["archive"; "q3"]) ->
                   fs_lookup a (fs archive_world) <> Some (File data)).
  { intros a data [<- | [<- | []]]; discriminate. }
  split; [reflexivity |]. split; [exact Hne |].
  destruct (explicit_target_directory_is_reused_or_created quiet_env 0 archive_world
              ["archive"; "q3"] eq_refl Hne) as (Ht & _ & Hrun).
  destruct (Hrun eq_refl Hanc) as (Hret & _ & Hall & _).
  split; [exact Ht |]. split; [exact Hret |].
  specialize (Hall ["archive"] (or_introl eq_refl)).
  unfold fs_exists in Hall.
  destruct (fs_lookup ["archive"] _) as [[|data]|] eqn:E;
    [reflexivity | | discriminate Hall].
  exfalso. revert E. vm_compute. discriminate.
Defined.

(** X13. With no target directory given, the workspace is the directory
    named after the timestamp, under the current directory. In a dry run
    it is not created. Otherwise an existing directory is used, a file of
    that name raises [FileExistsError], and a missing one is created as the
    last entry, which fails when the current directory itself is missing. *)
Theorem timestamp_target_directory_sits_under_cwd (env : Env)
    (dt : datetime) (w : World) :
  target_directory (config w) = [] ->
  let d := cwd env ++ [strftime env dt] in
  let r := create_target_directory env dt w in
  target_dir (snd r) = Some d
  /\ (dry_run (config w) = true -> fst r = Return tt /\ fs (snd r) = fs w)
  /\ (dry_run (config w) = false ->
      match fs_lookup d (fs w) with
      | Some Dir => fst r = Return tt /\ fs (snd r) = fs w
      | Some (File _) => fst r = Raise (FileExistsError "File exists")
                         /\ fs (snd r) = fs w
      | None =>
          if parent_exists d (fs w) then
            fst r = Return tt
            /\ fs (snd r) = fs w ++ [(d, Dir)]
          else (exists e, fst r = Raise e) /\ fs (snd r) = fs w
      end).
Proof.
  intros Hd d r. subst r. rewrite create_target_directory_unfold. cbv zeta.
  rewrite Hd. fold d.
  destruct (dry_run (config w)) eqn:Hdry.
  - cbn. intuition (discriminate || reflexivity).
  - rewrite mkdir_unfold. cbn [set_target_dir fs].
    destruct (fs_lookup d (fs w)) as [[|data]|] eqn:El.
    + cbn. intuition (discriminate || reflexivity).
    + cbn. intuition (discriminate || reflexivity).
    + destruct (parent_exists d (fs w)); cbn.
      * split; [reflexivity |]. split; [intros H; discriminate H |]. intros _.
        split; [reflexivity |]. unfold fs_put, fs_exists. now rewrite El.
      * split; [reflexivity |]. split; [intros H; discriminate H |]. intros _.
        split; [eexists; reflexivity | reflexivity].
Qed.

Lemma timestamp_target_directory_sits_under_cwd_witness :
  target_directory (config fresh_world) = []
  /\ target_dir (snd (create_target_directory quiet_env 0 fresh_world))
     = Some ["work"; "2023-11-14_22.13"]
  /\ fs (snd (create_target_directory quiet_env 0 fresh_world))
     = fs fresh_world ++ [(["work"; "2023-11-14_22.13"], Dir)].
Proof.
  split; [reflexivity |].
  destruct (timestamp_target_directory_sits_under_cwd quiet_env 0 fresh_world eq_refl)
    as (Ht & _ & Hrun).
  split; [exact Ht |]. exact (proj2 (Hrun eq_refl)).
Defined.

(* ===================================================================== *)
(** * Audio and frame extraction *)
(* ===================================================================== *)

Lemma In_audio_shape (audio : option path) (frames : list path)
    (note : option path) (p : path) :
  In (Audio, p) (manifest_shape audio frames note) <-> audio = Some p.
Proof.
  unfold manifest_shape. rewrite !in_app_iff, in_map_iff.
  destruct audio, note; cbn; split; intros Hyp;
    repeat match goal with
           | H : _ \/ _ |- _ => destruct H
           | H : _ /\ _ |- _ => destruct H
           | H : exists _, _ |- _ => destruct H
           | H : False |- _ => destruct H
           end;
    try discriminate; try congruence; auto.
  - injection Hyp as ->. auto.
  - injection Hyp as ->. auto.
Qed.

Lemma extract_audio_unfold (env : Env) (w : World) (d : path) :
  target_dir w = Some d ->
  dry_run (config w) = false ->
  extract_audio env w =
  let w1 :=
    set_fs (match snd (ffmpeg_audio env) with
            | Some data => fs_put (d ++ ["audio.m4a"]) (File data) (fs w)
            | None => fs w
            end)
      (add_event (RunTool FfmpegAudio) (add_event (Log INFO "Extracting audio...") w)) in
  if fst (ffmpeg_audio env) =? 0
  then (Return tt, add_event (Log INFO "Audio extraction completed") w1)
  else (Raise (RuntimeError "Audio extraction failed"), w1).
Proof.
  intros Hd Hdry. unfold extract_audio, with_target_dir, subprocess_run.
  unfold bind, log, emit, modify, get, raise, ret. cbn.
  rewrite Hd. cbn. rewrite Hdry. cbn.
  destruct (snd (ffmpeg_audio env)); destruct (fst (ffmpeg_audio env) =? 0); reflexivity.
Qed.

(** X14. Outside a dry run [_extract_audio] returns exactly when ffmpeg
    exits with status 0 and raises "Audio extraction failed" otherwise; the
    files are what ffmpeg left. The output is not checked: when ffmpeg
    exits with 0 and leaves no file, the method returns and the manifest
    built later has no audio entry. *)
Theorem audio_extraction_trusts_exit_status (env : Env) (w : World) (d : path) :
  target_dir w = Some d ->
  dry_run (config w) = false ->
  let r := extract_audio env w in
  let audio := d ++ ["audio.m4a"] in
  (fst r = Return tt <-> fst (ffmpeg_audio env) = 0)
  /\ (fst (ffmpeg_audio env) <> 0 -> fst r = Raise (RuntimeError "Audio extraction failed"))
  /\ fs (snd r) = match snd (ffmpeg_audio env) with
                  | Some data => fs_put audio (File data) (fs w)
                  | None => fs w
                  end
  /\ (snd (ffmpeg_audio env) = None -> fs_exists audio (fs w) = false ->
      forall N p, ~ In (Audio, p) (manifest_of N d (fs (snd r)))).
Proof.
  intros Hd Hdry r audio. subst r. rewrite (extract_audio_unfold env w d Hd Hdry).
  cbv zeta. fold audio.
  destruct (Z.eqb_spec (fst (ffmpeg_audio env)) 0) as [Hrc|Hrc]; cbn [fst snd fs set_fs add_event].
  - split; [tauto |]. split; [congruence |]. split; [reflexivity |].
    intros Hnone Hmiss N p. rewrite Hnone. unfold manifest_of.
    rewrite In_audio_shape. fold audio. rewrite Hmiss. discriminate.
  - split; [split; [discriminate | congruence] |]. split; [reflexivity |].
    split; [reflexivity |].
    intros Hnone Hmiss N p. rewrite Hnone. unfold manifest_of.
    rewrite In_audio_shape. fold audio. rewrite Hmiss. discriminate.
Qed.

Lemma audio_extraction_trusts_exit_status_witness :
  target_dir workspace_world = Some ["work"; "out"]
  /\ dry_run (config workspace_world) = false
  /\ (fst (extract_audio quiet_env workspace_world) = Return tt
      <-> fst (ffmpeg_audio quiet_env) = 0).
Proof.
  split; [reflexivity |]. split; [reflexivity |].
  exact (proj1 (audio_extraction_trusts_exit_status quiet_env workspace_world
                  ["work"; "out"] eq_refl eq_refl)).
Defined.

Lemma parent_child (d : path) (x : string) : parent (d ++ [x]) = d.
Proof. unfold parent. apply removelast_last. Qed.

Lemma parent_exists_child (d : path) (x : string) (f : FS) :
  fs_lookup d f = Some Dir -> parent_exists (d ++ [x]) f = true.
Proof.
  intros H. unfold parent_exists. rewrite parent_child.
  destruct d; [reflexivity |]. now rewrite H.
Qed.

Lemma child_neq_self (d : path) (x : list string) : x <> [] -> d ++ x <> d.
Proof.
  intros Hx E. apply (f_equal (@length string)) in E. rewrite length_app in E.
  destruct x; [congruence | cbn in E; lia].
Qed.

Lemma fs_lookup_fold_put (writes : list (path * filedata)) :
  forall (f : FS) (q : path),
    (forall e, In e writes -> fst e <> q) ->
    fs_lookup q (fold_left (fun f e => fs_put (fst e) (File (snd e)) f) writes f)
    = fs_lookup q f.
Proof.
  induction writes as [|e writes IH]; intros f q Hq; cbn; [reflexivity |].
  rewrite IH by (intros e' He'; apply Hq; now right).
  apply fs_lookup_put_other. apply Hq. now left.
Qed.

Lemma extract_frames_unfold (env : Env) (w : World) (d : path) :
  target_dir w = Some d ->
  dry_run (config w) = false ->
  extract_frames env w =
  let frames_dir := d ++ ["frames"] in
  let w0 := add_event (Log INFO "Extracting frames...") w in
  match mkdir false frames_dir w0 with
  | (Raise e, w1) => (Raise e, w1)
  | (Return _, w1) =>
      let w2 :=
        set_fs (fold_left (fun f e => fs_put (fst e) (File (snd e)) f)
                  (map (fun f => (frames_dir ++ [fst f], snd f)) (snd (ffmpeg_frames env)))
                  (fs w1))
          (add_event (RunTool FfmpegFrames) w1) in
      if fst (ffmpeg_frames env) =? 0
      then (Return tt, add_event (Log INFO "Frame extraction completed") w2)
      else (Raise (RuntimeError "Frame extraction failed"), w2)
  end.
Proof.
  intros Hd Hdry. unfold extract_frames, with_target_dir, subprocess_run.
  unfold bind at 1, log at 1, emit at 1, modify at 1. cbv beta iota zeta.
  unfold bind at 1, get at 1. cbv beta iota. cbn [target_dir add_event]. rewrite Hd.
  unfold bind at 1, get at 1. cbv beta iota. cbn [config add_event]. rewrite Hdry.
  cbn [negb]. unfold bind at 1.
  destruct (mkdir false (d ++ ["frames"]) _) as [[[]|e] w1]; [| reflexivity].
  unfold bind, emit, modify, ret, raise, log, emit, modify. cbn.
  destruct (fst (ffmpeg_frames env) =? 0); reflexivity.
Qed.

(** X15. Outside a dry run [_extract_frames] creates the frames directory
    before it runs ffmpeg: a file of that name raises [FileExistsError]
    with ffmpeg not run; otherwise ffmpeg is run, the directory exists
    afterwards whatever ffmpeg answers, and the method returns exactly when
    the exit status is 0. *)
Theorem frame_extraction_creates_its_directory_first (env : Env) (w : World)
    (d : path) :
  target_dir w = Some d ->
  dry_run (config w) = false ->
  fs_lookup d (fs w) = Some Dir ->
  let r := extract_frames env w in
  let frames_dir := d ++ ["frames"] in
  match fs_lookup frames_dir (fs w) with
  | Some (File _) =>
      fst r = Raise (FileExistsError "File exists")
      /\ fs (snd r) = fs w
      /\ (In (RunTool FfmpegFrames) (trace (snd r)) ->
          In (RunTool FfmpegFrames) (trace w))
  | _ =>
      (fst r = Return tt <-> fst (ffmpeg_frames env) = 0)
      /\ (fst (ffmpeg_frames env) <> 0 ->
          fst r = Raise (RuntimeError "Frame extraction failed"))
      /\ fs_lookup frames_dir (fs (snd r)) = Some Dir
      /\ In (RunTool FfmpegFrames) (trace (snd r))
  end.
Proof.
  intros Hd Hdry Hdir r frames_dir. subst r.
  rewrite (extract_frames_unfold env w d Hd Hdry). cbv zeta. fold frames_dir.
  rewrite mkdir_unfold. cbn [fs add_event].
  assert (Hparent : parent_exists frames_dir (fs w) = true)
    by (now apply parent_exists_child).
  assert (Hwrites : forall e,
            In e (map (fun f => (frames_dir ++ [fst f], snd f)) (snd (ffmpeg_frames env))) ->
            fst e <> frames_dir).
  { intros e He. apply in_map_iff in He. destruct He as (x & <- & _). cbn.
    apply child_neq_self. discriminate. }
  destruct (fs_lookup frames_dir (fs w)) as [[|data]|] eqn:El.
  - destruct (Z.eqb_spec (fst (ffmpeg_frames env)) 0) as [Hrc|Hrc];
      cbn [fst snd fs set_fs add_event trace];
      rewrite (fs_lookup_fold_put _ _ _ Hwrites), ?El, ?in_app_iff; cbn;
      intuition (discriminate || congruence).
  - cbn [fst snd fs trace add_event]. rewrite in_app_iff. cbn.
    intuition (discriminate || congruence).
  - rewrite Hparent.
    destruct (Z.eqb_spec (fst (ffmpeg_frames env)) 0) as [Hrc|Hrc];
      cbn [fst snd fs set_fs add_event trace];
      rewrite (fs_lookup_fold_put _ _ _ Hwrites), fs_lookup_put, ?in_app_iff; cbn;
      intuition (discriminate || congruence).
Qed.

Lemma frame_extraction_creates_its_directory_first_witness :
  target_dir workspace_world = Some ["work"; "out"]
  /\ dry_run (config workspace_world) = false
  /\ fs_lookup ["work"; "out"] (fs workspace_world) = Some Dir
  /\ fs_lookup ["work"; "out"; "frames"] (fs (snd (extract_frames quiet_env workspace_world)))
     = Some Dir
  /\ In (RunTool FfmpegFrames) (trace (snd (extract_frames quiet_env workspace_world))).
Proof.
  split; [reflexivity |]. split; [reflexivity |]. split; [reflexivity |].
  pose proof (frame_extraction_creates_its_directory_first quiet_env workspace_world
                ["work"; "out"] eq_refl eq_refl eq_refl) as H.
  exact (proj2 (proj2 H)).
Defined.

(* ===================================================================== *)
(** * Document, cleanup, credentials, prompt and note *)
(* ===================================================================== *)

Lemma write_file_unfold (p : path) (data : filedata) (w : World) :
  write_file p data w =
  if parent_exists p (fs w)
  then (Return tt, set_fs (fs_put p (File data) (fs w)) w)
  else (Raise (FileNotFoundError "No such file or directory"), w).
Proof.
  unfold write_file, bind, get. destruct (parent_exists p (fs w)); reflexivity.
Qed.

(** X16. [_create_meeting_md] touches the output document: in a dry run
    and when the document exists no file changes (an earlier result is not
    emptied); a missing document is created empty as the last entry; with no
    workspace directory the method raises. *)
Theorem touch_keeps_an_existing_document (w : World) (d : path) :
  target_dir w = Some d ->
  let r := create_meeting_md w in
  let doc := d ++ ["meeting.md"] in
  (dry_run (config w) = true -> fst r = Return tt /\ fs (snd r) = fs w)
  /\ (dry_run (config w) = false ->
      match fs_lookup doc (fs w) with
      | Some _ => fst r = Return tt /\ fs (snd r) = fs w
      | None =>
          if parent_exists doc (fs w)
          then fst r = Return tt /\ fs (snd r) = fs w ++ [(doc, File (Text ""))]
          else (exists e, fst r = Raise e) /\ fs (snd r) = fs w
      end).
Proof.
  intros Hd r doc. subst r.
  assert (Hr : create_meeting_md w =
    let w0 := add_event (Log INFO "Creating meeting.md...") w in
    if dry_run (config w)
    then (Return tt, add_event (Log INFO "DRY RUN: Would create meeting.md") w0)
    else if fs_exists doc (fs w)
         then (Return tt, add_event (Log INFO "Created meeting.md") w0)
         else if parent_exists doc (fs w)
              then (Return tt, add_event (Log INFO "Created meeting.md")
                                 (set_fs (fs_put doc (File (Text "")) (fs w)) w0))
              else (Raise (FileNotFoundError "No such file or directory"), w0)).
  { unfold create_meeting_md, with_target_dir.
    unfold bind at 1, log at 1, emit at 1, modify at 1. cbv beta iota zeta.
    unfold bind at 1, get at 1. cbv beta iota. cbn [config add_event fs].
    destruct (dry_run (config w)); cbn [negb]; [reflexivity |].
    unfold bind at 1, get at 1. cbv beta iota. cbn [target_dir add_event]. rewrite Hd.
    fold doc. unfold bind at 1.
    destruct (fs_exists doc (fs w)); [reflexivity |].
    rewrite write_file_unfold. cbn [fs add_event].
    destruct (parent_exists doc (fs w)); reflexivity. }
  rewrite Hr. cbv zeta. unfold fs_exists, fs_put, fs_exists.
  destruct (dry_run (config w)); [cbn; intuition discriminate |].
  destruct (fs_lookup doc (fs w)) eqn:El;
    [cbn; intuition discriminate |].
  destruct (parent_exists doc (fs w)); cbn; [intuition discriminate |].
  split; [intros H; discriminate H |]. intros _.
  split; [eexists; reflexivity | reflexivity].
Qed.

Lemma touch_keeps_an_existing_document_witness :
  target_dir workspace_world = Some ["work"; "out"]
  /\ fst (create_meeting_md workspace_world) = Return tt
  /\ fs (snd (create_meeting_md workspace_world))
     = fs workspace_world ++ [(["work"; "out"; "meeting.md"], File (Text ""))].
Proof.
  split; [reflexivity |].
  exact (proj2 (touch_keeps_an_existing_document workspace_world ["work"; "out"]
                  eq_refl) eq_refl).
Defined.

Lemma cleanup_unfold (env : Env) (w : World) (d : path) :
  target_dir w = Some d ->
  dry_run (config w) = false ->
  cleanup env w =
  let w0 := add_event (Log INFO "Cleaning up temporary files...") w in
  if fs_exists (d ++ ["frames"]) (fs w) then
    match rmtree_error env (d ++ ["frames"]) with
    | Some e =>
        (Raise e,
         set_fs (fs_rmtree_partial (rmtree_removed env (d ++ ["frames"]))
                   (d ++ ["frames"]) (fs w)) w0)
    | None => (Return tt, add_event (Log INFO "Removed frames directory")
                            (set_fs (fs_rmtree (d ++ ["frames"]) (fs w)) w0))
    end
  else (Return tt, w0).
Proof.
  intros Hd Hdry. unfold cleanup, with_target_dir, rmtree.
  unfold bind at 1, log at 1, emit at 1, modify at 1. cbv beta iota zeta.
  unfold bind at 1, get at 1. cbv beta iota. cbn [config add_event fs]. rewrite Hdry.
  cbn [negb]. unfold bind at 1, get at 1. cbv beta iota. cbn [target_dir add_event].
  rewrite Hd. destruct (fs_exists (d ++ ["frames"]) (fs w)); [| reflexivity].
  destruct (rmtree_error env (d ++ ["frames"])); reflexivity.
Qed.

Lemma sibling_not_below (d : path) (a b : string) :
  a <> b -> is_prefix (d ++ [a]) (d ++ [b]) = false.
Proof.
  intros Hne. induction d as [|x d IH]; cbn.
  - destruct (String.eqb_spec a b); [congruence | reflexivity].
  - now rewrite String.eqb_refl, IH.
Qed.

(** X17. Outside a dry run [_cleanup] removes the frames directory with
    what is below it and nothing else: every other entry of the workspace
    (video, audio, document, note, prompt) is as before. An error of
    [rmtree] propagates; what had been removed by then lies below the
    frames directory, so that again every other entry is as before, and
    the frames directory itself is still there. With no frames directory
    nothing is done. *)
Theorem success_cleanup_removes_only_the_frames (env : Env) (w : World) (d : path) :
  target_dir w = Some d ->
  dry_run (config w) = false ->
  let r := cleanup env w in
  let frames_dir := d ++ ["frames"] in
  if fs_exists frames_dir (fs w) then
    match rmtree_error env frames_dir with
    | Some e =>
        fst r = Raise e
        /\ (forall q, is_prefix frames_dir q = false \/ q = frames_dir ->
                      fs_lookup q (fs (snd r)) = fs_lookup q (fs w))
        /\ (forall q n, fs_lookup q (fs (snd r)) = Some n ->
                        fs_lookup q (fs w) = Some n)
        /\ (forall name, name <> "frames" ->
              fs_lookup (d ++ [name]) (fs (snd r)) = fs_lookup (d ++ [name]) (fs w))
    | None =>
        fst r = Return tt
        /\ (forall p, fs_lookup p (fs (snd r))
                      = if is_prefix frames_dir p then None else fs_lookup p (fs w))
        /\ (forall name, name <> "frames" ->
              fs_lookup (d ++ [name]) (fs (snd r)) = fs_lookup (d ++ [name]) (fs w))
    end
  else fst r = Return tt /\ fs (snd r) = fs w.
Proof.
  intros Hd Hdry r frames_dir. subst r. rewrite (cleanup_unfold env w d Hd Hdry).
  cbv zeta. fold frames_dir.
  destruct (fs_exists frames_dir (fs w)); [| split; reflexivity].
  destruct (rmtree_error env frames_dir).
  - cbn [fst snd fs set_fs add_event]. split; [reflexivity |].
    assert (Hout : forall q, is_prefix frames_dir q = false \/ q = frames_dir ->
              fs_lookup q (fs_rmtree_partial (rmtree_removed env frames_dir)
                             frames_dir (fs w)) = fs_lookup q (fs w)).
    { intros q Hq. rewrite fs_lookup_rmtree_partial. destruct Hq as [Hq | ->].
      - now rewrite Hq.
      - now rewrite path_eqb_refl, andb_false_r. }
    split; [exact Hout |]. split.
    + intros q n. rewrite fs_lookup_rmtree_partial.
      destruct (_ && _ && _); [discriminate | tauto].
    + intros name Hname. apply Hout. left. unfold frames_dir.
      apply sibling_not_below. congruence.
  - cbn [fst snd fs set_fs add_event]. split; [reflexivity |]. split.
    + intros p. apply fs_lookup_rmtree.
    + intros name Hname. rewrite fs_lookup_rmtree.
      unfold frames_dir. rewrite sibling_not_below by congruence. reflexivity.
Qed.

Lemma success_cleanup_removes_only_the_frames_witness :
  target_dir workspace_world = Some ["work"; "out"]
  /\ dry_run (config workspace_world) = false
  /\ fst (cleanup quiet_env workspace_world) = Return tt
  /\ forall name, name <> "frames" ->
       fs_lookup (["work"; "out"] ++ [name]) (fs (snd (cleanup quiet_env workspace_world)))
       = fs_lookup (["work"; "out"] ++ [name]) (fs workspace_world).
Proof.
  split; [reflexivity |]. split; [reflexivity |].
  pose proof (success_cleanup_removes_only_the_frames quiet_env workspace_world
                ["work"; "out"] eq_refl eq_refl) as H.
  split; [exact (proj1 H) | exact (proj2 (proj2 H))].
Defined.

Lemma upload_guard (env : Env) (w : World) :
  gemini_api_key (config w) = "" \/ sdk_installed env = false ->
  upload_to_gemini env w =
  let w0 := add_event (Log INFO "Uploading to Google Gemini...") w in
  if String.eqb (gemini_api_key (config w)) ""
  then (Raise (ValueError "Gemini API key not configured"), w0)
  else (Raise (ImportError "No module named 'google'"),
        add_event (Log ERROR "Google GenAI SDK not installed") w0).
Proof.
  intros H. unfold upload_to_gemini.
  unfold bind at 1, log at 1, emit at 1, modify at 1. cbv beta iota.
  unfold bind at 1, get at 1. cbv beta iota zeta. cbn [config add_event].
  destruct (String.eqb_spec (gemini_api_key (config w)) "") as [Hk | Hk];
    [reflexivity |].
  destruct H as [H | H]; [congruence |]. rewrite H. reflexivity.
Qed.

(** X18. [_upload_to_gemini] checks the API key, then the SDK, before
    anything else, in a dry run too: an empty key raises [ValueError], a
    missing SDK [ImportError], and in both cases no file is changed, no
    request is sent and only log lines are added to the trace. *)
Theorem upload_needs_key_and_sdk (env : Env) (w : World) :
  let r := upload_to_gemini env w in
  (gemini_api_key (config w) = "" ->
   fst r = Raise (ValueError "Gemini API key not configured"))
  /\ (gemini_api_key (config w) <> "" -> sdk_installed env = false ->
      fst r = Raise (ImportError "No module named 'google'"))
  /\ (gemini_api_key (config w) = "" \/ sdk_installed env = false ->
      fs (snd r) = fs w /\ gen_calls (snd r) = gen_calls w
      /\ exists t, trace (snd r) = trace w ++ t
                   /\ forallb is_log t = true).
Proof.
  intros r. subst r. split; [| split].
  - intros Hk. rewrite upload_guard by (now left). rewrite Hk. reflexivity.
  - intros Hk Hs. rewrite upload_guard by (now right).
    destruct (String.eqb_spec (gemini_api_key (config w)) ""); [congruence | reflexivity].
  - intros H. rewrite (upload_guard env w H). cbv zeta.
    destruct (String.eqb (gemini_api_key (config w)) "");
      cbn [fst snd fs gen_calls trace add_event];
      (split; [reflexivity | split; [reflexivity |]]).
    + eexists. split; [reflexivity | reflexivity].
    + rewrite <- app_assoc. eexists. split; [reflexivity | reflexivity].
Qed.

Lemma copy_prompt_unfold (env : Env) (prompt_type : option string) (w : World)
    (d : path) (p : string) :
  (prompt_type = Some p
   \/ ((prompt_type = None \/ prompt_type = Some "")
       /\ default_prompt (config w) = p)) ->
  p <> "" ->
  target_dir w = Some d ->
  select_and_copy_prompt env prompt_type w =
  let w0 := add_event (Log INFO "Selecting prompt template...") w in
  match fs_lookup (script_dir env ++ [resolve_prompt_shortcut p]) (fs w) with
  | Some n =>
      if dry_run (config w)
      then (Return tt, add_event (Log INFO "DRY RUN: Would copy prompt template") w0)
      else match n with
           | File data =>
               if parent_exists (d ++ ["prompt.txt"]) (fs w)
               then (Return tt,
                     add_event (Log INFO "Copied prompt template")
                       (set_fs (fs_put (d ++ ["prompt.txt"]) (File data) (fs w)) w0))
               else (Raise (FileNotFoundError "No such file or directory"), w0)
           | Dir => (Raise (IsADirectoryError "Is a directory"), w0)
           end
  | None => (Raise (FileNotFoundError "Prompt template not found"), w0)
  end.
Proof.
  intros Hsel Hp Hd. unfold select_and_copy_prompt.
  unfold bind at 1, log at 1, emit at 1, modify at 1. cbv beta iota zeta.
  unfold bind at 1, get at 1. cbv beta iota. cbn [config add_event fs].
  assert (Hfile :
    (match prompt_type with
     | Some (String a s) => ret (resolve_prompt_shortcut (String a s))
     | _ =>
         if negb (String.eqb (default_prompt (config w)) "")
         then ret (resolve_prompt_shortcut (default_prompt (config w)))
         else if negb (dry_run (config w)) then
           match select_answer env with
           | Some choice => ret (resolve_prompt_shortcut (before_sep " - " choice))
           | None => raise (AttributeError "'NoneType' object has no attribute 'split'")
           end
         else ret "prompt.txt"
     end) = (ret (resolve_prompt_shortcut p) : M string)).
  { destruct Hsel as [-> | [[-> | ->] Hdef]].
    - destruct p; [congruence | reflexivity].
    - rewrite Hdef. destruct (String.eqb_spec p ""); [congruence | reflexivity].
    - rewrite Hdef. destruct (String.eqb_spec p ""); [congruence | reflexivity]. }
  rewrite Hfile. unfold bind at 1, ret at 1. cbv beta iota.
  destruct (fs_lookup _ (fs w)) as [n|]; [| reflexivity].
  destruct (dry_run (config w)); cbn [negb]; [reflexivity |].
  destruct n as [|data]; [reflexivity |].
  unfold bind at 1, with_target_dir at 1, bind at 1, get at 1. cbv beta iota.
  cbn [target_dir add_event]. rewrite Hd. rewrite write_file_unfold.
  cbn [fs add_event]. destruct (parent_exists _ (fs w)); reflexivity.
Qed.

(** X19. When a prompt is named, by the argument or else by the configured
    default, nobody is asked: the template of that name (shortcuts
    resolved) is looked up beside the script. A missing template raises
    [FileNotFoundError] with no file changed, in a dry run too; a dry run
    copies nothing; otherwise the template is copied to [prompt.txt] of the
    workspace: reading it back gives the text of the template, which is
    itself unchanged, as is every other entry. *)
Theorem prompt_template_is_copied_verbatim (env : Env)
    (prompt_type : option string) (w : World) (d : path) (p : string) :
  (prompt_type = Some p
   \/ ((prompt_type = None \/ prompt_type = Some "")
       /\ default_prompt (config w) = p)) ->
  p <> "" ->
  target_dir w = Some d ->
  let src := script_dir env ++ [resolve_prompt_shortcut p] in
  let dst := d ++ ["prompt.txt"] in
  src <> dst ->
  let r := select_and_copy_prompt env prompt_type w in
  (fs_lookup src (fs w) = None ->
   fst r = Raise (FileNotFoundError "Prompt template not found")
   /\ fs (snd r) = fs w)
  /\ (dry_run (config w) = true -> fs_lookup src (fs w) <> None ->
      fst r = Return tt /\ fs (snd r) = fs w)
  /\ (forall data, dry_run (config w) = false ->
      fs_lookup src (fs w) = Some (File data) ->
      parent_exists dst (fs w) = true ->
      fs_lookup dst (fs w) <> Some Dir ->
      fst r = Return tt
      /\ fs_lookup dst (fs (snd r)) = Some (File data)
      /\ fs_lookup src (fs (snd r)) = Some (File data)
      /\ (forall q, q <> dst -> fs_lookup q (fs (snd r)) = fs_lookup q (fs w))
      /\ (forall text, data = Text text ->
            fst (read_text dst (snd r)) = Return text)).
Proof.
  intros Hsel Hp Hd src dst Hne r. subst r.
  rewrite (copy_prompt_unfold env prompt_type w d p Hsel Hp Hd). cbv zeta.
  fold src dst. split; [| split].
  - intros ->. split; reflexivity.
  - intros Hdry Hsrc. destruct (fs_lookup src (fs w)); [| congruence].
    rewrite Hdry. split; reflexivity.
  - intros data Hdry Hsrc Hpar _. rewrite Hsrc, Hdry, Hpar.
    cbn [fst snd fs set_fs add_event].
    split; [reflexivity |]. split; [apply fs_lookup_put |].
    split; [rewrite fs_lookup_put_other by congruence; exact Hsrc |].
    split; [intros q Hq; apply fs_lookup_put_other; congruence |].
    intros text ->. unfold read_text, bind, get. cbn [fs set_fs add_event].
    rewrite fs_lookup_put. reflexivity.
Qed.

Lemma prompt_template_is_copied_verbatim_witness :
  default_prompt (config workspace_world) = "prompt.txt"
  /\ target_dir workspace_world = Some ["work"; "out"]
  /\ fst (select_and_copy_prompt quiet_env None workspace_world) = Return tt
  /\ fst (read_text ["work"; "out"; "prompt.txt"]
            (snd (select_and_copy_prompt quiet_env None workspace_world)))
     = Return "Summarise the meeting.".
Proof.
  assert (Hsel : @None string = Some "prompt.txt"
                 \/ ((@None string = None \/ @None string = Some "")
                     /\ default_prompt (config workspace_world) = "prompt.txt"))
    by (right; split; [left |]; reflexivity).
  assert (Hp : "prompt.txt" <> "") by discriminate.
  assert (Hne : script_dir quiet_env ++ [resolve_prompt_shortcut "prompt.txt"]
                <> ["work"; "out"] ++ ["prompt.txt"]) by discriminate.
  assert (Hdir : fs_lookup (["work"; "out"] ++ ["prompt.txt"]) (fs workspace_world)
                 <> Some Dir) by discriminate.
  split; [reflexivity |]. split; [reflexivity |].
  destruct (prompt_template_is_copied_verbatim quiet_env None workspace_world
              ["work"; "out"] "prompt.txt" Hsel Hp eq_refl Hne) as (_ & _ & Hcopy).
  destruct (Hcopy (Text "Summarise the meeting.") eq_refl eq_refl eq_refl Hdir)
    as (Hret & _ & _ & _ & Hread).
  split; [exact Hret | exact (Hread _ eq_refl)].
Defined.

Lemma create_note_unfold (env : Env) (notes : option string) (w : World)
    (d : path) :
  target_dir w = Some d ->
  dry_run (config w) = false ->
  create_note_txt env notes w =
  let w0 := add_event (Log INFO "Creating note.txt...") w in
  let content := match notes with
                 | Some (String a s) => String a s
                 | _ => note_answer env
                 end in
  if parent_exists (d ++ ["note.txt"]) (fs w)
  then (Return tt,
        add_event (Log INFO "Created note.txt")
          (set_fs (fs_put (d ++ ["note.txt"]) (File (Text content)) (fs w)) w0))
  else (Raise (FileNotFoundError "No such file or directory"), w0).
Proof.
  intros Hd Hdry. unfold create_note_txt, note_answer.
  unfold bind at 1, log at 1, emit at 1, modify at 1. cbv beta iota zeta.
  unfold bind at 1, get at 1. cbv beta iota. cbn [config add_event fs].
  rewrite Hdry. cbn [negb].
  unfold bind at 1, with_target_dir at 1, bind at 1, get at 1. cbv beta iota.
  cbn [target_dir add_event]. rewrite Hd. rewrite write_file_unfold.
  cbn [fs add_event]. destruct (parent_exists _ (fs w)); reflexivity.
Qed.

Lemma string_length_pos (s : string) : s <> "" <-> (0 <? Z.of_nat (String.length s)) = true.
Proof.
  destruct s; cbn [String.length]; split; intros H'; try congruence.
  - discriminate H'.
  - apply Z.ltb_lt. lia.
Qed.

(** X20. Outside a dry run [_create_note_txt] writes [note.txt] and changes
    no other entry; reading it back gives the notes passed in when they are
    not empty, and the answer of the user otherwise. The manifest built
    from the result holds the note exactly when that text is not empty. *)
Theorem written_note_reaches_manifest_iff_nonempty (env : Env)
    (notes : option string) (w : World) (d : path) :
  target_dir w = Some d ->
  dry_run (config w) = false ->
  parent_exists (d ++ ["note.txt"]) (fs w) = true ->
  fs_lookup (d ++ ["note.txt"]) (fs w) <> Some Dir ->
  let note := d ++ ["note.txt"] in
  let r := create_note_txt env notes w in
  exists content,
    fst r = Return tt
    /\ fs_lookup note (fs (snd r)) = Some (File (Text content))
    /\ fst (read_text note (snd r)) = Return content
    /\ (forall q, q <> note -> fs_lookup q (fs (snd r)) = fs_lookup q (fs w))
    /\ (forall s, notes = Some s -> s <> "" -> content = s)
    /\ (notes = None \/ notes = Some "" -> content = note_answer env)
    /\ (forall files,
          fst (collect_note d files (snd r))
          = Return (files ++ if String.eqb content "" then [] else [(Note, note)])).
Proof.
  intros Hd Hdry Hpar _ note r. subst r.
  rewrite (create_note_unfold env notes w d Hd Hdry). cbv zeta.
  rewrite Hpar. fold note. cbn [fst snd fs set_fs add_event].
  eexists. split; [reflexivity |]. split; [apply fs_lookup_put |].
  split; [unfold read_text, bind, get; cbn [fs set_fs add_event];
          rewrite fs_lookup_put; reflexivity |].
  split; [intros q Hq; apply fs_lookup_put_other; congruence |].
  split; [intros s -> Hs; destruct s; [congruence | reflexivity] |].
  split; [intros [-> | ->]; reflexivity |].
  intros files. rewrite collect_note_result. cbn [fst fs set_fs add_event].
  fold note. unfold fs_exists at 1, st_size. rewrite fs_lookup_put.
  cbn [data_size andb].
  match goal with |- context [String.eqb ?c ""] =>
    destruct (String.eqb_spec c "") as [E | E] end.
  - rewrite E. reflexivity.
  - apply string_length_pos in E. rewrite E. reflexivity.
Qed.

Lemma written_note_reaches_manifest_iff_nonempty_witness :
  target_dir workspace_world = Some ["work"; "out"]
  /\ dry_run (config workspace_world) = false
  /\ parent_exists ["work"; "out"; "note.txt"] (fs workspace_world) = true
  /\ fs_lookup ["work"; "out"; "note.txt"] (fs workspace_world) <> Some Dir
  /\ exists content,
       fst (read_text ["work"; "out"; "note.txt"]
              (snd (create_note_txt quiet_env (Some "Budget first.") workspace_world)))
       = Return content
       /\ content = "Budget first.".
Proof.
  assert (Hdir : fs_lookup (["work"; "out"] ++ ["note.txt"]) (fs workspace_world)
                 <> Some Dir) by discriminate.
  split; [reflexivity |]. split; [reflexivity |]. split; [reflexivity |].
  split; [exact Hdir |].
  destruct (written_note_reaches_manifest_iff_nonempty quiet_env (Some "Budget first.")
              workspace_world ["work"; "out"] eq_refl eq_refl eq_refl Hdir)
    as (content & _ & _ & Hread & _ & Hsame & _).
  exists content. split; [exact Hread |]. apply (Hsame _ eq_refl). discriminate.
Defined.

Section Keeps.
Variable I : World -> Prop.
Variable R : World -> World -> Prop.
Hypothesis R_refl : forall w, R w w.
Hypothesis R_trans : forall a b c, R a b -> R b c -> R a c.

(* ===================================================================== *)
(** * Invariants of methods *)
(* ===================================================================== *)

Lemma keeps_ret {A} (a : A) : keeps I R (ret a).
Proof. intros w Hw. split; [exact Hw | apply R_refl]. Qed.

Lemma keeps_raise {A} (e : exn) : keeps I R (@raise A e).
Proof. intros w Hw. split; [exact Hw | apply R_refl]. Qed.

Lemma keeps_get : keeps I R get.
Proof. intros w Hw. split; [exact Hw | apply R_refl]. Qed.

Lemma keeps_modify (f : World -> World) :
  (forall w, I w -> I (f w) /\ R w (f w)) -> keeps I R (modify f).
Proof. intros Hf w Hw. exact (Hf w Hw). Qed.

Lemma keeps_bind {A B} (m : M A) (k : A -> M B) :
  keeps I R m -> (forall a, keeps I R (k a)) -> keeps I R (bind m k).
Proof.
  intros Hm Hk w Hw. unfold bind. destruct (Hm w Hw) as [Hi Hr].
  destruct (m w) as [[a|e] w1]; cbn [snd] in *.
  - destruct (Hk a w1 Hi) as [Hi' Hr']. split; [exact Hi' | eapply R_trans; eassumption].
  - now split.
Qed.

Lemma keeps_get_bind {B} (k : World -> M B) :
  (forall w, I w -> keeps I R (k w)) -> keeps I R (bind get k).
Proof. intros Hk w Hw. unfold bind, get. exact (Hk w Hw w Hw). Qed.

Lemma keeps_try {A} (body : M A) (handler : exn -> M A) :
  keeps I R body -> (forall e, keeps I R (handler e)) ->
  keeps I R (try_except body handler).
Proof.
  intros Hm Hk w Hw. unfold try_except. destruct (Hm w Hw) as [Hi Hr].
  destruct (body w) as [[a|e] w1]; cbn [snd] in *.
  - now split.
  - destruct (Hk e w1 Hi) as [Hi' Hr']. split; [exact Hi' | eapply R_trans; eassumption].
Qed.
End Keeps.

(* ===================================================================== *)
(** * A dry run only looks *)
(* ===================================================================== *)

Lemma looked_only_refl (w : World) : looked_only w w.
Proof. split; [reflexivity |]. exists []. now rewrite app_nil_r. Qed.

Lemma looked_only_trans (a b c : World) :
  looked_only a b -> looked_only b c -> looked_only a c.
Proof.
  intros [Hf (e1 & Ht & Hp)] [Hf' (e2 & Ht' & Hp')]. split; [congruence |].
  exists (e1 ++ e2). rewrite Ht', Ht, app_assoc. split; [reflexivity |].
  rewrite forallb_app, Hp, Hp'. reflexivity.
Qed.

Lemma dry_emit (e : event) :
  offline e = true -> keeps dry looked_only (emit e).
Proof.
  intros He w Hw. split; [exact Hw |]. split; [reflexivity |].
  exists [e]. cbn. now rewrite He.
Qed.

Lemma dry_modify (f : World -> World) :
  (forall w, dry_run (config (f w)) = dry_run (config w)
             /\ fs (f w) = fs w /\ trace (f w) = trace w) ->
  keeps dry looked_only (modify f).
Proof.
  intros Hf. apply keeps_modify. intros w Hw. destruct (Hf w) as (Hd & Hfs & Ht).
  split; [unfold dry; congruence |]. split; [exact Hfs |].
  exists []. now rewrite Ht, app_nil_r.
Qed.

Ltac keeps_step refl trans leaf :=
  first
    [ match goal with
      | |- keeps _ _ (ret _) => apply keeps_ret; apply refl
      | |- keeps _ _ (raise _) => apply keeps_raise; apply refl
      end
    | leaf
    | assumption
    | match goal with
      | |- keeps _ _ (bind get _) =>
          apply keeps_get_bind;
          let w := fresh "w" in let Hw := fresh "Hw" in intros w Hw
      | |- keeps _ _ (bind _ _) => apply keeps_bind; [apply trans | | intros ?]
      | |- keeps _ _ (try_except _ _) => apply keeps_try; [apply trans | | intros ?]
      | |- keeps _ _ (if ?b then _ else _) => destruct b eqn:?
      | |- keeps _ _ (match ?x with _ => _ end) => destruct x eqn:?
      end ].

Ltac dry_leaf :=
  first
    [ apply dry_emit; reflexivity
    | apply dry_modify; intros [? ? ? ? ? ?]; cbn; repeat split; reflexivity
    | match goal with
      | Hw : dry ?w |- context [dry_run (config ?w)] =>
          unfold dry in Hw; rewrite !Hw; cbn [negb]
      | Hw : dry_run (config ?w) = true |- context [dry_run (config ?w)] =>
          rewrite !Hw; cbn [negb]
      end ].

Ltac dry_run_tac :=
  cbv zeta; repeat keeps_step looked_only_refl looked_only_trans dry_leaf.

Lemma extract_datetime_dry (env : Env) : keeps dry looked_only (extract_datetime env).
Proof.
  unfold extract_datetime, extract_datetime_from_metadata,
    extract_datetime_from_file_mtime, get_manual_datetime, source_is, set_source, log.
  dry_run_tac.
Qed.

Lemma create_target_directory_dry (env : Env) (dt : datetime) :
  keeps dry looked_only (create_target_directory env dt).
Proof. unfold create_target_directory. dry_run_tac. Qed.

Ltac keeps_unfold :=
  unfold with_target_dir, write_file, read_text, mkdir, subprocess_run, rmtree, log.

Lemma convert_video_dry (env : Env) : keeps dry looked_only (convert_video env).
Proof. unfold convert_video. keeps_unfold. dry_run_tac. Qed.

Lemma extract_audio_dry (env : Env) : keeps dry looked_only (extract_audio env).
Proof. unfold extract_audio. keeps_unfold. dry_run_tac. Qed.

Lemma extract_frames_dry (env : Env) : keeps dry looked_only (extract_frames env).
Proof. unfold extract_frames. keeps_unfold. dry_run_tac. Qed.

Lemma create_meeting_md_dry : keeps dry looked_only create_meeting_md.
Proof. unfold create_meeting_md. keeps_unfold. dry_run_tac. Qed.

Lemma select_and_copy_prompt_dry (env : Env) (pt : option string) :
  keeps dry looked_only (select_and_copy_prompt env pt).
Proof. unfold select_and_copy_prompt. keeps_unfold. dry_run_tac. Qed.

Lemma create_note_txt_dry (env : Env) (notes : option string) :
  keeps dry looked_only (create_note_txt env notes).
Proof. unfold create_note_txt. keeps_unfold. dry_run_tac. Qed.

Lemma add_frames_dry (limits : ModelLimits) (frame_files : list path) :
  forall files, keeps dry looked_only (add_frames limits frame_files files).
Proof.
  induction frame_files as [|f rest IH]; intros files; cbn [add_frames];
    keeps_unfold; dry_run_tac; apply IH.
Qed.

Lemma collect_files_to_upload_dry (env : Env) (limits : ModelLimits) (d : path) :
  keeps dry looked_only (collect_files_to_upload env limits d).
Proof.
  unfold collect_files_to_upload, collect_audio, collect_frames, collect_note.
  keeps_unfold. dry_run_tac; apply add_frames_dry.
Qed.

Lemma upload_to_gemini_dry (env : Env) : keeps dry looked_only (upload_to_gemini env).
Proof.
  unfold upload_to_gemini. keeps_unfold. dry_run_tac;
    apply collect_files_to_upload_dry.
Qed.

Lemma cleanup_dry (env : Env) : keeps dry looked_only (cleanup env).
Proof. unfold cleanup. keeps_unfold. dry_run_tac. Qed.

Lemma run_body_dry (env : Env) (video : path) (pt notes : option string) :
  keeps dry looked_only (run_body env video pt notes).
Proof.
  unfold run_body.
  pose proof (extract_datetime_dry env).
  pose proof (convert_video_dry env).
  pose proof (extract_audio_dry env).
  pose proof (extract_frames_dry env).
  pose proof create_meeting_md_dry.
  pose proof (select_and_copy_prompt_dry env pt).
  pose proof (create_note_txt_dry env notes).
  pose proof (upload_to_gemini_dry env).
  pose proof (cleanup_dry env).
  unfold log. dry_run_tac. apply create_target_directory_dry.
Qed.

(* ===================================================================== *)
(** * A run stays in its workspace *)
(* ===================================================================== *)

Lemma run_body_phases (env : Env) (video : path) (pt notes : option string)
    (w : World) :
  run_body env video pt notes w = (run_setup env video ;; run_stages env pt notes) w.
Proof.
  unfold run_body, run_setup, run_stages, run_suffix, bind.
  repeat match goal with
         | |- context [let (_, _) := ?m ?w in _] =>
             destruct (m w) as [[?|?] ?]
         end; reflexivity.
Qed.






Section InWorkspace.
Variable d : path.







End InWorkspace.





Section Stages.
Variable d : path.
Variable env : Env.












End Stages.

Section Pipeline.
Variable d : path.
Variable env : Env.





End Pipeline.













(* ===================================================================== *)
(** * What a dry run checks *)
(* ===================================================================== *)

Lemma source_rewritten_refl (w : World) : source_rewritten w w.
Proof.
  split; [reflexivity |]. split; [reflexivity |].
  exists (preferred_date_source (config w)). now destruct (config w).
Qed.

Lemma source_rewritten_trans (a b c : World) :
  source_rewritten a b -> source_rewritten b c -> source_rewritten a c.
Proof.
  intros (Hf & Ht & s & Hc) (Hf' & Ht' & s' & Hc').
  split; [congruence |]. split; [congruence |].
  exists s'. rewrite Hc', Hc. reflexivity.
Qed.

Lemma sr_emit (e : event) : keeps anywhere source_rewritten (emit e).
Proof.
  intros w _. split; [exact I |]. split; [reflexivity |]. split; [reflexivity |].
  exists (preferred_date_source (config w)). cbn. now destruct (config w).
Qed.

Lemma sr_set_source (s : string) : keeps anywhere source_rewritten (set_source s).
Proof.
  intros w _. split; [exact I |]. split; [reflexivity |]. split; [reflexivity |].
  now exists s.
Qed.

Ltac sr_leaf :=
  idtac;
  match goal with
  | |- keeps _ _ (emit _) => apply sr_emit
  | |- keeps _ _ (set_source _) => apply sr_set_source
  end.

Lemma extract_datetime_rewrites_source_only (env : Env) :
  keeps anywhere source_rewritten (extract_datetime env).
Proof.
  unfold extract_datetime, extract_datetime_from_metadata,
    extract_datetime_from_file_mtime, get_manual_datetime, source_is, log.
  cbv zeta. repeat keeps_step source_rewritten_refl source_rewritten_trans sr_leaf.
Qed.

(** In a dry run steps 1 and 2 return, with the workspace path derived and
    nothing written. *)
Lemma run_setup_dry (env : Env) (video : path) (w : World) :
  dry_run (config w) = true ->
  exists w1 d s,
    run_setup env video w = (Return tt, w1)
    /\ fs w1 = fs w
    /\ config w1 = set_preferred_date_source s (config w)
    /\ target_dir w1 = Some d
    /\ (target_directory (config w) <> [] -> d = target_directory (config w)).
Proof.
  intros Hdry. unfold run_setup.
  unfold bind at 1, modify at 1. unfold bind at 1, log, emit, modify at 1.
  set (w0 := add_event _ (set_video_path video w)).
  assert (Hdry0 : dry_run (config w0) = true) by exact Hdry.
  destruct (extract_datetime_outcome env w0) as (_ & Hret & _).
  destruct (Hret Hdry0) as [dt Hdt].
  destruct (extract_datetime_rewrites_source_only env w0 I)
    as (_ & Hfs & Htd & s & Hc).
  unfold bind. destruct (extract_datetime env w0) as [o w1]. cbn [fst snd] in *.
  subst o. rewrite create_target_directory_unfold. cbv zeta.
  assert (Hdry1 : dry_run (config w1) = true) by (rewrite Hc; exact Hdry).
  rewrite Hdry1. unfold ret.
  eexists _, _, s. split; [reflexivity |]. cbn [fs set_target_dir config target_dir].
  split; [exact Hfs |]. split; [exact Hc |]. split; [reflexivity |].
  intros Hne. rewrite Hc. cbn [target_directory set_preferred_date_source].
  change (config w0) with (config w).
  destruct (target_directory (config w)); [congruence | reflexivity].
Qed.

Ltac dry_stage Hdry Hd :=
  unfold bind, log, emit, modify, get, ret, raise, with_target_dir; cbn;
  repeat (progress (rewrite ?Hdry, ?Hd; cbn)).

Ltac grows_done := repeat apply grows_step; apply grows_refl.

Section DryStages.
Variable env : Env.
Variable w : World.
Variable d : path.
Hypothesis Hdry : dry_run (config w) = true.
Hypothesis Hd : target_dir w = Some d.

Lemma convert_video_dry_outcome :
  exists w',
    convert_video env w =
      (if fs_exists (script_dir env ++ [handbrake_preset_file (config w)]) (fs w)
       then Return tt
       else Raise (FileNotFoundError "HandBrake preset file not found"), w')
    /\ grows w w'.
Proof.
  unfold convert_video. dry_stage Hdry Hd.
  destruct (fs_exists _ (fs w)); cbn; rewrite ?Hdry; cbn;
    (eexists; split; [reflexivity | grows_done]).
Qed.

Lemma extract_audio_dry_outcome :
  exists w', extract_audio env w = (Return tt, w') /\ grows w w'.
Proof.
  unfold extract_audio. dry_stage Hdry Hd. eexists; split; [reflexivity | grows_done].
Qed.

Lemma extract_frames_dry_outcome :
  exists w', extract_frames env w = (Return tt, w') /\ grows w w'.
Proof.
  unfold extract_frames. dry_stage Hdry Hd. eexists; split; [reflexivity | grows_done].
Qed.

Lemma create_meeting_md_dry_outcome :
  exists w', create_meeting_md w = (Return tt, w') /\ grows w w'.
Proof.
  unfold create_meeting_md. dry_stage Hdry Hd. eexists; split; [reflexivity | grows_done].
Qed.

Lemma select_and_copy_prompt_dry_outcome (pt : option string) :
  exists w',
    select_and_copy_prompt env pt w =
      (if fs_exists (script_dir env ++ [unattended_prompt pt (config w)]) (fs w)
       then Return tt
       else Raise (FileNotFoundError "Prompt template not found"), w')
    /\ grows w w'.
Proof.
  unfold select_and_copy_prompt, unattended_prompt, fs_exists.
  unfold bind at 1, log, emit, modify at 1. unfold bind at 1, get at 1.
  cbv beta iota zeta. cbn [config add_event fs].
  assert (E : (match pt with
     | Some (String a s) => ret (resolve_prompt_shortcut (String a s))
     | _ =>
         if negb (String.eqb (default_prompt (config w)) "")
         then ret (resolve_prompt_shortcut (default_prompt (config w)))
         else if negb (dry_run (config w)) then
           match select_answer env with
           | Some choice => ret (resolve_prompt_shortcut (before_sep " - " choice))
           | None => raise (AttributeError "'NoneType' object has no attribute 'split'")
           end
         else ret "prompt.txt"
     end) = (ret (match pt with
                  | Some (String a s) => resolve_prompt_shortcut (String a s)
                  | _ => if negb (String.eqb (default_prompt (config w)) "")
                         then resolve_prompt_shortcut (default_prompt (config w))
                         else "prompt.txt"
                  end) : M string)).
  { rewrite Hdry. destruct pt as [[|a s]|];
      destruct (negb (String.eqb (default_prompt (config w)) "")); reflexivity. }
  rewrite E. unfold bind at 1, ret at 1. cbv beta iota.
  destruct (fs_lookup _ (fs w)); rewrite ?Hdry; cbn [negb];
    unfold log, emit, modify, raise; (eexists; split; [reflexivity | grows_done]).
Qed.

Lemma create_note_txt_dry_outcome (notes : option string) :
  exists w', create_note_txt env notes w = (Return tt, w') /\ grows w w'.
Proof.
  unfold create_note_txt. dry_stage Hdry Hd. eexists; split; [reflexivity | grows_done].
Qed.

Lemma upload_to_gemini_dry_outcome :
  exists w',
    upload_to_gemini env w =
      (if String.eqb (gemini_api_key (config w)) ""
       then Raise (ValueError "Gemini API key not configured")
       else if negb (sdk_installed env)
       then Raise (ImportError "No module named 'google'")
       else Return tt, w')
    /\ grows w w'.
Proof.
  unfold upload_to_gemini.
  unfold bind at 1, log, emit, modify at 1. unfold bind at 1, get at 1.
  cbv beta iota zeta. cbn [config add_event].
  destruct (String.eqb (gemini_api_key (config w)) "");
    [unfold raise; eexists; split; [reflexivity | grows_done] |].
  destruct (sdk_installed env); cbn [negb];
    [| unfold bind, modify, raise; eexists; split; [reflexivity | grows_done]].
  unfold with_target_dir. unfold bind at 1, get at 1. cbv beta iota.
  cbn [target_dir add_event]. rewrite Hd, Hdry. cbn [negb].
  unfold bind at 1, ret at 1. cbv beta iota. unfold bind at 1, ret at 1. cbv beta iota.
  set (w0 := add_event _ w).
  destruct (collect_files_to_upload_result env
              (get_model_limits (config w) (gemini_model (config w))) d w0)
    as (w1 & Hc & Hg & _).
  unfold bind. rewrite Hc. unfold modify. eexists. split; [reflexivity |].
  apply grows_step. eapply grows_trans; [| exact Hg]. apply grows_add_event.
Qed.

Lemma cleanup_dry_outcome :
  exists w', cleanup env w = (Return tt, w') /\ grows w w'.
Proof.
  unfold cleanup. dry_stage Hdry Hd. eexists; split; [reflexivity | grows_done].
Qed.
End DryStages.

Lemma bind_step {A B} (m : M A) (k : A -> M B) (w w1 : World) (o : outcome A) :
  m w = (o, w1) ->
  bind m k w = match o with
               | Return a => k a w1
               | Raise e => (Raise e, w1)
               end.
Proof. intros E. unfold bind. rewrite E. now destruct o. Qed.

Lemma grows_dry (w w' : World) :
  grows w w' -> dry_run (config w) = true -> dry_run (config w') = true.
Proof. intros (Hc & _) H. now rewrite Hc. Qed.

Lemma grows_target (w w' : World) (d : path) :
  grows w w' -> target_dir w = Some d -> target_dir w' = Some d.
Proof. intros (_ & _ & Ht & _) H. now rewrite Ht. Qed.

(** In a dry run the stages after the workspace check four things, in
    this order, and do nothing else that can fail. *)
Lemma run_stages_dry_outcome (env : Env) (pt notes : option string) (w : World)
    (d : path) :
  dry_run (config w) = true ->
  target_dir w = Some d ->
  exists w',
    run_stages env pt notes w =
      (if negb (fs_exists (script_dir env ++ [handbrake_preset_file (config w)]) (fs w))
       then Raise (FileNotFoundError "HandBrake preset file not found")
       else if negb (fs_exists (script_dir env ++ [unattended_prompt pt (config w)])
                               (fs w))
       then Raise (FileNotFoundError "Prompt template not found")
       else if String.eqb (gemini_api_key (config w)) ""
       then Raise (ValueError "Gemini API key not configured")
       else if negb (sdk_installed env)
       then Raise (ImportError "No module named 'google'")
       else Return tt, w')
    /\ grows w w'.
Proof.
  intros Hdry Hd. unfold run_stages, run_suffix.
  destruct (convert_video_dry_outcome env w d Hdry Hd) as (w1 & E1 & G1).
  rewrite (bind_step _ _ _ _ _ E1).
  destruct (fs_exists _ (fs w)); cbn [negb];
    [| eexists; split; [reflexivity | exact G1]].
  destruct (extract_audio_dry_outcome env w1 d
              (grows_dry _ _ G1 Hdry) (grows_target _ _ _ G1 Hd)) as (w2 & E2 & G2).
  rewrite (bind_step _ _ _ _ _ E2).
  pose proof (grows_trans _ _ _ G1 G2) as G12.
  assert (exists w3, (when wants_frames pt then extract_frames env) w2 = (Return tt, w3)
                     /\ grows w w3) as (w3 & E3 & G3).
  { destruct (wants_frames pt).
    - destruct (extract_frames_dry_outcome env w2 d
                  (grows_dry _ _ G12 Hdry) (grows_target _ _ _ G12 Hd))
        as (w3 & E3 & G3).
      exists w3. split; [exact E3 | eapply grows_trans; eassumption].
    - exists w2. split; [reflexivity | exact G12]. }
  rewrite (bind_step _ _ _ _ _ E3).
  destruct (create_meeting_md_dry_outcome w3 (grows_dry _ _ G3 Hdry))
    as (w4 & E4 & G4).
  rewrite (bind_step _ _ _ _ _ E4).
  pose proof (grows_trans _ _ _ G3 G4) as G04.
  destruct (select_and_copy_prompt_dry_outcome env w4 (grows_dry _ _ G04 Hdry) pt)
    as (w5 & E5 & G5).
  rewrite (bind_step _ _ _ _ _ E5).
  pose proof (grows_trans _ _ _ G04 G5) as G05.
  destruct G04 as (Hc4 & _ & _ & Hf4 & _). rewrite Hc4, Hf4.
  destruct (fs_exists _ (fs w)); cbn [negb];
    [| eexists; split; [reflexivity | exact G05]].
  destruct (create_note_txt_dry_outcome env w5 (grows_dry _ _ G05 Hdry) notes)
    as (w6 & E6 & G6).
  rewrite (bind_step _ _ _ _ _ E6).
  pose proof (grows_trans _ _ _ G05 G6) as G06.
  destruct (upload_to_gemini_dry_outcome env w6 d
              (grows_dry _ _ G06 Hdry) (grows_target _ _ _ G06 Hd))
    as (w7 & E7 & G7).
  rewrite (bind_step _ _ _ _ _ E7).
  pose proof (grows_trans _ _ _ G06 G7) as G07.
  destruct G06 as (Hc6 & _). rewrite Hc6.
  destruct (String.eqb (gemini_api_key (config w)) "");
    [eexists; split; [reflexivity | exact G07] |].
  destruct (sdk_installed env); cbn [negb];
    [| eexists; split; [reflexivity | exact G07]].
  unfold bind at 1. unfold bind at 1, get at 1. cbv beta iota.
  assert (exists w8, (when negb (no_cleanup (config w7)) then cleanup env) w7
                     = (Return tt, w8) /\ grows w w8) as (w8 & E8 & G8).
  { destruct (negb (no_cleanup (config w7))).
    - destruct (cleanup_dry_outcome env w7 (grows_dry _ _ G07 Hdry))
        as (w8 & E8 & G8).
      exists w8. split; [exact E8 | eapply grows_trans; eassumption].
    - exists w7. split; [reflexivity | exact G07]. }
  rewrite E8. unfold log, emit, modify. eexists. split; [reflexivity |].
  now apply grows_step.
Qed.

Lemma run_result (env : Env) (video : path) (pt notes : option string) (w : World) :
  run env video pt notes w =
  match run_body env video pt notes w with
  | (Return a, w1) => (Return a, w1)
  | (Raise e, w1) =>
      (Raise e,
       snd (cleanup_on_failure env (add_event (Log ERROR "Error during processing") w1)))
  end.
Proof.
  unfold run, try_except.
  destruct (run_body env video pt notes w) as [[a|e] w1]; [reflexivity |].
  unfold bind at 1, log at 1, emit at 1, modify at 1. cbv beta iota. unfold bind at 1.
  destruct (cleanup_on_failure_result env
              (add_event (Log ERROR "Error during processing") w1)) as (w2 & Hr & _).
  rewrite Hr. reflexivity.
Qed.

(** The body of a dry run: its outcome, and the world it leaves. *)
Lemma run_body_dry_outcome (env : Env) (video : path) (pt notes : option string)
    (w : World) :
  dry_run (config w) = true ->
  exists w' d,
    run_body env video pt notes w =
      (if negb (fs_exists (script_dir env ++ [handbrake_preset_file (config w)]) (fs w))
       then Raise (FileNotFoundError "HandBrake preset file not found")
       else if negb (fs_exists (script_dir env ++ [unattended_prompt pt (config w)])
                               (fs w))
       then Raise (FileNotFoundError "Prompt template not found")
       else if String.eqb (gemini_api_key (config w)) ""
       then Raise (ValueError "Gemini API key not configured")
       else if negb (sdk_installed env)
       then Raise (ImportError "No module named 'google'")
       else Return tt, w')
    /\ fs w' = fs w
    /\ target_dir w' = Some d
    /\ (target_directory (config w) <> [] -> d = target_directory (config w)).
Proof.
  intros Hdry. rewrite run_body_phases.
  destruct (run_setup_dry env video w Hdry) as (w1 & d & s & E1 & Hf1 & Hc1 & Ht1 & Hd1).
  rewrite (bind_step _ _ _ _ _ E1).
  assert (Hdry1 : dry_run (config w1) = true) by (rewrite Hc1; exact Hdry).
  destruct (run_stages_dry_outcome env pt notes w1 d Hdry1 Ht1) as (w2 & E2 & G2).
  exists w2, d. rewrite E2, Hf1, Hc1.
  cbn [handbrake_preset_file gemini_api_key set_preferred_date_source].
  assert (Hp : unattended_prompt pt (set_preferred_date_source s (config w))
               = unattended_prompt pt (config w)) by reflexivity.
  rewrite Hp. split; [reflexivity |].
  destruct G2 as (_ & _ & Ht2 & Hf2 & _).
  split; [congruence |]. split; [congruence | exact Hd1].
Qed.

(** X22. The outcome of a dry run is decided by four checks, made in this
    order: the HandBrake preset file exists, the prompt template exists,
    the API key is not empty, the SDK is installed. The first check that
    fails gives the error; the run returns exactly when all four hold. *)
Theorem dry_run_checks_four_things (env : Env) (video : path)
    (pt notes : option string) (w : World) :
  dry_run (config w) = true ->
  let r := run env video pt notes w in
  let c := config w in
  let preset := script_dir env ++ [handbrake_preset_file c] in
  let template := script_dir env ++ [unattended_prompt pt c] in
  fst r =
    (if negb (fs_exists preset (fs w))
     then Raise (FileNotFoundError "HandBrake preset file not found")
     else if negb (fs_exists template (fs w))
     then Raise (FileNotFoundError "Prompt template not found")
     else if String.eqb (gemini_api_key c) ""
     then Raise (ValueError "Gemini API key not configured")
     else if negb (sdk_installed env)
     then Raise (ImportError "No module named 'google'")
     else Return tt)
  /\ (fst r = Return tt <->
      fs_exists preset (fs w) = true /\ fs_exists template (fs w) = true
      /\ gemini_api_key c <> "" /\ sdk_installed env = true).
Proof.
  intros Hdry r c preset template. subst r c preset template.
  destruct (run_body_dry_outcome env video pt notes w Hdry)
    as (w' & d & E & Hfs & _).
  rewrite run_result, E.
  destruct (fs_exists (script_dir env ++ [handbrake_preset_file (config w)]) (fs w));
    cbn [negb fst snd];
    [| split; [reflexivity |]; split; [discriminate | intros [? _]; discriminate]].
  destruct (fs_exists (script_dir env ++ [unattended_prompt pt (config w)]) (fs w));
    cbn [negb fst snd];
    [| split; [reflexivity |];
       split; [discriminate | intros (_ & ? & _); discriminate]].
  destruct (String.eqb_spec (gemini_api_key (config w)) "") as [Hk | Hk];
    cbn [fst snd];
    [split; [reflexivity |];
     split; [discriminate | intros (_ & _ & ? & _); congruence] |].
  destruct (sdk_installed env); cbn [negb fst snd];
    [| split; [reflexivity |];
       split; [discriminate | intros (_ & _ & _ & ?); discriminate]].
  split; [reflexivity |].
  split; [intros _; repeat split; assumption | reflexivity].
Qed.

Lemma dry_run_checks_four_things_witness :
  dry_run (config dry_world) = true
  /\ fst (run quiet_env ["meetings"; "q3"; "review.mp4"] None None dry_world)
     = Return tt.
Proof.
  split; [reflexivity |].
  exact (proj1 (dry_run_checks_four_things quiet_env ["meetings"; "q3"; "review.mp4"]
                  None None dry_world eq_refl)).
Defined.

(** X23. The rollback has no dry-run guard. When a dry run with a target
    directory that exists fails, and [rmtree] works, the directory is
    removed with everything in it; every other entry is as before. *)
Theorem failed_dry_run_removes_existing_target (env : Env) (video : path)
    (pt notes : option string) (w : World) (d : path) (e : exn) :
  dry_run (config w) = true ->
  target_directory (config w) = d ->
  d <> [] ->
  fs_exists d (fs w) = true ->
  rmtree_error env d = None ->
  let r := run env video pt notes w in
  fst r = Raise e ->
  forall p, fs_lookup p (fs (snd r)) = if is_prefix d p then None else fs_lookup p (fs w).
Proof.
  intros Hdry Htd Hne Hex Hrm r Hr p. subst r.
  destruct (run_body_dry_outcome env video pt notes w Hdry)
    as (w' & d' & E & Hfs & Ht & Hd).
  assert (d' = d) by (rewrite <- Htd; apply Hd; congruence). subst d'.
  rewrite run_result in Hr |- *.
  destruct (run_body env video pt notes w) as [[a|e'] w1].
  - discriminate Hr.
  - injection E as _ <-. cbn [snd].
    destruct (cleanup_on_failure_result env
                (add_event (Log ERROR "Error during processing") w1))
      as (w2 & Hc & Hfs2 & _).
    rewrite Hc. cbn [snd]. rewrite Hfs2. cbn [target_dir fs add_event].
    rewrite Ht, Hfs, Hex, Hrm. apply fs_lookup_rmtree.
Qed.

Lemma failed_dry_run_removes_existing_target_witness :
  dry_run (config stranded_dry_world) = true
  /\ fs_lookup ["meetings"; "q3"; "review.mp4"] (fs stranded_dry_world)
     = Some (File (Blob 5000))
  /\ fst (run quiet_env ["meetings"; "q3"; "review.mp4"] None None stranded_dry_world)
     = Raise (FileNotFoundError "HandBrake preset file not found")
  /\ fs_lookup ["meetings"; "q3"; "review.mp4"]
       (fs (snd (run quiet_env ["meetings"; "q3"; "review.mp4"] None None
                   stranded_dry_world)))
     = None.
Proof.
  assert (Hne : ["meetings"; "q3"] <> @nil string) by discriminate.
  assert (Hr : fst (run quiet_env ["meetings"; "q3"; "review.mp4"] None None
                      stranded_dry_world)
               = Raise (FileNotFoundError "HandBrake preset file not found"))
    by reflexivity.
  split; [reflexivity |]. split; [reflexivity |]. split; [exact Hr |].
  exact (failed_dry_run_removes_existing_target quiet_env
           ["meetings"; "q3"; "review.mp4"] None None stranded_dry_world
           ["meetings"; "q3"] _ eq_refl eq_refl Hne eq_refl eq_refl Hr
           ["meetings"; "q3"; "review.mp4"]).
Defined.

Lemma cleanup_on_failure_logs_only (env : Env) :
  emits_only (fun e => offline e = true) (cleanup_on_failure env).
Proof.
  unfold cleanup_on_failure, with_target_dir, rmtree, log.
  repeat first
    [ apply emits_ret | apply emits_raise | apply emits_get
    | apply emits_emit; reflexivity
    | apply emits_modify; intros [? ? ? ? ? ?]; reflexivity
    | match goal with
      | |- emits_only _ (bind _ _) => apply emits_bind; [| intros ?]
      | |- emits_only _ (try_except _ _) => apply emits_try; [| intros ?]
      | |- emits_only _ (if ?b then _ else _) => destruct b
      | |- emits_only _ (match ?x with _ => _ end) => destruct x
      end ].
Qed.

(** X24. In a dry run, whether it returns or raises, [run] adds to the
    trace only log lines, consultations of the date sources and the ffprobe
    call on an audio file already there: HandBrakeCLI and ffmpeg are not
    run, no token count, upload, generation request or deletion is sent, and
    the process never sleeps. *)
Theorem dry_run_skips_tools_and_service (env : Env) (video : path)
    (pt notes : option string) (w : World) :
  dry_run (config w) = true ->
  let r := run env video pt notes w in
  exists evs, trace (snd r) = trace w ++ evs /\ forallb offline evs = true.
Proof.
  intros Hdry r. subst r. rewrite run_result.
  destruct (run_body_dry env video pt notes w Hdry) as (_ & _ & evs & Ht & Hoff).
  destruct (run_body env video pt notes w) as [[a|e] w1]; cbn [snd] in *.
  - exists evs. now split.
  - destruct (cleanup_on_failure_logs_only env
                (add_event (Log ERROR "Error during processing") w1))
      as (evs2 & Ht2 & Hoff2).
    exists (evs ++ Log ERROR "Error during processing" :: evs2).
    rewrite Ht2. cbn [trace add_event]. rewrite Ht, <- !app_assoc.
    split; [reflexivity |]. rewrite forallb_app, Hoff. cbn.
    apply forallb_forall. intros x Hx. rewrite Forall_forall in Hoff2.
    apply Hoff2. now apply list_elem_of_In.
Qed.

Lemma dry_run_skips_tools_and_service_witness :
  dry_run (config dry_world) = true
  /\ exists evs,
       trace (snd (run quiet_env ["meetings"; "q3"; "review.mp4"] None None dry_world))
       = trace dry_world ++ evs
       /\ forallb offline evs = true.
Proof.
  split; [reflexivity |].
  exact (dry_run_skips_tools_and_service quiet_env ["meetings"; "q3"; "review.mp4"]
           None None dry_world eq_refl).
Defined.

(* ===================================================================== *)
(** * What a run that returns leaves behind *)
(* ===================================================================== *)









































(* ===================================================================== *)
(** * How long a run can wait *)
(* ===================================================================== *)

Lemma pauses_app (t u : list event) : pauses (t ++ u) = (pauses t + pauses u)%nat.
Proof.
  induction t as [|e t IH]; [reflexivity |].
  destruct e; cbn [app pauses]; rewrite IH; reflexivity.
Qed.

Lemma uploads_app (t u : list event) :
  uploads (t ++ u) = (uploads t + uploads u)%nat.
Proof.
  induction t as [|e t IH]; [reflexivity |].
  destruct e; cbn [app uploads]; rewrite IH; reflexivity.
Qed.

Lemma pause_per_upload_refl (w : World) : pause_per_upload w w.
Proof. unfold pause_per_upload. lia. Qed.

Lemma pause_per_upload_trans (a b c : World) :
  pause_per_upload a b -> pause_per_upload b c -> pause_per_upload a c.
Proof. unfold pause_per_upload. lia. Qed.

Lemma pause_per_upload_same_trace (w w' : World) :
  trace w' = trace w -> pause_per_upload w w'.
Proof. unfold pause_per_upload. intros ->. lia. Qed.

Lemma no_backoff_refl (w : World) : no_backoff w w.
Proof.
  split; [reflexivity |]. split; [reflexivity | apply pause_per_upload_refl].
Qed.

Lemma no_backoff_trans (a b c : World) : no_backoff a b -> no_backoff b c -> no_backoff a c.
Proof.
  intros (Hs & Hg & Hp) (Hs' & Hg' & Hp').
  split; [congruence |]. split; [congruence |].
  eapply pause_per_upload_trans; eassumption.
Qed.

Lemma no_backoff_one_backoff (a b : World) : no_backoff a b -> one_backoff a b.
Proof.
  intros (Hs & Hg & Hp). exists 0%nat. split; [lia |].
  split; [| split; [lia | exact Hp]].
  unfold backoff_schedule. cbn [seq map]. rewrite app_nil_r. exact Hs.
Qed.

Lemma no_backoff_then_backoff (a b c : World) :
  no_backoff a b -> one_backoff b c -> one_backoff a c.
Proof.
  intros (Hs & Hg & Hp) (k & Hk & Hs' & Hg' & Hp'). exists k. split; [exact Hk |].
  split; [rewrite Hs', Hs; reflexivity |].
  split; [lia | eapply pause_per_upload_trans; eassumption].
Qed.

Lemma backoff_then_no_backoff (a b c : World) :
  one_backoff a b -> no_backoff b c -> one_backoff a c.
Proof.
  intros (k & Hk & Hs & Hg & Hp) (Hs' & Hg' & Hp'). exists k. split; [exact Hk |].
  split; [rewrite Hs', Hs; reflexivity |].
  split; [lia | eapply pause_per_upload_trans; eassumption].
Qed.

Lemma nw_emit (e : event) :
  (forall s, e <> Sleep s) -> e <> Pause -> keeps anywhere no_backoff (emit e).
Proof.
  intros He Hp w _. split; [exact I |]. split; [| split; [reflexivity |]].
  - cbn -[sleeps]. rewrite sleeps_app. destruct e; cbn; try apply app_nil_r.
    now destruct (He seconds).
  - unfold pause_per_upload. cbn -[pauses uploads].
    rewrite pauses_app, uploads_app.
    destruct e; cbn [pauses uploads]; try lia. now destruct Hp.
Qed.

Lemma nw_modify (f : World -> World) :
  (forall w, trace (f w) = trace w /\ gen_calls (f w) = gen_calls w) ->
  keeps anywhere no_backoff (modify f).
Proof.
  intros Hf w _. split; [exact I |]. destruct (Hf w) as [Ht Hg].
  split; [cbn; congruence |]. split; [cbn; congruence |].
  apply pause_per_upload_same_trace. exact Ht.
Qed.

Ltac nw_leaf :=
  idtac;
  match goal with
  | |- keeps _ _ (emit _) => apply nw_emit; [intros ?; discriminate | discriminate]
  | |- keeps _ _ (modify _) =>
      apply nw_modify; intros [? ? ? ? ? ?]; split; reflexivity
  end.

Ltac no_backoff_tac := cbv zeta; repeat keeps_step no_backoff_refl no_backoff_trans nw_leaf.

Lemma extract_datetime_no_backoff (env : Env) :
  keeps anywhere no_backoff (extract_datetime env).
Proof.
  unfold extract_datetime, extract_datetime_from_metadata,
    extract_datetime_from_file_mtime, get_manual_datetime, source_is, set_source, log.
  no_backoff_tac.
Qed.

Lemma create_target_directory_no_backoff (env : Env) (dt : datetime) :
  keeps anywhere no_backoff (create_target_directory env dt).
Proof. unfold create_target_directory. keeps_unfold. no_backoff_tac. Qed.

Lemma convert_video_no_backoff (env : Env) : keeps anywhere no_backoff (convert_video env).
Proof. unfold convert_video. keeps_unfold. no_backoff_tac. Qed.

Lemma extract_audio_no_backoff (env : Env) : keeps anywhere no_backoff (extract_audio env).
Proof. unfold extract_audio. keeps_unfold. no_backoff_tac. Qed.

Lemma extract_frames_no_backoff (env : Env) : keeps anywhere no_backoff (extract_frames env).
Proof. unfold extract_frames. keeps_unfold. no_backoff_tac. Qed.

Lemma create_meeting_md_no_backoff : keeps anywhere no_backoff create_meeting_md.
Proof. unfold create_meeting_md. keeps_unfold. no_backoff_tac. Qed.

Lemma select_and_copy_prompt_no_backoff (env : Env) (pt : option string) :
  keeps anywhere no_backoff (select_and_copy_prompt env pt).
Proof. unfold select_and_copy_prompt. keeps_unfold. no_backoff_tac. Qed.

Lemma create_note_txt_no_backoff (env : Env) (notes : option string) :
  keeps anywhere no_backoff (create_note_txt env notes).
Proof. unfold create_note_txt. keeps_unfold. no_backoff_tac. Qed.

Lemma cleanup_no_backoff (env : Env) : keeps anywhere no_backoff (cleanup env).
Proof. unfold cleanup. keeps_unfold. no_backoff_tac. Qed.

Lemma cleanup_on_failure_no_backoff (env : Env) :
  keeps anywhere no_backoff (cleanup_on_failure env).
Proof. unfold cleanup_on_failure. keeps_unfold. no_backoff_tac. Qed.

Lemma add_frames_no_backoff (limits : ModelLimits) (frame_files : list path) :
  forall files, keeps anywhere no_backoff (add_frames limits frame_files files).
Proof.
  induction frame_files as [|f rest IH]; intros files; cbn [add_frames];
    unfold log; no_backoff_tac; apply IH.
Qed.

Lemma collect_files_to_upload_no_backoff (env : Env) (limits : ModelLimits) (d : path) :
  keeps anywhere no_backoff (collect_files_to_upload env limits d).
Proof.
  unfold collect_files_to_upload, collect_audio, collect_frames, collect_note, log.
  no_backoff_tac; apply add_frames_no_backoff.
Qed.

Lemma no_backoff_upload (evs : list event) (w : World) :
  sleeps evs = [] -> (pauses evs <= uploads evs)%nat ->
  no_backoff w (add_events evs w).
Proof.
  intros Hs Hp. split; [| split; [reflexivity |]].
  - cbn -[sleeps]. rewrite sleeps_app, Hs. apply app_nil_r.
  - unfold pause_per_upload. cbn -[pauses uploads].
    rewrite pauses_app, uploads_app. lia.
Qed.

(** The upload loop pauses once after each upload that succeeded. *)
Lemma upload_files_no_backoff (env : Env) (files : list (kind * path)) :
  forall u, keeps anywhere no_backoff (upload_files env files u).
Proof.
  induction files as [|[k p] rest IH]; intros u w _; split; try exact I.
  - apply no_backoff_refl.
  - rewrite upload_one. cbv zeta.
    destruct (upload_answer env p) as [h|e]; [| destruct (kind_eqb k Audio)].
    + eapply no_backoff_trans; [| apply (IH _ _ I)].
      apply no_backoff_upload; [reflexivity | cbn; lia].
    + cbn [snd]. apply no_backoff_upload; [reflexivity | cbn; lia].
    + eapply no_backoff_trans; [| apply (IH _ _ I)].
      apply no_backoff_upload; [reflexivity | cbn; lia].
Qed.

Lemma delete_frames_no_backoff (env : Env) (hs : list handle) :
  keeps anywhere no_backoff (delete_frames env hs).
Proof.
  induction hs as [|h rest IH]; cbn [delete_frames]; unfold delete_file; no_backoff_tac.
Qed.

Lemma release_uploaded_no_backoff (env : Env) (u : Uploaded) :
  keeps anywhere no_backoff (release_uploaded env u).
Proof.
  unfold release_uploaded, delete_file, log. cbv zeta.
  repeat first
    [ apply delete_frames_no_backoff
    | keeps_step no_backoff_refl no_backoff_trans nw_leaf ].
Qed.

Lemma retry_generate_step (env : Env) (parts : list part) (params : ValidatedDefaults)
    (max_out m b attempt : Z) (rest : list Z) (w : World) :
  retry_loop (generate_content env parts params max_out) m b (attempt :: rest) w =
  let w0 := bump_gen_calls (add_event (Generate parts params max_out) w) in
  match generate_answer env (gen_calls w) with
  | Return v => (Return v, w0)
  | Raise e =>
      if is_503_error e then
        if attempt <? m then
          retry_loop (generate_content env parts params max_out) m b rest
            (add_event (Sleep (b * 2 ^ attempt))
               (add_event (Log WARNING "503 UNAVAILABLE error. Retrying...") w0))
        else
          (Raise e,
           add_event (Log ERROR "All attempts failed with 503 UNAVAILABLE error") w0)
      else (Raise e, add_event (Log ERROR "Non-retryable error") w0)
  end.
Proof.
  cbn [retry_loop]. unfold try_except.
  unfold generate_content at 1, bind at 1, emit at 1, modify at 1, scripted at 1.
  cbv beta iota zeta. cbn [gen_calls add_event].
  destruct (generate_answer env (gen_calls w)) as [v|e]; [reflexivity |].
  destruct (is_503_error e); [destruct (attempt <? m) |]; reflexivity.
Qed.

Lemma retry_generate_bounded (env : Env) (parts : list part)
    (params : ValidatedDefaults) (max_out : Z) :
  forall (n a : nat) (w : World),
    (a + S n = 6)%nat ->
    let r := retry_loop (generate_content env parts params max_out) 5 60
               (map Z.of_nat (seq a (S n))) w in
    exists k : nat,
      (k <= n)%nat
      /\ sleeps (trace (snd r)) =
           sleeps (trace w) ++ map (fun j => 60 * 2 ^ Z.of_nat j) (seq a k)
      /\ gen_calls (snd r) = (gen_calls w + k + 1)%nat
      /\ pauses (trace (snd r)) = pauses (trace w)
      /\ uploads (trace (snd r)) = uploads (trace w).
Proof.
  induction n as [|n IH]; intros a w Hm r; subst r;
    cbn [seq map]; rewrite retry_generate_step; cbv zeta.
  - exists 0%nat. destruct (generate_answer env (gen_calls w)) as [v|e].
    + cbn -[sleeps pauses uploads]. rewrite sleeps_app, pauses_app, uploads_app.
      cbn. rewrite !app_nil_r. repeat split; lia.
    + destruct (is_503_error e).
      * destruct (Z.ltb_spec (Z.of_nat a) 5); [lia |].
        cbn -[sleeps pauses uploads].
        rewrite !sleeps_app, !pauses_app, !uploads_app. cbn.
        rewrite !app_nil_r. repeat split; lia.
      * cbn -[sleeps pauses uploads].
        rewrite !sleeps_app, !pauses_app, !uploads_app. cbn.
        rewrite !app_nil_r. repeat split; lia.
  - destruct (generate_answer env (gen_calls w)) as [v|e].
    + exists 0%nat. cbn -[sleeps pauses uploads].
      rewrite sleeps_app, pauses_app, uploads_app. cbn. rewrite !app_nil_r.
      repeat split; lia.
    + destruct (is_503_error e).
      * destruct (Z.ltb_spec (Z.of_nat a) 5); [| lia].
        match goal with
        | |- context [retry_loop _ 5 60 _ ?w1] =>
            destruct (IH (S a) w1 ltac:(lia)) as (k & Hk & Hs & Hg & Hp & Hu)
        end.
        exists (S k). cbn [seq map] in *. rewrite Hs, Hg, Hp, Hu.
        cbn -[sleeps pauses uploads Z.mul Z.pow].
        rewrite !sleeps_app, !pauses_app, !uploads_app. cbn -[Z.mul Z.pow].
        rewrite !app_nil_r, <- app_assoc. cbn -[Z.mul Z.pow].
        repeat split; lia.
      * exists 0%nat. cbn -[sleeps pauses uploads].
        rewrite !sleeps_app, !pauses_app, !uploads_app. cbn.
        rewrite !app_nil_r. repeat split; lia.
Qed.

Lemma wrapped_generation_one_backoff (env : Env) (parts : list part)
    (params : ValidatedDefaults) (max_out : Z) :
  keeps anywhere one_backoff
    (retry_with_exponential_backoff (generate_content env parts params max_out) 5 60).
Proof.
  intros w _. split; [exact I |].
  unfold retry_with_exponential_backoff, py_range.
  change (Z.to_nat (5 + 1)) with 6%nat.
  destruct (retry_generate_bounded env parts params max_out 5 0 w eq_refl)
    as (k & Hk & Hs & Hg & Hp & Hu).
  exists k. split; [exact Hk |]. split; [exact Hs |]. split; [lia |].
  unfold pause_per_upload. lia.
Qed.

Lemma backoff_bind_l {A B} (m : M A) (k : A -> M B) :
  keeps anywhere no_backoff m -> (forall a, keeps anywhere one_backoff (k a)) ->
  keeps anywhere one_backoff (bind m k).
Proof.
  intros Hm Hk w _. split; [exact I |]. unfold bind.
  destruct (Hm w I) as [_ Hr]. destruct (m w) as [[a|e] w1]; cbn [snd] in *.
  - destruct (Hk a w1 I) as [_ Hr']. eapply no_backoff_then_backoff; eassumption.
  - now apply no_backoff_one_backoff.
Qed.

Lemma backoff_bind_r {A B} (m : M A) (k : A -> M B) :
  keeps anywhere one_backoff m -> (forall a, keeps anywhere no_backoff (k a)) ->
  keeps anywhere one_backoff (bind m k).
Proof.
  intros Hm Hk w _. split; [exact I |]. unfold bind.
  destruct (Hm w I) as [_ Hr]. destruct (m w) as [[a|e] w1]; cbn [snd] in *.
  - destruct (Hk a w1 I) as [_ Hr']. eapply backoff_then_no_backoff; eassumption.
  - exact Hr.
Qed.

Lemma backoff_try {A} (body : M A) (handler : exn -> M A) :
  keeps anywhere one_backoff body -> (forall e, keeps anywhere no_backoff (handler e)) ->
  keeps anywhere one_backoff (try_except body handler).
Proof.
  intros Hm Hk w _. split; [exact I |]. unfold try_except.
  destruct (Hm w I) as [_ Hr]. destruct (body w) as [[a|e] w1]; cbn [snd] in *.
  - exact Hr.
  - destruct (Hk e w1 I) as [_ Hr']. eapply backoff_then_no_backoff; eassumption.
Qed.

Lemma backoff_of_no_backoff {A} (m : M A) :
  keeps anywhere no_backoff m -> keeps anywhere one_backoff m.
Proof.
  intros Hm w _. split; [exact I |]. apply no_backoff_one_backoff. apply (Hm w I).
Qed.

Lemma generate_and_release_one_backoff (env : Env) (d : path) (parts : list part)
    (u : Uploaded) :
  keeps anywhere one_backoff (generate_and_release env d parts u).
Proof.
  unfold generate_and_release. cbv zeta.
  apply backoff_bind_l; [unfold log; nw_leaf | intros _].
  apply keeps_get_bind. intros w _.
  apply backoff_bind_r; [apply wrapped_generation_one_backoff | intros text].
  apply keeps_bind; [apply no_backoff_trans | | intros _; apply release_uploaded_no_backoff].
  keeps_unfold. no_backoff_tac.
Qed.

Lemma upload_to_gemini_one_backoff (env : Env) :
  keeps anywhere one_backoff (upload_to_gemini env).
Proof.
  unfold upload_to_gemini. cbv zeta.
  apply backoff_bind_l; [unfold log; nw_leaf | intros _].
  apply keeps_get_bind. intros w _.
  destruct (String.eqb _ ""); [apply backoff_of_no_backoff; no_backoff_tac |].
  destruct (negb _); [apply backoff_of_no_backoff; unfold log; no_backoff_tac |].
  unfold with_target_dir. apply keeps_get_bind. intros w1 _.
  destruct (target_dir w1) as [d|]; [| apply backoff_of_no_backoff; no_backoff_tac].
  apply backoff_bind_l;
    [destruct (dry_run (config w)); unfold read_text; no_backoff_tac | intros prompt_text].
  apply backoff_bind_l;
    [destruct (negb _); unfold check_prompt_tokens, log; no_backoff_tac | intros _].
  apply backoff_bind_l; [apply collect_files_to_upload_no_backoff | intros files].
  destruct (negb _); [| apply backoff_of_no_backoff; unfold log; no_backoff_tac].
  apply backoff_bind_l; [apply upload_files_no_backoff | intros up].
  apply generate_and_release_one_backoff.
Qed.

Lemma run_body_one_backoff (env : Env) (video : path) (pt notes : option string) :
  keeps anywhere one_backoff (run_body env video pt notes).
Proof.
  unfold run_body.
  apply backoff_bind_l; [nw_leaf | intros _].
  apply backoff_bind_l; [unfold log; nw_leaf | intros _].
  apply backoff_bind_l; [apply extract_datetime_no_backoff | intros dt].
  apply backoff_bind_l; [apply create_target_directory_no_backoff | intros _].
  apply backoff_bind_l; [apply convert_video_no_backoff | intros _].
  apply backoff_bind_l; [apply extract_audio_no_backoff | intros _].
  apply backoff_bind_l;
    [destruct (wants_frames pt); [apply extract_frames_no_backoff | no_backoff_tac]
    | intros _].
  apply backoff_bind_l; [apply create_meeting_md_no_backoff | intros _].
  apply backoff_bind_l; [apply select_and_copy_prompt_no_backoff | intros _].
  apply backoff_bind_l; [apply create_note_txt_no_backoff | intros _].
  apply backoff_bind_r; [apply upload_to_gemini_one_backoff | intros _].
  apply keeps_bind; [apply no_backoff_trans | | intros _; unfold log; nw_leaf].
  apply keeps_get_bind. intros w _.
  destruct (negb _); [apply cleanup_no_backoff | no_backoff_tac].
Qed.

Lemma total_app (a b : list Z) : total (a ++ b) = total a + total b.
Proof. unfold total. induction a as [|x a IH]; cbn [app fold_right]; lia. Qed.

(** X26. [run] sleeps in two places: the upload loop pauses for a tenth
    of a second after each upload that succeeded, and the retry wrapper
    around the generation request sleeps between attempts. A run goes
    through the wrapper at most once: its sleeps there are the first [k]
    delays 60, 120, 240, 480, 960 for some [k <= 5], in all at most 1860
    seconds, with at most six generation requests sent; and a run adds no
    more pauses than upload requests. *)
Theorem run_waits_through_one_backoff_at_most (env : Env) (video : path)
    (pt notes : option string) (w : World) :
  let r := run env video pt notes w in
  exists k : nat,
    (k <= 5)%nat
    /\ sleeps (trace (snd r)) = sleeps (trace w) ++ backoff_schedule k
    /\ total (sleeps (trace (snd r))) <= total (sleeps (trace w)) + 1860
    /\ (gen_calls w <= gen_calls (snd r) <= gen_calls w + 6)%nat
    /\ (pauses (trace w) <= pauses (trace (snd r)))%nat
    /\ (pauses (trace (snd r)) - pauses (trace w)
        <= uploads (trace (snd r)) - uploads (trace w))%nat.
Proof.
  intros r. subst r.
  assert (H : keeps anywhere one_backoff (run env video pt notes)).
  { unfold run. apply backoff_try; [apply run_body_one_backoff | intros e].
    apply keeps_bind; [apply no_backoff_trans | unfold log; nw_leaf | intros _].
    apply keeps_bind; [apply no_backoff_trans | apply cleanup_on_failure_no_backoff |].
    intros _. no_backoff_tac. }
  destruct (H w I) as [_ (k & Hk & Hs & Hg & Hp & Hu)].
  exists k. split; [exact Hk |]. split; [exact Hs |].
  split; [| split; [lia | split; [exact Hp | lia]]].
  rewrite Hs, total_app. unfold backoff_schedule. rewrite total_delays.
  cbn [Nat.add]. change (2 ^ Z.of_nat 0) with 1.
  assert (2 ^ Z.of_nat k <= 2 ^ 5) by (apply Z.pow_le_mono_r; lia).
  lia.
Qed.
